(** * PiePerseus: the apk patch-and-repackage pipeline of [pieperseus.py]

    A shallow embedding of the pipeline orchestrator: the stage functions
    ([build_perseus_lib], [extract_from_packages], [get_version],
    [decompile_apk], [copy_perseus_libs], [patch], [rebuild], [sign_apk],
    [compress_libs], [main]) are written in a small state-and-exit monad
    over a model of the file system.  Programs the script starts
    ([subprocess.run], [os.system]) are oracles of the environment; every
    start is recorded in a trace. *)

From Stdlib Require Import ZArith Lia Ascii String.
From stdpp Require Import base option strings list gmap sorting pretty.

Local Open Scope string_scope.
Local Open Scope Z_scope.

(** ** Strings *)

Module Str.

(** [s.removeprefix(p)] when [s.startswith(p)], as an option. *)
Fixpoint strip_prefix (p s : string) : option string :=
  match p with
  | EmptyString => Some s
  | String c p' =>
      match s with
      | String d s' => if decide (c = d) then strip_prefix p' s' else None
      | EmptyString => None
      end
  end.

Definition startswith (s p : string) : bool :=
  bool_decide (is_Some (strip_prefix p s)).

Definition removeprefix (s p : string) : string :=
  default s (strip_prefix p s).

Fixpoint endswith_char (s : string) (c : ascii) : bool :=
  match s with
  | EmptyString => false
  | String d EmptyString => bool_decide (c = d)
  | String _ s' => endswith_char s' c
  end.

Fixpoint contains_char (c : ascii) (s : string) : bool :=
  match s with
  | EmptyString => false
  | String d s' => bool_decide (c = d) || contains_char c s'
  end.

Fixpoint all_chars (P : ascii → bool) (s : string) : bool :=
  match s with
  | EmptyString => true
  | String d s' => P d && all_chars P s'
  end.

(** [s.endswith(suffix)] *)
Fixpoint endswith (s suffix : string) : bool :=
  bool_decide (s = suffix) ||
  match s with
  | EmptyString => false
  | String _ s' => endswith s' suffix
  end.

(** [sub in s] *)
Fixpoint contains (s sub : string) : bool :=
  startswith s sub ||
  match s with
  | EmptyString => false
  | String _ s' => contains s' sub
  end.

(** [s.rpartition(c)]: the text before and after the last [c]. *)
Fixpoint rsplit (c : ascii) (s : string) : option (string * string) :=
  match s with
  | EmptyString => None
  | String d s' =>
      match rsplit c s' with
      | Some (h, t) => Some (String d h, t)
      | None => if decide (c = d) then Some (EmptyString, s') else None
      end
  end.

(** The double quote, as a string. *)
Definition dquote : string := String "034"%char EmptyString.

Fixpoint join (sep : string) (l : list string) : string :=
  match l with
  | [] => ""
  | [x] => x
  | x :: l' => x +:+ sep +:+ join sep l'
  end.

End Str.

(** ** Paths ([os.path], POSIX flavour) *)

Module Path.

Definition isabs (p : string) : bool := Str.startswith p "/".

(** [os.path.join a b] *)
Definition join (a b : string) : string :=
  if isabs b then b
  else if bool_decide (a = "") || Str.endswith_char a "/" then a +:+ b
  else a +:+ "/" +:+ b.

Definition join3 (a b c : string) : string := join (join a b) c.

(** [s.rstrip('/')] *)
Fixpoint rstrip_sep (s : string) : string :=
  match s with
  | EmptyString => EmptyString
  | String d s' =>
      let r := rstrip_sep s' in
      if bool_decide (r = "") && bool_decide (d = "/"%char) then EmptyString
      else String d r
  end.

(** [os.path.split p]: the part up to the last separator, without its
    trailing separators unless it is nothing else, and the part after. *)
Definition split (p : string) : string * string :=
  match Str.rsplit "/" p with
  | Some (h, t) =>
      let head := h +:+ "/" in
      (if bool_decide (rstrip_sep head = "") then head else rstrip_sep head, t)
  | None => ("", p)
  end.

Definition basename (p : string) : string :=
  match Str.rsplit "/" p with
  | Some (_, t) => t
  | None => p
  end.

(** A name of one directory entry: not empty, without a separator, and
    neither [.] nor [..]. *)
Definition is_name (d : string) : bool :=
  negb (bool_decide (d = "")) && negb (Str.contains_char "/" d) &&
  negb (bool_decide (d = ".")) && negb (bool_decide (d = "..")).

(** The directory a path lies in; used for [os.chdir('..')]. *)
Definition parent (p : string) : string :=
  match Str.rsplit "/" p with
  | Some (h, _) => if bool_decide (h = "") then "/" else h
  | None => p
  end.

End Path.

(** ** File system *)

(** A file holds bytes, or is a zip-like container of entries: the apk and
    the scratch [.zip] the archive tool works on.  An [ArchiveEntry] is a
    path with a payload; the entry's identity is its path, so a container
    is a finite map. *)
#[local] Set Warnings "-register-all".

Inductive content :=
  | Blob (bytes : list Byte.byte)
  | Zip (entries : gmap string content).

Inductive node :=
  | Dir
  | File (c : content).

(** Nodes by absolute path. *)
Abbreviation filesystem := (gmap string node).

Definition isfile_at (fs : filesystem) (p : string) : bool :=
  match fs !! p with Some (File _) => true | _ => false end.

Definition isdir_at (fs : filesystem) (p : string) : bool :=
  match fs !! p with Some Dir => true | _ => false end.

(** The name of [k] inside directory [d], when [k] is an entry of [d]. *)
Definition child_name (d k : string) : option string :=
  n ← Str.strip_prefix (Path.join d "") k;
  if bool_decide (n = "") || Str.contains_char "/" n then None else Some n.

(** [os.listdir d] (in the order of the map's keys; every caller sorts). *)
Definition listdir_at (fs : filesystem) (d : string) : list string :=
  omap (λ kv, child_name d kv.1) (map_to_list fs).

(** [shutil.rmtree d]: the node and everything beneath it. *)
Definition rmtree_at (fs : filesystem) (d : string) : filesystem :=
  filter (λ kv, kv.1 ≠ d ∧ ¬ Str.startswith kv.1 (Path.join d "")) fs.

(** [os.rename src dst] of a node with what lies beneath it. *)
Definition rename_at (fs : filesystem) (src dst : string) : filesystem :=
  match fs !! src with
  | Some (File c) => <[dst := File c]> (delete src fs)
  | Some Dir =>
      let moved := filter (λ kv, kv.1 = src ∨ Str.startswith kv.1 (Path.join src "")) fs in
      kmap (λ k, dst +:+ Str.removeprefix k src) moved ∪ rmtree_at fs src
  | None => fs
  end.

(** ** Shell-style file name patterns ([fnmatch], [glob]) *)

Module Glob.

Inductive tok := Star | Any | Lit (c : ascii).

(** [fnmatch.translate]: [*] and [?] are wildcards, every other
    character stands for itself.  Bracket classes are not modelled: no
    pattern of the script has one, and a package name has none (see
    [plain]). *)
Fixpoint compile (pat : string) : list tok :=
  match pat with
  | EmptyString => []
  | String c pat' =>
      (if decide (c = "*"%char) then Star
       else if decide (c = "?"%char) then Any else Lit c) :: compile pat'
  end.

Fixpoint matches (p : list tok) (s : string) : bool :=
  match p with
  | [] => bool_decide (s = "")
  | Star :: p' =>
      (fix skip (s : string) : bool :=
         matches p' s ||
         match s with
         | EmptyString => false
         | String _ s' => skip s'
         end) s
  | Any :: p' =>
      match s with
      | EmptyString => false
      | String _ s' => matches p' s'
      end
  | Lit c :: p' =>
      match s with
      | EmptyString => false
      | String d s' => bool_decide (c = d) && matches p' s'
      end
  end.

Definition fnmatch (name pat : string) : bool := matches (compile pat) name.

Definition ishidden (s : string) : bool := Str.startswith s ".".

(** [glob] lists a hidden name only for a pattern that is hidden too. *)
Definition selects (pat name : string) : bool :=
  (ishidden pat || negb (ishidden name)) && fnmatch name pat.

(** [glob.has_magic]: a character that [glob] expands is in the text. *)
Definition has_magic (s : string) : bool :=
  negb (Str.all_chars (λ c, negb (bool_decide (c ∈ ["*"; "?"; "["]%char))) s).

(** No character that [glob] treats as magic, and no separator. *)
Definition plain (s : string) : bool :=
  Str.all_chars (λ c, negb (bool_decide (c ∈ ["*"; "?"; "["; "/"]%char))) s.

End Glob.

(** [sorted(l)] on strings: code point order, which on UTF-8 bytes is the
    byte-wise lexicographic order. *)
Definition sorted (l : list string) : list string := merge_sort String.le l.

(** ** The process and its environment *)

Inductive level := DEBUG | INFO | WARNING | ERROR.

(** How [subprocess.run] wires the child's output:
    [capture_output=True]; [stdout=PIPE, stderr=STDOUT]; [stdout=PIPE]. *)
Inductive stdio := Capture | Merged | StdoutOnly.

(** A [CompletedProcess]. *)
Record completed := Completed {
  returncode : Z;
  stdout : string;
  stderr : string;
}.

(** What the script does to its surroundings: the programs it starts
    ([subprocess.run], [os.system]) and the directories it scans
    ([glob.glob]). *)
Inductive event :=
  | Run (argv : list string) (io : stdio)
  | System (cmd : string)
  | Scan (pathname : string).

#[global] Instance stdio_eq_dec : EqDecision stdio.
Proof. solve_decision. Defined.
#[global] Instance event_eq_dec : EqDecision event.
Proof. solve_decision. Defined.
#[global] Instance level_eq_dec : EqDecision level.
Proof. solve_decision. Defined.

(** What the script is configured with and what it cannot decide itself.
    [exec argv io cwd fs] is [subprocess.run]: [None] when the executable
    is not found, else the completed process, with its output decoded,
    and the file system it leaves; other ways to fail (no permission to
    execute, output that cannot be decoded) are not modelled.  [shell cmd cwd fs] is [os.system], whose status the script
    never reads.  [time n] is the clock at its [n]-th reading, in whole
    seconds since the epoch; [getmtime p] is [os.path.getmtime], [None]
    for an [OSError].  [elapsed] renders [round(end - start, 2)], a
    float. *)
Record environment := {
  pkg : string;
  rootdir : string;
  is_windows : bool;
  cpu_count : N;
  exec : list string → stdio → string → filesystem → option (completed * filesystem);
  shell : string → string → filesystem → filesystem;
  time : nat → Z;
  getmtime : string → option Z;
  elapsed : Z → Z → string;
}.

(** The state of the process: the globals [skip], [quick_rebuild] and
    [pkg_version], the working directory, the file system, what was
    logged, what was printed to [sys.stderr], and the programs started. *)
Record world := World {
  fs : filesystem;
  cwd : string;
  ticks : nat;
  skip : bool;
  quick_rebuild : bool;
  pkg_version : string;
  logged : list (level * string);
  printed : list string;
  trace : list event;
}.

Definition set_fs (f : filesystem) (w : world) : world :=
  World f (cwd w) (ticks w) (skip w) (quick_rebuild w) (pkg_version w)
        (logged w) (printed w) (trace w).
Definition set_cwd (d : string) (w : world) : world :=
  World (fs w) d (ticks w) (skip w) (quick_rebuild w) (pkg_version w)
        (logged w) (printed w) (trace w).
Definition set_ticks (n : nat) (w : world) : world :=
  World (fs w) (cwd w) n (skip w) (quick_rebuild w) (pkg_version w)
        (logged w) (printed w) (trace w).
Definition set_flags (s q : bool) (w : world) : world :=
  World (fs w) (cwd w) (ticks w) s q (pkg_version w)
        (logged w) (printed w) (trace w).
Definition set_pkg_version (v : string) (w : world) : world :=
  World (fs w) (cwd w) (ticks w) (skip w) (quick_rebuild w) v
        (logged w) (printed w) (trace w).
Definition add_logged (l : level) (m : string) (w : world) : world :=
  World (fs w) (cwd w) (ticks w) (skip w) (quick_rebuild w) (pkg_version w)
        (logged w ++ [(l, m)]) (printed w) (trace w).
Definition add_printed (m : string) (w : world) : world :=
  World (fs w) (cwd w) (ticks w) (skip w) (quick_rebuild w) (pkg_version w)
        (logged w) (printed w ++ [m]) (trace w).
Definition add_trace (e : event) (w : world) : world :=
  World (fs w) (cwd w) (ticks w) (skip w) (quick_rebuild w) (pkg_version w)
        (logged w) (printed w) (trace w ++ [e]).

(** The world the interpreter starts [main] in: the globals as the module
    sets them, the working directory [rootdir = os.getcwd()]. *)
Definition initial (E : environment) (f : filesystem) : world :=
  World f (rootdir E) 0 false false "0" [] [] [].

(** ** The monad: state, [exit] and exceptions *)

Inductive exn :=
  | FileNotFoundError
  | FileExistsError
  | NotADirectoryError
  | IsADirectoryError
  | ShutilError
  | OSError
  | ValueError.

#[global] Instance exn_eq_dec : EqDecision exn.
Proof. solve_decision. Defined.

Inductive outcome (A : Type) :=
  | Ret (a : A)
  | Exit (code : Z)
  | Raise (e : exn).
Arguments Ret {A} a.
Arguments Exit {A} code.
Arguments Raise {A} e.

Definition M (A : Type) : Type := world → outcome A * world.

Definition ret {A} (a : A) : M A := λ w, (Ret a, w).

Definition bind {A B} (m : M A) (k : A → M B) : M B := λ w,
  match m w with
  | (Ret a, w') => k a w'
  | (Exit c, w') => (Exit c, w')
  | (Raise e, w') => (Raise e, w')
  end.

#[global] Instance M_ret : MRet M := @ret.
#[global] Instance M_bind : MBind M := λ A B k m, bind m k.

(** [exit(code)]: [SystemExit], which no handler of the script catches. *)
Definition exit {A} (code : Z) : M A := λ w, (Exit code, w).

Definition raise {A} (e : exn) : M A := λ w, (Raise e, w).

(** [try: m except <exceptions h catches>: h] *)
Definition try_except {A} (m : M A) (catches : exn → bool) (h : M A) : M A := λ w,
  match m w with
  | (Raise e, w') => if catches e then h w' else (Raise e, w')
  | r => r
  end.

Definition get {A} (f : world → A) : M A := λ w, (Ret (f w), w).
Definition modify (f : world → world) : M unit := λ w, (Ret tt, f w).

(** The status the process ends with: 0 when [main] returns, the argument
    of [exit], and 1 for an exception nobody caught. *)
Definition exit_status {A} (o : outcome A) : Z :=
  match o with
  | Ret _ => 0
  | Exit c => c
  | Raise _ => 1
  end.

(** ** Primitives of the script's libraries *)

Section Primitives.
Context (E : environment).

(** [logging.debug/info/warning/error] *)
Definition logging (l : level) (msg : string) : M unit := modify (add_logged l msg).

(** [print(msg, file=sys.stderr)] *)
Definition eprint (msg : string) : M unit := modify (add_printed msg).

(** The absolute path the system resolves [p] to. *)
Definition abspath (here p : string) : string :=
  match p with
  | EmptyString => here
  | _ => Path.join here p
  end.

Definition isfile (p : string) : M bool := get (λ w, isfile_at (fs w) (abspath (cwd w) p)).
Definition isdir (p : string) : M bool := get (λ w, isdir_at (fs w) (abspath (cwd w) p)).
(** [os.listdir p]; [.] is the working directory. *)
Definition listdir (p : string) : M (list string) :=
  get (λ w, listdir_at (fs w) (if String.eqb p "." then cwd w else abspath (cwd w) p)).

(** [os.chdir d] *)
Definition chdir (d : string) : M unit := λ w,
  if String.eqb d ".." then (Ret tt, set_cwd (Path.parent (cwd w)) w)
  else match fs w !! abspath (cwd w) d with
       | Some Dir => (Ret tt, set_cwd (abspath (cwd w) d) w)
       | Some (File _) => (Raise NotADirectoryError, w)
       | None => (Raise FileNotFoundError, w)
       end.

(** [os.mkdir d], for a name [d] of an entry of the working directory
    ([Path.is_name]): the directory it is made in is there.  For a path
    through other directories [os.mkdir] also fails when one is
    missing. *)
Definition mkdir (d : string) : M unit := λ w,
  match fs w !! abspath (cwd w) d with
  | Some _ => (Raise FileExistsError, w)
  | None => (Ret tt, set_fs (<[abspath (cwd w) d := Dir]> (fs w)) w)
  end.

(** [os.remove p] *)
Definition remove (p : string) : M unit := λ w,
  match fs w !! abspath (cwd w) p with
  | Some (File _) => (Ret tt, set_fs (delete (abspath (cwd w) p) (fs w)) w)
  | Some Dir => (Raise IsADirectoryError, w)
  | None => (Raise FileNotFoundError, w)
  end.

(** [shutil.rmtree d] *)
Definition rmtree (d : string) : M unit := λ w,
  match fs w !! abspath (cwd w) d with
  | Some Dir => (Ret tt, set_fs (rmtree_at (fs w) (abspath (cwd w) d)) w)
  | Some (File _) => (Raise NotADirectoryError, w)
  | None => (Raise FileNotFoundError, w)
  end.

(** [shutil.move src dst]: into [dst] when that is a directory, else
    onto it. *)
Definition move (src dst : string) : M unit := λ w,
  let s := abspath (cwd w) src in
  let d := abspath (cwd w) dst in
  match fs w !! s with
  | None => (Raise FileNotFoundError, w)
  | Some n =>
      match fs w !! d with
      | Some Dir =>
          let real_dst := Path.join d (Path.basename s) in
          match fs w !! real_dst with
          | Some _ => (Raise ShutilError, w)
          | None => (Ret tt, set_fs (rename_at (fs w) s real_dst) w)
          end
      | Some (File _) =>
          match n with
          | File _ => (Ret tt, set_fs (rename_at (fs w) s d) w)
          | Dir => (Raise FileExistsError, w)
          end
      | None => (Ret tt, set_fs (rename_at (fs w) s d) w)
      end
  end.

(** [glob.glob pathname], for a pathname whose directory part is
    literal: [glob] expands [*], [?] and [[] there too, so the directory
    part must be free of them ([Glob.has_magic]). *)
Definition glob_at (w : world) (pathname : string) : list string :=
  let '(dirname, pat) := Path.split pathname in
  (Path.join dirname) <$>
    filter (λ n, Glob.selects pat n) (listdir_at (fs w) (abspath (cwd w) dirname)).

Definition glob (pathname : string) : M (list string) := λ w,
  (Ret (glob_at w pathname), add_trace (Scan pathname) w).

(** [subprocess.run argv] *)
Definition run (argv : list string) (io : stdio) : M completed := λ w,
  let w' := add_trace (Run argv io) w in
  match exec E argv io (cwd w) (fs w) with
  | None => (Raise FileNotFoundError, w')
  | Some (p, f) => (Ret p, set_fs f w')
  end.

(** [os.system cmd] *)
Definition system (cmd : string) : M unit := λ w,
  (Ret tt, set_fs (shell E cmd (cwd w) (fs w)) (add_trace (System cmd) w)).

(** [time.time()], in whole seconds *)
Definition time_time : M Z := λ w, (Ret (time E (ticks w)), set_ticks (S (ticks w)) w).

End Primitives.

(** ** [datetime]: calendar dates from timestamps, and [strftime] *)

Module Datetime.

Record t := Make {
  year : Z; month : Z; day : Z;
  hour : Z; minute : Z; second : Z;
}.

Definition DI400Y : Z := 146097.
Definition DI100Y : Z := 36524.
Definition DI4Y : Z := 1461.

(** [_DAYS_IN_MONTH] and [_DAYS_BEFORE_MONTH], indexed from 1. *)
Definition DAYS_IN_MONTH : list Z := [0; 31; 28; 31; 30; 31; 30; 31; 31; 30; 31; 30; 31].
Definition DAYS_BEFORE_MONTH : list Z :=
  [0; 0; 31; 59; 90; 120; 151; 181; 212; 243; 273; 304; 334].

(** The month and the day of the [n]-th day (from 0) of a year. *)
Definition month_day (n : Z) (leapyear : bool) : Z * Z :=
  let month := Z.shiftr (n + 50) 5 in
  let preceding :=
    DAYS_BEFORE_MONTH !!! Z.to_nat month + (if (2 <? month) && leapyear then 1 else 0) in
  if n <? preceding then
    let month' := month - 1 in
    let preceding' :=
      preceding - (DAYS_IN_MONTH !!! Z.to_nat month'
                   + (if (month' =? 2) && leapyear then 1 else 0)) in
    (month', n - preceding' + 1)
  else (month, n - preceding + 1).

(** [_ord2ymd]: year, month and day of a proleptic Gregorian ordinal,
    where day 1 is 0001-01-01. *)
Definition ord2ymd (ordinal : Z) : Z * Z * Z :=
  let n := ordinal - 1 in
  let n400 := n / DI400Y in let n := n mod DI400Y in
  let year := n400 * 400 + 1 in
  let n100 := n / DI100Y in let n := n mod DI100Y in
  let n4 := n / DI4Y in let n := n mod DI4Y in
  let n1 := n / 365 in let n := n mod 365 in
  let year := year + n100 * 100 + n4 * 4 + n1 in
  if (n1 =? 4) || (n100 =? 4) then (year - 1, 12, 31)
  else
    let leapyear := (n1 =? 3) && (negb (n4 =? 24) || (n100 =? 3)) in
    let '(m, d) := month_day n leapyear in
    (year, m, d).

(** The ordinal of 1970-01-01 and of 9999-12-31. *)
Definition EPOCH_ORDINAL : Z := 719163.
Definition MAX_ORDINAL : Z := 3652059.

(** [datetime.utcfromtimestamp ts] for a timestamp in whole seconds;
    [None] where Python raises because the year is not in 1..9999. *)
Definition utcfromtimestamp (ts : Z) : option t :=
  let ordinal := ts / 86400 + EPOCH_ORDINAL in
  let s := ts mod 86400 in
  if (1 <=? ordinal) && (ordinal <=? MAX_ORDINAL) then
    let '(y, m, d) := ord2ymd ordinal in
    Some (Make y m d (s / 3600) (s mod 3600 / 60) (s mod 60))
  else None.

(** [str(n).zfill(width)] for a number that is not negative. *)
Definition zfill (width : nat) (n : Z) : string :=
  let s := pretty (Z.to_N n) in
  String.concat "" (replicate (width - String.length s) "0") +:+ s.

(** [d.strftime('%Y%m%d%H%M%S')], the year with its century in four
    digits, as it is printed from the year 1000 on; for earlier years
    the C library decides about the padding. *)
Definition strftime (d : t) : string :=
  zfill 4 (year d) +:+ zfill 2 (month d) +:+ zfill 2 (day d) +:+
  zfill 2 (hour d) +:+ zfill 2 (minute d) +:+ zfill 2 (second d).

Definition is_digit (c : ascii) : bool :=
  bool_decide (c ∈ ["0"; "1"; "2"; "3"; "4"; "5"; "6"; "7"; "8"; "9"]%char).

(** The number a string of decimal digits denotes. *)
Fixpoint number_of (acc : Z) (s : string) : Z :=
  match s with
  | EmptyString => acc
  | String c s' => number_of (10 * acc + (Z.of_nat (nat_of_ascii c) - 48)) s'
  end.

(** A string reads as [YYYYMMDDHHMMSS]: fourteen digits whose fields
    are a month, a day of the month, an hour, a minute and a second. *)
Definition valid_stamp (s : string) : bool :=
  bool_decide (String.length s = 14%nat) && Str.all_chars is_digit s &&
  (let field (i : nat) : Z := number_of 0 (substring i 2 s) in
   bool_decide (1 ≤ field 4%nat ≤ 12) && bool_decide (1 ≤ field 6%nat ≤ 31) &&
   bool_decide (0 ≤ field 8%nat ≤ 23) && bool_decide (0 ≤ field 10%nat ≤ 59) &&
   bool_decide (0 ≤ field 12%nat ≤ 59)).

(** Checkers for the exhaustive proofs about [month_day] and [zfill]. *)
Definition month_day_ok (n : Z) : bool :=
  forallb (λ leap, let '(m, d) := month_day n leap in
                   (1 <=? m) && (m <=? 12) && (1 <=? d) && (d <=? 31)) [false; true].

Definition zfill2_ok (n : Z) : bool :=
  match zfill 2 n with
  | String a (String b EmptyString) =>
      is_digit a && is_digit b && (number_of 0 (String a (String b EmptyString)) =? n)
  | _ => false
  end.

Definition zfill4_ok (n : Z) : bool :=
  match zfill 4 n with
  | String a (String b (String c (String d EmptyString))) =>
      is_digit a && is_digit b && is_digit c && is_digit d
  | _ => false
  end.

End Datetime.

(** ** [re.search(r"versionName='([^']+)'", text)] *)

Module Re.

Definition key : string := "versionName='".

(** The longest run of characters other than the quote, and the rest. *)
Fixpoint span_value (s : string) : string * string :=
  match s with
  | EmptyString => (EmptyString, EmptyString)
  | String c s' =>
      if decide (c = "'"%char) then (EmptyString, s)
      else let '(v, r) := span_value s' in (String c v, r)
  end.

(** A match that starts at the first character; group 1 of it.  The
    group is greedy and the quote that must follow it is not in its
    class, so there is one way to match. *)
Definition match_here (s : string) : option string :=
  r ← Str.strip_prefix key s;
  let '(v, rest) := span_value r in
  if bool_decide (v = "") then None
  else if Str.startswith rest "'" then Some v else None.

(** Group 1 of the leftmost match. *)
Fixpoint search (s : string) : option string :=
  match match_here s with
  | Some v => Some v
  | None =>
      match s with
      | EmptyString => None
      | String _ s' => search s'
      end
  end.

End Re.

(** ** The stages of [pieperseus.py] *)

Section Pipeline.
Context (E : environment).

Definition mkcd (d : string) : M unit :=
  present ← isdir d;
  (if negb present then mkdir d else mret tt);;
  chdir d.

Definition executable_path (e : string) : string :=
  Path.join3 (rootdir E) "bin" e +:+ (if is_windows E then ".exe" else "").

Definition bbox (cmd : string) : M unit :=
  let busybox :=
    Path.join3 (rootdir E) "bin" "busybox" +:+ (if is_windows E then ".exe" else "") in
  logging INFO (busybox +:+ " " +:+ cmd);;
  system E (busybox +:+ " " +:+ cmd).

(** [datetime.datetime.utcfromtimestamp(ts).strftime('%Y%m%d%H%M%S')] *)
Definition stamp_of (ts : Z) : M string :=
  match Datetime.utcfromtimestamp ts with
  | Some d => mret (Datetime.strftime d)
  | None => raise ValueError
  end.

(** [datetime.datetime.utcnow().strftime('%Y%m%d%H%M%S')] *)
Definition utcnow_stamp : M string := now ← time_time E; stamp_of now.

(** [os.path.getmtime p], in whole seconds *)
Definition os_getmtime (p : string) : M Z := λ w,
  match getmtime E (abspath (cwd w) p) with
  | Some t => (Ret t, w)
  | None => (Raise OSError, w)
  end.

(** The candidates of [get_version], sorted. *)
Definition apk_candidates : M (list string) :=
  by_name ← glob (pkg E +:+ "*.apk");
  any ← glob "*.apk";
  mret (sorted (by_name ++ any)).

Definition get_version : M unit :=
  logging INFO "getting version from apk file in current directory";;
  candidates ← apk_candidates;
  match candidates with
  | [] =>
      logging WARNING "no apk found to extract version; falling back to timestamp";;
      v ← utcnow_stamp;
      modify (set_pkg_version v)
  | apk :: _ =>
      logging INFO ("Found apk for version extraction: " +:+ apk);;
      returned ← try_except
        (proc ← run E ["aapt"; "dump"; "badging"; apk] Merged;
         if returncode proc =? 0 then
           match Re.search (stdout proc) with
           | Some v =>
               modify (set_pkg_version v);;
               logging INFO ("Extracted versionName via aapt: " +:+ v);;
               mret true
           | None => mret false
           end
         else mret false)
        (λ e, bool_decide (e = FileNotFoundError))
        (logging DEBUG "aapt not found";; mret false);
      if returned : bool then mret tt
      else
        try_except
          (mtime ← os_getmtime apk;
           v ← stamp_of mtime;
           modify (set_pkg_version v);;
           logging WARNING ("Using timestamp fallback version: " +:+ v))
          (λ _, true)
          (v ← utcnow_stamp;
           modify (set_pkg_version v);;
           logging WARNING ("Using UTC-now fallback version: " +:+ v))
  end.

Definition ndk_build_cmd (do_clean : bool) : list string :=
  ["ndk-build" +:+ (if is_windows E then ".cmd" else "");
   "NDK_PROJECT_PATH=./src";
   "NDK_APPLICATION_MK=./src/Application.mk";
   "APP_BUILD_SCRIPT=./src/Android.mk";
   "APP_PLATFORM=android-21";
   "-j" +:+ pretty (cpu_count E)] ++ (if do_clean then ["clean"] else []).

Definition build_perseus_lib (do_clean : bool) : M unit :=
  logging INFO ((if do_clean then "cleaning" else "building") +:+ " perseus libs");;
  chdir "PerseusLib";;
  ndk_proc ← run E (ndk_build_cmd do_clean) Capture;
  let output := stdout ndk_proc in
  let return_code := returncode ndk_proc in
  (if negb (return_code =? 0) then
     logging ERROR "ndk-build failed";;
     eprint "======== ndk-build stdout ========";;
     eprint output;;
     eprint "======== ndk-build stderr ========";;
     eprint (stderr ndk_proc);;
     exit 1
   else mret tt);;
  chdir "..".

(** The archives [extract_from_packages] chooses from, sorted: those
    whose name starts with the package name, and only when there is
    none, any [.zip], [.7z] or [part] file. *)
Definition package_candidates : M (list string) :=
  by_name ← glob (Path.join3 (rootdir E) "packages" (pkg E +:+ "*"));
  let candidates := sorted by_name in
  if bool_decide (candidates = []) then
    zips ← glob (Path.join3 (rootdir E) "packages" "*.zip");
    sevenzs ← glob (Path.join3 (rootdir E) "packages" "*.7z");
    parts ← glob (Path.join3 (rootdir E) "packages" "*part*");
    mret (sorted (zips ++ sevenzs ++ parts))
  else mret candidates.

(** [repr] of a list of names, for the log; as [repr] writes names that
    hold no quote, no backslash and no character it escapes. *)
Definition repr_names (l : list string) : string :=
  "[" +:+ Str.join ", " ((λ n, "'" +:+ n +:+ "'") <$> l) +:+ "]".

Definition extract_from_packages : M unit :=
  skipping ← get skip;
  present ← isfile (pkg E +:+ ".apk");
  if skipping && present then
    logging INFO (pkg E +:+ ".apk already exists, skipping")
  else
    logging INFO "searching for package archives in packages/";;
    candidates ← package_candidates;
    match candidates with
    | [] =>
        logging ERROR "No package archives found in packages/; expected something like com.bilibili.AzurLane.zip or split archives.";;
        exit 1
    | archive :: _ =>
        logging INFO ("Using archive: " +:+ archive);;
        let sevenz := executable_path "7zz" in
        bundled ← isfile sevenz;
        (if bundled : bool then
           logging INFO ("extracting with " +:+ sevenz);;
           proc ← run E [sevenz; "x"; "-y"; archive] Merged;
           if negb (returncode proc =? 0) then
             logging ERROR "7zz extraction failed";;
             eprint (stdout proc);;
             exit 1
           else mret tt
         else
           logging INFO "7zz not found in bin/, falling back to system unzip";;
           proc ← run E ["unzip"; "-o"; archive; "-d"; "."] Merged;
           if negb (returncode proc =? 0) then
             logging ERROR "unzip extraction failed";;
             eprint (stdout proc);;
             exit 1
           else mret tt);;
        extracted ← isfile (pkg E +:+ ".apk");
        if negb extracted then
          names ← listdir ".";
          logging ERROR ("After extraction could not find " +:+ pkg E +:+
                         ".apk in apk_build/ (extracted files: " +:+
                         repr_names names +:+ ")");;
          exit 1
        else mret tt
    end.

Definition apktool : string := Path.join3 (rootdir E) "bin" "apktool.jar".

Definition decompile_apk : M unit :=
  skipping ← get skip;
  present ← isdir (pkg E);
  if skipping && present then
    logging INFO (pkg E +:+ ".apk is already decompiled, skipping")
  else
    logging INFO ("decompiling " +:+ pkg E +:+ ".apk");;
    present ← isdir (pkg E);
    (if present : bool then rmtree (pkg E) else mret tt);;
    system E ("java -jar " +:+ apktool +:+ " -q -f d " +:+ pkg E +:+ ".apk").

Definition copy_perseus_libs : M unit :=
  logging INFO "copying Perseus libs";;
  bbox ("sh -c " +:+ Str.dquote +:+ "cp -r ../PerseusLib/src/libs/* " +:+ pkg E +:+
        "/lib" +:+ Str.dquote).

Definition patch : M unit :=
  logging INFO "patching decompiled sources";;
  bbox ("sh " +:+ Path.join3 (rootdir E) "scripts" "patch.sh").

(** The file name of the patched apk for a resolved version. *)
Definition patched_apk (version : string) : string :=
  pkg E +:+ "-" +:+ version +:+ ".patched.apk".

Definition ABIS : list string := ["arm64-v8a"; "x86_64"; "x86"].

(** [libs]: the libraries in the decompiled tree, relative to the
    working directory. *)
Definition libs : list string :=
  (λ arch, pkg E +:+ "/lib/" +:+ arch +:+ "/libPerseus.so") <$> ABIS.

(** [libs_renamed]: their paths inside the apk. *)
Definition libs_renamed : list string :=
  (λ lib, Str.removeprefix lib (pkg E +:+ "/")) <$> libs.

(** [itertools.chain.from_iterable(zip(a, b))] *)
Definition chain_zip (a b : list string) : list string :=
  concat (zip_with (λ x y, [x; y]) a b).

Definition rebuild : M unit :=
  version ← get pkg_version;
  let newpkg := patched_apk version in
  let newzip := newpkg +:+ ".zip" in
  quick ← get quick_rebuild;
  present ← isfile newpkg;
  if quick && present then
    logging INFO ("rebuiling " +:+ pkg E +:+ ".apk quickly");;
    move newpkg newzip;;
    proc1 ← run E ([executable_path "7zz"; "-y"; "d"; newzip] ++ libs_renamed) StdoutOnly;
    logging INFO ("deleting libs in archive, ret=" +:+ pretty (returncode proc1));;
    proc2 ← run E ([executable_path "7zz"; "-y"; "a"; newzip] ++ libs) StdoutOnly;
    logging INFO ("adding libs to archive, ret=" +:+ pretty (returncode proc2));;
    proc3 ← run E ([executable_path "7zz"; "-y"; "rn"; newzip] ++ chain_zip libs libs_renamed)
                  StdoutOnly;
    logging INFO ("renaming libs in archive, ret=" +:+ pretty (returncode proc3));;
    move newzip newpkg
  else
    logging INFO ("rebuilding " +:+ pkg E +:+ ".apk with apktool");;
    system E ("java -jar " +:+ apktool +:+ " -q -f b " +:+ pkg E +:+ " -o " +:+ newpkg).

Definition sign_apk : M unit :=
  version ← get pkg_version;
  let f := patched_apk version in
  move f (f +:+ ".unsigned");;
  logging INFO "zipaligning apk";;
  let zipalign := "zipalign" +:+ (if is_windows E then ".exe" else "") in
  system E (zipalign +:+ " -pf 4 " +:+ f +:+ ".unsigned " +:+ f);;
  remove (f +:+ ".unsigned");;
  logging INFO "signing apk";;
  let apksigner := "apksigner" +:+ (if is_windows E then ".bat" else "") in
  let key := Path.join3 (rootdir E) "signing" "testkey.pk8" in
  let cert := Path.join3 (rootdir E) "signing" "testkey.x509.pem" in
  system E (apksigner +:+ " sign --key " +:+ key +:+ " --cert " +:+ cert +:+ " " +:+ f);;
  remove (f +:+ ".idsig").

(** What [os.walk] finds below [d]: each file with its path relative to
    [d], as [zf.write(full, arcname)] stores it. *)
Definition walk_files (f : filesystem) (d : string) : gmap string content :=
  list_to_map
    (omap (λ kv, match kv.2 with
                 | File c => (λ r, (r, c)) <$> Str.strip_prefix (Path.join d "") kv.1
                 | Dir => None
                 end) (map_to_list f)).

(** The modification times [zipfile] stores: local times in the years
    1980 to 2107.  The bounds leave a day on either side, so that they
    hold in every time zone. *)
Definition ZIP_FIRST : Z := 315619200.
Definition ZIP_LAST : Z := 4354732800.

Definition zip_storable (t : Z) : bool := (ZIP_FIRST <=? t) && (t <? ZIP_LAST).

(** [compress_libs], for files with modification times that
    [zipfile] stores ([zip_storable]); for others [zf.write] raises
    [ValueError]. *)
Definition compress_libs : M unit :=
  logging INFO "compressing Perseus libs into apk_build";;
  let libs_dir := Path.join (Path.join3 (rootdir E) "PerseusLib" "src") "libs" in
  here ← get cwd;
  let out_zip := Path.join here "perseus_libs.zip" in
  present ← isdir libs_dir;
  if negb present then
    logging WARNING ("Perseus libs dir not found: " +:+ libs_dir +:+ ", skipping compress")
  else
    clash ← isdir out_zip;
    (if clash : bool then raise IsADirectoryError
     else modify (λ w, set_fs (<[out_zip := File (Zip (walk_files (fs w) libs_dir))]> (fs w)) w));;
    logging INFO ("Written libs archive: " +:+ out_zip).

(** [main], after [argparse] has read [--skip] and [--quick-rebuild]. *)
Definition main (skip_arg quick_rebuild_arg : bool) : M unit :=
  modify (set_flags skip_arg quick_rebuild_arg);;
  start ← time_time E;
  build_perseus_lib false;;
  mkcd "apk_build";;
  extract_from_packages;;
  get_version;;
  decompile_apk;;
  copy_perseus_libs;;
  patch;;
  rebuild;;
  sign_apk;;
  compress_libs;;
  finish ← time_time E;
  version ← get pkg_version;
  logging INFO ("built apk in " +:+
                Path.join3 (rootdir E) "apk_build" (patched_apk version));;
  logging INFO ("done in " +:+ elapsed E start finish +:+ " seconds").

End Pipeline.

(** ** The archive tool *)

(** The contract of the bundled archive tool for the three subcommands
    [rebuild] uses, [7zz -y d|a|rn archive names...], on containers as
    finite maps.  [d] deletes the named entries.  [a] stores each named
    file of the disk under the name it was given on the command line
    (relative to the working directory), replacing an entry of that name,
    and creates the container when there is none; a name that is no
    regular file is skipped with a warning (status 1).  [rn] takes pairs
    of an old and a new name and renames in order.  A container that
    cannot be read is a fatal error (status 2) and nothing changes. *)
Module SevenZip.

Definition delete_entries (names : list string) (a : gmap string content) :
    gmap string content :=
  foldl (λ acc n, delete n acc) a names.

Definition add_files (f : filesystem) (dir : string) (names : list string)
    (a : gmap string content) : gmap string content :=
  foldl (λ acc n, match f !! Path.join dir n with
                  | Some (File c) => <[n := c]> acc
                  | _ => acc
                  end) a names.

Fixpoint rename_entries (pairs : list string) (a : gmap string content) :
    gmap string content :=
  match pairs with
  | old :: new :: pairs' =>
      rename_entries pairs'
        (match a !! old with
         | Some c => <[new := c]> (delete old a)
         | None => a
         end)
  | _ => a
  end.

Definition ok : completed := Completed 0 "" "".
Definition warning : completed := Completed 1 "" "".
Definition fatal : completed := Completed 2 "" "".

(** The tool installed at [exe]; no other program exists. *)
Definition tool (exe : string) (argv : list string) (io : stdio) (dir : string)
    (f : filesystem) : option (completed * filesystem) :=
  match argv with
  | e :: y :: cmd :: archive :: names =>
      if bool_decide (e = exe ∧ y = "-y") then
        let p := Path.join dir archive in
        if bool_decide (cmd = "d") then
          match f !! p with
          | Some (File (Zip a)) => Some (ok, <[p := File (Zip (delete_entries names a))]> f)
          | _ => Some (fatal, f)
          end
        else if bool_decide (cmd = "a") then
          let all_files := forallb (λ n, isfile_at f (Path.join dir n)) names in
          let status := if all_files then ok else warning in
          match f !! p with
          | Some (File (Zip a)) => Some (status, <[p := File (Zip (add_files f dir names a))]> f)
          | None => Some (status, <[p := File (Zip (add_files f dir names ∅))]> f)
          | _ => Some (fatal, f)
          end
        else if bool_decide (cmd = "rn") then
          match f !! p with
          | Some (File (Zip a)) => Some (ok, <[p := File (Zip (rename_entries names a))]> f)
          | _ => Some (fatal, f)
          end
        else Some (fatal, f)
      else None
  | _ => None
  end.

End SevenZip.

(** ** Environments to run the model in *)

(** The package name the script is written for. *)
Definition AZUR_LANE : string := "com.bilibili.AzurLane".

(** An environment in which no program can be started, at the epoch. *)
Definition bare (package root : string) : environment :=
  {| pkg := package; rootdir := root; is_windows := false; cpu_count := 8;
     exec := λ _ _ _ f, None; shell := λ _ _ f, f;
     time := λ _, 0; getmtime := λ _, Some 0; elapsed := λ _ _, "0.0" |}.

(** [E] with [run] as [subprocess.run]. *)
Definition with_exec (E : environment)
    (run : list string → stdio → string → filesystem → option (completed * filesystem)) :
    environment :=
  {| pkg := pkg E; rootdir := rootdir E; is_windows := is_windows E;
     cpu_count := cpu_count E; exec := run; shell := shell E;
     time := time E; getmtime := getmtime E; elapsed := elapsed E |}.

(** [E] with another clock and other modification times. *)
Definition with_times (E : environment) (clock : nat → Z) (mtime : string → option Z) :
    environment :=
  {| pkg := pkg E; rootdir := rootdir E; is_windows := is_windows E;
     cpu_count := cpu_count E; exec := exec E; shell := shell E;
     time := clock; getmtime := mtime; elapsed := elapsed E |}.

(** A name is fit to be the package name: not empty, and free of pattern
    characters and separators. *)
Definition package_name (s : string) : bool :=
  negb (bool_decide (s = "")) && Glob.plain s.

(** The directory the distributed archives are looked for in. *)
Definition packages_dir (E : environment) : string := Path.join (rootdir E) "packages".

(** A file of some bytes. *)
Definition file_of (bs : list Byte.byte) : node := File (Blob bs).

(** ** Worlds to run the model in *)

(** A process in directory [dir] over the files [f], with the two flags
    and the resolved version as given, that has not logged, printed or
    started anything yet. *)
Definition world_at (f : filesystem) (dir : string) (skipping quick : bool)
    (version : string) : world :=
  World f dir 0 skipping quick version [] [] [].

(** An archive tool that fails every time and changes nothing. *)
Definition failing_tool (argv : list string) (io : stdio) (dir : string)
    (f : filesystem) : option (completed * filesystem) :=
  Some (Completed 2 "" "", f).

(** A native build that fails. *)
Definition failing_build (argv : list string) (io : stdio) (dir : string)
    (f : filesystem) : option (completed * filesystem) :=
  Some (Completed 2 "compiling" "error: no rule to make target", f).

Definition APK_BUILD : string := "/work/apk_build".

(** The apk of an earlier run, for version 1.0. *)
Definition previous_build : filesystem :=
  {[ "/work/apk_build/com.bilibili.AzurLane-1.0.patched.apk" := File (Zip ∅) ]}.

(** ** Statements under test *)

(** [packages/] holds no archive the extraction would consider: no name
    that starts with the package name, ends in [.zip] or [.7z], or
    contains [part]. *)
Definition no_archive (E : environment) (w : world) : Prop :=
  ∀ n, n ∈ listdir_at (fs w) (packages_dir E) →
    Str.startswith n (pkg E) = false ∧ Str.endswith n ".zip" = false ∧
    Str.endswith n ".7z" = false ∧ Str.contains n "part" = false.

(** "If [packages/] holds no archive, extraction ends the process with
    status 1", with nothing said about [skip]. *)
Definition no_archive_is_fatal (E : environment) (w : world) : Prop :=
  no_archive E w → ∃ w', extract_from_packages E w = (Exit 1, w').

(** "When the badging tool exits with status 0 on the candidate and its
    output holds a field [versionName='V'], the resolved version is [V]",
    for any [V] and any place of the field in the output. *)
Definition badging_version_is_used (E : environment) (w : world) : Prop :=
  ∀ apk rest p f' pre V post,
    sorted (glob_at w (pkg E +:+ "*.apk") ++ glob_at w "*.apk") = apk :: rest →
    exec E ["aapt"; "dump"; "badging"; apk] Merged (cwd w) (fs w) = Some (p, f') →
    returncode p = 0 →
    stdout p = pre +:+ "versionName='" +:+ V +:+ "'" +:+ post →
    pkg_version (get_version E w).2 = V.

(** A badging tool that reports a package without a version name. *)
Definition aapt_without_version_name (argv : list string) (io : stdio) (dir : string)
    (f : filesystem) : option (completed * filesystem) :=
  Some (Completed 0 "package: name='com.bilibili.AzurLane' versionCode='7' versionName=''" "", f).

(** A badging tool that reports version 1.2.3. *)
Definition aapt_1_2_3 (argv : list string) (io : stdio) (dir : string)
    (f : filesystem) : option (completed * filesystem) :=
  Some (Completed 0 "package: name='com.bilibili.AzurLane' versionCode='7' versionName='1.2.3' platformBuildVersionName='14'" "", f).

(** "After the quick rebuild the three library entries of the apk hold
    the library files on disk, and every entry at another path is as it
    was", for an apk that has the three entries. *)
Definition libraries_swapped_rest_unchanged (E : environment) (w : world) : Prop :=
  ∀ a (c : string → content),
    fs w !! abspath (cwd w) (patched_apk E (pkg_version w)) = Some (File (Zip a)) →
    (∀ abi, abi ∈ ABIS → is_Some (a !! ("lib/" +:+ abi +:+ "/libPerseus.so"))) →
    (∀ abi, abi ∈ ABIS →
       fs w !! abspath (cwd w) (pkg E +:+ "/lib/" +:+ abi +:+ "/libPerseus.so")
         = Some (File (c abi))) →
    ∃ w' a', rebuild E w = (Ret tt, w') ∧
      fs w' !! abspath (cwd w) (patched_apk E (pkg_version w)) = Some (File (Zip a')) ∧
      (∀ abi, abi ∈ ABIS → a' !! ("lib/" +:+ abi +:+ "/libPerseus.so") = Some (c abi)) ∧
      (∀ p, p ∉ libs_renamed E → a' !! p = a !! p).

(** The environment with the archive tool at its place in [bin/]. *)
Definition bundled_7zz : environment :=
  with_exec (bare AZUR_LANE "/work") (SevenZip.tool "/work/bin/7zz").

Definition old_lib : content := Blob [Byte.x01].
Definition new_lib : content := Blob [Byte.x02].

(** A signed apk with the three libraries and a dex file. *)
Definition signed_apk : gmap string content :=
  {[ "lib/arm64-v8a/libPerseus.so" := old_lib;
     "lib/x86_64/libPerseus.so" := old_lib;
     "lib/x86/libPerseus.so" := old_lib;
     "classes.dex" := Blob [Byte.x03] ]}.

(** The same with one more entry, at a path that the rebuild stages a
    library under. *)
Definition signed_apk_with_stray : gmap string content :=
  <["com.bilibili.AzurLane/lib/x86/libPerseus.so" := Blob [Byte.x04]]> signed_apk.

(** The working directory after a build: the apk of version 1.0 and the
    freshly built libraries in the decompiled tree. *)
Definition built_tree (apk : gmap string content) : filesystem :=
  {[ "/work/apk_build/com.bilibili.AzurLane-1.0.patched.apk" := File (Zip apk);
     "/work/apk_build/com.bilibili.AzurLane/lib/arm64-v8a/libPerseus.so" := File new_lib;
     "/work/apk_build/com.bilibili.AzurLane/lib/x86_64/libPerseus.so" := File new_lib;
     "/work/apk_build/com.bilibili.AzurLane/lib/x86/libPerseus.so" := File new_lib ]}.

(** An extracted apk in the working directory and no [packages/]. *)
Definition extracted_apk : filesystem :=
  {[ "/work/apk_build/com.bilibili.AzurLane.apk" := File (Zip ∅) ]}.

(** A [packages/] directory with three archives, one of them named after
    the package [com.x.Y]. *)
Definition three_archives : filesystem :=
  {[ "/work/packages/A.zip" := File (Zip ∅);
     "/work/packages/com.x.Y.zip" := File (Zip ∅);
     "/work/packages/B.7z" := File (Blob []) ]}.

(** A working directory with the package's apk and another one that
    sorts before it. *)
Definition two_apks : filesystem :=
  {[ "/work/apk_build/com.bilibili.AzurLane.apk" := File (Zip ∅);
     "/work/apk_build/a.apk" := File (Zip ∅) ]}.

(** A [packages/] directory with a text file only. *)
Definition only_a_note : filesystem :=
  {[ "/work/packages/readme.txt" := File (Blob []) ]}.

(** A badging tool that prints a version name and ends with status 1. *)
Definition aapt_failing (argv : list string) (io : stdio) (dir : string)
    (f : filesystem) : option (completed * filesystem) :=
  Some (Completed 1 "package: name='com.bilibili.AzurLane' versionName='9.9'" "", f).

(** A [packages/] directory with the archive of the package; nothing is
    in [bin/]. *)
Definition one_archive : filesystem :=
  {[ "/work/packages/com.bilibili.AzurLane.zip" := File (Zip ∅) ]}.

(** Only [unzip] is installed; it unpacks the apk into the directory it
    runs in. *)
Definition unzip_installed (argv : list string) (io : stdio) (dir : string)
    (f : filesystem) : option (completed * filesystem) :=
  if bool_decide (head argv = Some "unzip") then
    Some (Completed 0 "" "", <[Path.join dir "com.bilibili.AzurLane.apk" := File (Zip ∅)]> f)
  else None.

(** A tool that cannot read the archive. *)
Definition unreadable_archive (argv : list string) (io : stdio) (dir : string)
    (f : filesystem) : option (completed * filesystem) :=
  Some (Completed 9 "cannot find zipfile directory" "", f).

(** A tool that unpacks an archive with nothing in it. *)
Definition empty_archive (argv : list string) (io : stdio) (dir : string)
    (f : filesystem) : option (completed * filesystem) :=
  Some (Completed 0 "" "", f).

(** The sources of the library, not built yet. *)
Definition perseus_sources : filesystem :=
  {[ "/work/PerseusLib" := Dir; "/work/PerseusLib/src" := Dir ]}.

(** A native build that works: it leaves the library for one
    architecture. *)
Definition working_build (argv : list string) (io : stdio) (dir : string)
    (f : filesystem) : option (completed * filesystem) :=
  Some (Completed 0 "[x86] Install: libPerseus.so" "",
        <[Path.join dir "src/libs/x86/libPerseus.so" := File new_lib]> f).

(** A working directory with the apk and the tree an earlier run
    decompiled it to. *)
Definition decompiled_tree : filesystem :=
  {[ "/work/apk_build/com.bilibili.AzurLane.apk" := File (Zip ∅);
     "/work/apk_build/com.bilibili.AzurLane" := Dir;
     "/work/apk_build/com.bilibili.AzurLane/AndroidManifest.xml" := File (Blob [Byte.x05]) ]}.

(** [E] with [sh] as [os.system]. *)
Definition with_shell (E : environment) (sh : string → string → filesystem → filesystem) :
    environment :=
  {| pkg := pkg E; rootdir := rootdir E; is_windows := is_windows E;
     cpu_count := cpu_count E; exec := exec E; shell := sh;
     time := time E; getmtime := getmtime E; elapsed := elapsed E |}.

(** [zipalign] and, when [v4] is set, an [apksigner] that leaves a
    [.idsig] file beside the apk of version 1.0. *)
Definition signing_tools (v4 : bool) (cmd dir : string) (f : filesystem) : filesystem :=
  let apk := Path.join dir "com.bilibili.AzurLane-1.0.patched.apk" in
  if Str.startswith cmd "zipalign" then
    match f !! (apk +:+ ".unsigned") with
    | Some n => <[apk := n]> f
    | None => f
    end
  else if Str.startswith cmd "apksigner" && v4 then <[apk +:+ ".idsig" := File (Blob [])]> f
  else f.

(** The libraries of a finished native build. *)
Definition built_libs : filesystem :=
  {[ "/work/PerseusLib/src/libs" := Dir;
     "/work/PerseusLib/src/libs/x86" := Dir;
     "/work/PerseusLib/src/libs/x86/libPerseus.so" := File new_lib;
     "/work/PerseusLib/src/Android.mk" := File (Blob []) ]}.

(** * Properties of the pipeline *)

#[global] Arguments abspath : simpl never.
#[global] Arguments Path.join : simpl never.
#[global] Arguments ndk_build_cmd : simpl never.
#[global] Arguments executable_path : simpl never.
#[global] Arguments patched_apk : simpl never.
#[global] Arguments libs : simpl never.
#[global] Arguments libs_renamed : simpl never.
#[global] Arguments chain_zip : simpl never.
#[global] Arguments apktool : simpl never.
#[global] Arguments pretty : simpl never.

(** Unfolds the monad, so that [cbn] runs a program up to the next test
    it cannot decide. *)
Ltac mstep :=
  unfold isfile, isdir, listdir, logging, eprint, run, system, time_time;
  unfold mbind, M_bind, bind, mret, M_ret, ret, get, modify, exit, raise.

(** Reads the fields of a world that the setters have built. *)
Ltac wsimpl :=
  cbn [fs cwd ticks skip quick_rebuild pkg_version logged printed trace
       set_fs set_cwd set_ticks set_flags set_pkg_version
       add_logged add_printed add_trace fst snd].

(** Runs [get_version] up to the start of the badging tool, for
    candidates that are known. *)
Ltac get_version_found Hsorted :=
  unfold get_version, apk_candidates, glob, try_except, os_getmtime, utcnow_stamp, stamp_of;
  mstep; cbv beta iota zeta;
  change (glob_at (add_logged ?l ?m ?w)) with (glob_at w);
  change (glob_at (add_trace ?e (add_logged ?l ?m ?w))) with (glob_at w);
  rewrite Hsorted; cbv beta iota; wsimpl.

(** Runs [extract_from_packages] up to the choice of the tool, for
    candidates that are known. *)
Ltac extract_found Hskip Hpc Hlog Hfs Hcwd :=
  unfold extract_from_packages; mstep; rewrite Hskip; cbv beta iota zeta;
  rewrite Hlog; cbv beta iota; wsimpl; rewrite ?Hfs, ?Hcwd.

(** Membership in a list that is written out. *)
Ltac in_list := repeat first [apply list_elem_of_here | apply list_elem_of_further].

Lemma app_snoc3 {A} (l : list A) a b c : (((l ++ [a]) ++ [b]) ++ [c] = l ++ [a; b; c])%list.
Proof. by rewrite <- !app_assoc. Qed.

Lemma app_snoc4 {A} (l : list A) a b c d :
  ((((l ++ [a]) ++ [b]) ++ [c]) ++ [d] = l ++ [a; b; c; d])%list.
Proof. by rewrite <- !app_assoc. Qed.

Lemma isfile_at_lookup (f : filesystem) p :
  isfile_at f p = true → ∃ c, f !! p = Some (File c).
Proof. unfold isfile_at. destruct (f !! p) as [[|c]|]; naive_solver. Qed.

Lemma isdir_at_lookup (f : filesystem) p :
  isdir_at f p = true → f !! p = Some Dir.
Proof. unfold isdir_at. destruct (f !! p) as [[|c]|]; naive_solver. Qed.

Lemma move_file w src dst c :
  fs w !! abspath (cwd w) src = Some (File c) →
  isdir_at (fs w) (abspath (cwd w) dst) = false →
  move src dst w
    = (Ret tt, set_fs (rename_at (fs w) (abspath (cwd w) src) (abspath (cwd w) dst)) w).
Proof.
  intros Hsrc Hdst. unfold move, isdir_at in *. rewrite Hsrc.
  by destruct (fs w !! abspath (cwd w) dst) as [[]|].
Qed.

(** ** Strings and paths *)


Lemma str_app_nil_l (s : string) : "" +:+ s = s.
Proof. reflexivity. Qed.

Lemma str_app_cons c s t : String c s +:+ t = String c (s +:+ t).
Proof. reflexivity. Qed.

(** [String.app] does not unfold under [simpl]; these two equations do it. *)
Ltac sapp := rewrite ?str_app_cons, ?str_app_nil_l.

Lemma str_app_nil_r s : s +:+ "" = s.
Proof. induction s; sapp; congruence. Qed.

Lemma str_app_assoc s t r : (s +:+ t) +:+ r = s +:+ (t +:+ r).
Proof. induction s; sapp; congruence. Qed.

Lemma str_app_length s t : String.length (s +:+ t) = (String.length s + String.length t)%nat.
Proof. induction s; sapp; simpl; congruence. Qed.

Lemma strip_prefix_app p s : Str.strip_prefix p (p +:+ s) = Some s.
Proof. induction p as [|c p IH]; sapp; simpl; [done|]. by rewrite decide_True. Qed.

Lemma strip_prefix_Some p s r : Str.strip_prefix p s = Some r → s = p +:+ r.
Proof.
  revert s. induction p as [|c p IH]; intros [|d s]; sapp; simpl; try naive_solver.
  case_decide; [|done]. intros ->%IH. by subst.
Qed.

Lemma startswith_true s p : Str.startswith s p = true ↔ ∃ r, s = p +:+ r.
Proof.
  unfold Str.startswith. rewrite bool_decide_eq_true. split.
  - intros [r Hr]. exists r. by apply strip_prefix_Some.
  - intros [r ->]. rewrite strip_prefix_app. by eexists.
Qed.

Lemma startswith_app p s : Str.startswith (p +:+ s) p = true.
Proof. apply startswith_true. by eexists. Qed.

Lemma removeprefix_app p s : Str.removeprefix (p +:+ s) p = s.
Proof. unfold Str.removeprefix. by rewrite strip_prefix_app. Qed.

Lemma endswith_app s t : Str.endswith (s +:+ t) t = true.
Proof.
  induction s as [|c s IH]; sapp; simpl.
  - destruct t; simpl; [done|]. by rewrite bool_decide_eq_true_2.
  - rewrite IH. apply orb_true_r.
Qed.

Lemma contains_app s t r : Str.contains (s +:+ t +:+ r) t = true.
Proof.
  induction s as [|c s IH]; sapp.
  - pose proof (startswith_app t r) as H.
    destruct (t +:+ r); simpl; by rewrite H.
  - simpl. rewrite IH. apply orb_true_r.
Qed.

Lemma contains_char_app c s t :
  Str.contains_char c (s +:+ t) = Str.contains_char c s || Str.contains_char c t.
Proof. induction s as [|d s IH]; sapp; simpl; [done|]. by rewrite IH, orb_assoc. Qed.

Lemma endswith_char_app_cons s d t c :
  Str.endswith_char (s +:+ String d t) c = Str.endswith_char (String d t) c.
Proof.
  induction s as [|e s IH]; [done|]. sapp.
  rewrite <- IH. destruct s; reflexivity.
Qed.

Lemma isabs_true p : Path.isabs p = true ↔ ∃ r, p = String "/" r.
Proof. unfold Path.isabs. rewrite startswith_true. naive_solver. Qed.

Lemma isabs_app p s : Path.isabs p = true → Path.isabs (p +:+ s) = true.
Proof. rewrite !isabs_true. intros [r ->]. by eexists. Qed.

Lemma isabs_no_sep p : Str.contains_char "/" p = false → Path.isabs p = false.
Proof.
  intros Hp. apply not_true_is_false. intros [r ->]%isabs_true.
  simpl in Hp. done.
Qed.

Lemma join_abs a b : Path.isabs b = true → Path.join a b = b.
Proof. unfold Path.join. by intros ->. Qed.

Lemma join_rel a b : Path.isabs b = false → Path.join a b = Path.join a "" +:+ b.
Proof.
  unfold Path.join. intros ->. change (Path.isabs "") with false. cbv iota.
  destruct (_ || _).
  - by rewrite str_app_nil_r.
  - by rewrite str_app_assoc.
Qed.

Lemma abspath_abs here p : Path.isabs p = true → abspath here p = p.
Proof.
  intros Hp. destruct (proj1 (isabs_true p) Hp) as [r ->].
  unfold abspath. by apply join_abs.
Qed.

Lemma abspath_rel here p :
  p ≠ "" → Path.isabs p = false → abspath here p = Path.join here "" +:+ p.
Proof. intros Hp Hrel. destruct p; [done|]. unfold abspath. by apply join_rel. Qed.

Lemma rsplit_None c t : Str.contains_char c t = false → Str.rsplit c t = None.
Proof.
  induction t as [|d t IH]; simpl; [done|].
  intros [Hd Ht]%orb_false_elim. rewrite IH by done.
  apply bool_decide_eq_false in Hd. by rewrite decide_False.
Qed.

Lemma rsplit_app c s t :
  Str.contains_char c t = false → Str.rsplit c (s +:+ String c t) = Some (s, t).
Proof.
  intros Ht. induction s as [|d s IH]; sapp; simpl.
  - rewrite rsplit_None by done. by rewrite decide_True.
  - by rewrite IH.
Qed.

Lemma rstrip_sep_id s : Str.endswith_char s "/" = false → Path.rstrip_sep s = s.
Proof.
  induction s as [|d s IH]; [done|]. destruct s as [|e s].
  - intros Hd%bool_decide_eq_false. cbn.
    rewrite (bool_decide_eq_false_2 (d = "/"%char)) by done. by rewrite andb_false_r.
  - intros Hs. change (Path.rstrip_sep (String d (String e s)))
      with (let r := Path.rstrip_sep (String e s) in
            if bool_decide (r = "") && bool_decide (d = "/"%char) then "" else String d r).
    rewrite IH by done. cbv zeta. by rewrite bool_decide_eq_false_2.
Qed.

Lemma rstrip_sep_app_sep s : Path.rstrip_sep (s +:+ "/") = Path.rstrip_sep s.
Proof. induction s as [|d s IH]; sapp; [done|]. simpl. by rewrite IH. Qed.

Lemma split_join dir pat :
  dir ≠ "" → Str.endswith_char dir "/" = false → Str.contains_char "/" pat = false →
  Path.split (Path.join dir pat) = (dir, pat).
Proof.
  intros Hdir Hend Hpat.
  rewrite join_rel by by apply isabs_no_sep.
  unfold Path.join at 1. change (Path.isabs "") with false. cbv iota.
  rewrite Hend, bool_decide_eq_false_2 by done. simpl orb. cbv iota.
  rewrite str_app_assoc. sapp.
  unfold Path.split. rewrite rsplit_app by done.
  rewrite rstrip_sep_app_sep, rstrip_sep_id by done.
  by rewrite bool_decide_eq_false_2.
Qed.

Lemma split_no_sep pat : Str.contains_char "/" pat = false → Path.split pat = ("", pat).
Proof. intros Hpat. unfold Path.split. by rewrite rsplit_None. Qed.

Lemma packages_dir_abs E : Path.isabs (rootdir E) = true → Path.isabs (packages_dir E) = true.
Proof.
  intros Hroot. unfold packages_dir. rewrite join_rel by done.
  apply isabs_app. unfold Path.join. change (Path.isabs "") with false. cbv iota.
  destruct (_ || _); by apply isabs_app.
Qed.

Lemma packages_dir_no_trailing_sep E : Str.endswith_char (packages_dir E) "/" = false.
Proof. unfold packages_dir. rewrite join_rel by done. by rewrite endswith_char_app_cons. Qed.

Lemma packages_dir_nonempty E : packages_dir E ≠ "".
Proof.
  unfold packages_dir. rewrite join_rel by done.
  by destruct (Path.join (rootdir E) "").
Qed.
(** ** Patterns *)

Lemma compile_app a b : Glob.compile (a +:+ b) = (Glob.compile a ++ Glob.compile b)%list.
Proof. induction a as [|c a IH]; sapp; simpl; [done|]. by rewrite IH. Qed.

Lemma matches_star p n :
  Glob.matches (Glob.Star :: p) n = true ↔ ∃ a b, n = a +:+ b ∧ Glob.matches p b = true.
Proof.
  split.
  - induction n as [|c n IH]; simpl.
    + rewrite orb_false_r. intros H. by exists "", "".
    + intros [H|H]%orb_true_iff.
      * by exists "", (String c n).
      * destruct (IH H) as (a & b & -> & Hb). by exists (String c a), b.
  - intros (a & b & -> & Hb). induction a as [|c a IH]; sapp.
    + destruct b; simpl; by rewrite Hb.
    + simpl. simpl in IH. rewrite IH. apply orb_true_r.
Qed.

Lemma matches_star_only n : Glob.matches [Glob.Star] n = true.
Proof. apply matches_star. exists n, "". by rewrite str_app_nil_r. Qed.

(** A plain text as a pattern stands for itself. *)
Lemma matches_plain s p n :
  Glob.plain s = true →
  Glob.matches (Glob.compile s ++ p) n
    = match Str.strip_prefix s n with Some r => Glob.matches p r | None => false end.
Proof.
  revert n. induction s as [|c s IH]; intros n; [done|].
  intros [Hc Hs]%andb_true_iff. apply negb_true_iff, bool_decide_eq_false in Hc.
  cbn [Glob.compile].
  rewrite !decide_False by (intros ->; apply Hc; set_solver).
  destruct n as [|d n]; [done|]. cbn. case_decide as Hcd.
  - rewrite bool_decide_eq_true_2 by done. by apply IH.
  - by rewrite bool_decide_eq_false_2.
Qed.

Lemma ishidden_app p r : p ≠ "" → Glob.ishidden (p +:+ r) = Glob.ishidden p.
Proof.
  destruct p as [|c p]; [done|]. intros _.
  unfold Glob.ishidden, Str.startswith. sapp. simpl. by case_decide.
Qed.

(** With a package name, [pkg*] selects the names that start with it. *)
Lemma selects_prefix pkg n :
  package_name pkg = true →
  Glob.selects (pkg +:+ "*") n = Str.startswith n pkg.
Proof.
  intros [Hne%negb_true_iff%bool_decide_eq_false Hplain]%andb_true_iff.
  unfold Glob.selects, Glob.fnmatch. rewrite compile_app, matches_plain by done.
  unfold Str.startswith. destruct (Str.strip_prefix pkg n) as [r|] eqn:Hr.
  - apply strip_prefix_Some in Hr as ->.
    change (Glob.compile "*") with [Glob.Star]. rewrite matches_star_only.
    rewrite !ishidden_app by done. rewrite orb_negb_r.
    symmetry. apply bool_decide_eq_true. by eexists.
  - rewrite andb_false_r. symmetry. apply bool_decide_eq_false. by intros [? ?].
Qed.

(** [*suffix] selects only names that end in the suffix. *)
Lemma selects_suffix suffix n :
  Glob.plain suffix = true →
  Glob.selects ("*" +:+ suffix) n = true → Str.endswith n suffix = true.
Proof.
  intros Hplain [_ Hm]%andb_true_iff. unfold Glob.fnmatch in Hm.
  rewrite compile_app in Hm. change (Glob.compile "*") with [Glob.Star] in Hm.
  apply matches_star in Hm as (a & b & -> & Hb).
  rewrite <- (app_nil_r (Glob.compile suffix)), matches_plain in Hb by done.
  destruct (Str.strip_prefix suffix b) as [r|] eqn:Hr; [|done].
  apply strip_prefix_Some in Hr as ->. apply bool_decide_eq_true in Hb as ->.
  rewrite str_app_nil_r. apply endswith_app.
Qed.

(** [*infix*] selects only names that contain the infix. *)
Lemma selects_infix infix n :
  Glob.plain infix = true →
  Glob.selects ("*" +:+ infix +:+ "*") n = true → Str.contains n infix = true.
Proof.
  intros Hplain [_ Hm]%andb_true_iff. unfold Glob.fnmatch in Hm.
  rewrite !compile_app in Hm. change (Glob.compile "*") with [Glob.Star] in Hm.
  apply matches_star in Hm as (a & b & -> & Hb).
  rewrite matches_plain in Hb by done.
  destruct (Str.strip_prefix infix b) as [r|] eqn:Hr; [|done].
  apply strip_prefix_Some in Hr as ->. apply contains_app.
Qed.

(** ** Sorting *)


(** The first element of [sorted(l)] is of [l] and is its least. *)
Lemma sorted_head l x r :
  sorted l = x :: r → x ∈ l ∧ ∀ y, y ∈ l → String.le x y.
Proof.
  intros Hs.
  assert (Hperm : x :: r ≡ₚ l).
  { rewrite <- Hs. apply merge_sort_Permutation. }
  assert (Hsorted : StronglySorted String.le (x :: r)).
  { rewrite <- Hs. apply (StronglySorted_merge_sort _). }
  split.
  - rewrite <- Hperm. by left.
  - intros y Hy. rewrite <- Hperm in Hy. apply elem_of_cons in Hy as [->|Hy]; [done|].
    apply StronglySorted_inv in Hsorted as [_ Hall].
    by apply (proj1 (Forall_forall _ _) Hall).
Qed.


(** ** Directory listings *)

Lemma listdir_name (f : filesystem) d n :
  n ∈ listdir_at f d → n ≠ "" ∧ Str.contains_char "/" n = false.
Proof.
  unfold listdir_at. rewrite list_elem_of_omap. intros ([k v] & _ & Hn).
  unfold child_name in Hn. simpl in Hn.
  destruct (Str.strip_prefix _ _) as [m|]; [|done]. simpl in Hn.
  destruct (bool_decide (m = "") || Str.contains_char "/" m) eqn:Hm; [done|].
  apply orb_false_elim in Hm as [Hm1%bool_decide_eq_false Hm2]. by simplify_eq.
Qed.

Lemma listdir_name_rel (f : filesystem) d n : n ∈ listdir_at f d → Path.isabs n = false.
Proof. intros [_ Hn]%listdir_name. by apply isabs_no_sep. Qed.

(** [glob] of a pattern in a literal absolute directory. *)
Lemma glob_at_dir w dir pat :
  Path.isabs dir = true → Str.endswith_char dir "/" = false →
  Str.contains_char "/" pat = false →
  glob_at w (Path.join dir pat)
    = Path.join dir <$> filter (λ n, Glob.selects pat n) (listdir_at (fs w) dir).
Proof.
  intros Habs Hend Hpat. unfold glob_at.
  rewrite split_join; [|by destruct dir|done..].
  by rewrite abspath_abs.
Qed.

(** ** The native build *)

(** C4: when [ndk-build] ends with a status other than 0, [main] ends
    there with status 1: nothing is started after the build, the files
    are as the build left them, and what the build wrote to its standard
    output and to its standard error is printed as it is. *)
Theorem ndk_build_failure_is_fatal E w p f' (skip_arg quick_arg : bool) :
  isdir_at (fs w) (abspath (cwd w) "PerseusLib") = true →
  exec E (ndk_build_cmd E false) Capture (abspath (cwd w) "PerseusLib") (fs w)
    = Some (p, f') →
  returncode p ≠ 0 →
  ∃ w', main E skip_arg quick_arg w = (Exit 1, w') ∧
    exit_status (main E skip_arg quick_arg w).1 = 1 ∧
    printed w' = (printed w ++ ["======== ndk-build stdout ========"; stdout p;
                                "======== ndk-build stderr ========"; stderr p])%list ∧
    trace w' = (trace w ++ [Run (ndk_build_cmd E false) Capture])%list ∧
    fs w' = f'.
Proof.
  intros Hd%isdir_at_lookup Hx Hrc.
  assert (Hz : negb (returncode p =? 0) = true)
    by (apply negb_true_iff, Z.eqb_neq, Hrc).
  assert (Hrun : ∃ w', main E skip_arg quick_arg w = (Exit 1, w') ∧
    printed w' = (printed w ++ ["======== ndk-build stdout ========"; stdout p;
                                "======== ndk-build stderr ========"; stderr p])%list ∧
    trace w' = (trace w ++ [Run (ndk_build_cmd E false) Capture])%list ∧
    fs w' = f').
  { eexists. split.
    - unfold main, build_perseus_lib, chdir. mstep. cbn.
      rewrite Hd. cbn. rewrite Hx. cbn. rewrite Hz. reflexivity.
    - cbn. split; [apply app_snoc4 | done]. }
  destruct Hrun as (w' & Hmain & ?). exists w'. by rewrite Hmain.
Qed.

Lemma ndk_build_failure_is_fatal_witness :
  ∃ w', main (with_exec (bare AZUR_LANE "/work") failing_build) true true
          (world_at {[ "/work/PerseusLib" := Dir ]} "/work" false false "0")
        = (Exit 1, w') ∧
        printed w' = ["======== ndk-build stdout ========"; "compiling";
                      "======== ndk-build stderr ========";
                      "error: no rule to make target"].
Proof.
  destruct (ndk_build_failure_is_fatal
              (with_exec (bare AZUR_LANE "/work") failing_build)
              (world_at {[ "/work/PerseusLib" := Dir ]} "/work" false false "0")
              (Completed 2 "compiling" "error: no rule to make target")
              {[ "/work/PerseusLib" := Dir ]} true true)
    as (w' & Hmain & _ & Hprinted & _).
  - vm_compute; reflexivity.
  - reflexivity.
  - discriminate.
  - vm_compute in Hprinted. exists w'. split; [exact Hmain | exact Hprinted].
Defined.

(** ** Extraction *)

Lemma extract_returns_when_skipping E w :
  skip w = true →
  isfile_at (fs w) (abspath (cwd w) (pkg E +:+ ".apk")) = true →
  extract_from_packages E w
    = (Ret tt, add_logged INFO (pkg E +:+ ".apk already exists, skipping") w).
Proof. intros Hs Hf. unfold extract_from_packages. mstep. by rewrite Hs, Hf. Qed.

(** C8: with [skip] set and [pkg.apk] in the working directory,
    [extract_from_packages] returns at once: it logs one line, starts no
    program, scans no directory and leaves every file as it is. *)
Theorem extract_skips_when_present E w :
  skip w = true →
  isfile_at (fs w) (abspath (cwd w) (pkg E +:+ ".apk")) = true →
  extract_from_packages E w
    = (Ret tt, add_logged INFO (pkg E +:+ ".apk already exists, skipping") w) ∧
  fs (extract_from_packages E w).2 = fs w ∧
  trace (extract_from_packages E w).2 = trace w.
Proof. intros Hs Hf. by rewrite extract_returns_when_skipping. Qed.

Lemma extract_skips_when_present_witness :
  trace (extract_from_packages (bare AZUR_LANE "/work")
           (world_at extracted_apk APK_BUILD true true "0")).2 = [].
Proof.
  apply (extract_skips_when_present (bare AZUR_LANE "/work")
           (world_at extracted_apk APK_BUILD true true "0")); vm_compute; reflexivity.
Defined.

(** ** Rebuilding *)

(** C10: unless [quick_rebuild] is set and the patched apk of the
    resolved version is a file, [rebuild] is the recompilation with
    apktool: it returns, logs one line at level INFO, starts the
    recompiler and nothing else; no archive tool runs. *)
Theorem rebuild_falls_back_to_apktool E w :
  let newpkg := patched_apk E (pkg_version w) in
  let recompile :=
    "java -jar " +:+ apktool E +:+ " -q -f b " +:+ pkg E +:+ " -o " +:+ newpkg in
  quick_rebuild w && isfile_at (fs w) (abspath (cwd w) newpkg) = false →
  ∃ w', rebuild E w = (Ret tt, w') ∧
    fs w' = shell E recompile (cwd w) (fs w) ∧
    trace w' = (trace w ++ [System recompile])%list ∧
    logged w' = (logged w ++ [(INFO, "rebuilding " +:+ pkg E +:+ ".apk with apktool")])%list ∧
    printed w' = printed w.
Proof.
  intros newpkg recompile Hgate.
  eexists; split.
  - unfold rebuild. mstep. fold newpkg. rewrite Hgate. reflexivity.
  - done.
Qed.

Lemma rebuild_falls_back_to_apktool_witness :
  ∃ w', rebuild (bare AZUR_LANE "/work") (world_at previous_build APK_BUILD true true "1.1")
        = (Ret tt, w') ∧
    trace w' = [System "java -jar /work/bin/apktool.jar -q -f b com.bilibili.AzurLane -o com.bilibili.AzurLane-1.1.patched.apk"].
Proof.
  destruct (rebuild_falls_back_to_apktool (bare AZUR_LANE "/work")
              (world_at previous_build APK_BUILD true true "1.1"))
    as (w' & Hrun & _ & Htrace & _).
  - vm_compute; reflexivity.
  - vm_compute in Htrace. exists w'. split; [exact Hrun | exact Htrace].
Defined.

(** The fast path up to its last step: the three runs of the archive
    tool, whatever they return, and then the rename back. *)
Lemma rebuild_fast_path E w p1 p2 p3 f1 f2 f3 :
  let newpkg := patched_apk E (pkg_version w) in
  let newzip := newpkg +:+ ".zip" in
  let tool := executable_path E "7zz" in
  let delete := Run ([tool; "-y"; "d"; newzip] ++ libs_renamed E) StdoutOnly in
  let add := Run ([tool; "-y"; "a"; newzip] ++ libs E) StdoutOnly in
  let rename :=
    Run ([tool; "-y"; "rn"; newzip] ++ chain_zip (libs E) (libs_renamed E)) StdoutOnly in
  let f0 := rename_at (fs w) (abspath (cwd w) newpkg) (abspath (cwd w) newzip) in
  let w3 :=
    World f3 (cwd w) (ticks w) (skip w) (quick_rebuild w) (pkg_version w)
      (logged w ++
         [(INFO, "rebuiling " +:+ pkg E +:+ ".apk quickly");
          (INFO, "deleting libs in archive, ret=" +:+ pretty (returncode p1));
          (INFO, "adding libs to archive, ret=" +:+ pretty (returncode p2));
          (INFO, "renaming libs in archive, ret=" +:+ pretty (returncode p3))])
      (printed w) (trace w ++ [delete; add; rename]) in
  quick_rebuild w = true →
  isfile_at (fs w) (abspath (cwd w) newpkg) = true →
  isdir_at (fs w) (abspath (cwd w) newzip) = false →
  exec E ([tool; "-y"; "d"; newzip] ++ libs_renamed E) StdoutOnly (cwd w) f0 = Some (p1, f1) →
  exec E ([tool; "-y"; "a"; newzip] ++ libs E) StdoutOnly (cwd w) f1 = Some (p2, f2) →
  exec E ([tool; "-y"; "rn"; newzip] ++ chain_zip (libs E) (libs_renamed E)) StdoutOnly
       (cwd w) f2 = Some (p3, f3) →
  rebuild E w = move newzip newpkg w3.
Proof.
  intros newpkg newzip tool delete add rename f0 w3 Hq Hfile Hdir H1 H2 H3.
  destruct (isfile_at_lookup _ _ Hfile) as [c Hc].
  unfold rebuild. mstep. fold newpkg newzip tool. rewrite Hq, Hfile. cbn.
  rewrite (move_file (add_logged INFO _ w) newpkg newzip c Hc Hdir). cbn.
  fold f0. cbn in H1, H2, H3. rewrite H1. cbn. rewrite H2. cbn. rewrite H3. cbn.
  unfold w3, delete, add, rename. f_equal.
  cbv [add_logged set_fs add_trace fs cwd ticks skip quick_rebuild pkg_version
       logged printed trace].
  f_equal; [apply app_snoc4 | apply app_snoc3].
Qed.

(** C9: on the fast path the statuses of the three runs of the archive
    tool reach the log and nothing else.  Whatever they are, [rebuild]
    goes on to the next run and then to the rename back to the apk name,
    in the world [w3] that differs from case to case only in the logged
    lines; and where the tool has left the scratch container in place,
    [rebuild] returns and [sign_apk] starts. *)
Theorem fast_path_status_is_only_logged E w p1 p2 p3 f1 f2 f3 :
  let newpkg := patched_apk E (pkg_version w) in
  let newzip := newpkg +:+ ".zip" in
  let tool := executable_path E "7zz" in
  let delete := Run ([tool; "-y"; "d"; newzip] ++ libs_renamed E) StdoutOnly in
  let add := Run ([tool; "-y"; "a"; newzip] ++ libs E) StdoutOnly in
  let rename :=
    Run ([tool; "-y"; "rn"; newzip] ++ chain_zip (libs E) (libs_renamed E)) StdoutOnly in
  let f0 := rename_at (fs w) (abspath (cwd w) newpkg) (abspath (cwd w) newzip) in
  let w3 :=
    World f3 (cwd w) (ticks w) (skip w) (quick_rebuild w) (pkg_version w)
      (logged w ++
         [(INFO, "rebuiling " +:+ pkg E +:+ ".apk quickly");
          (INFO, "deleting libs in archive, ret=" +:+ pretty (returncode p1));
          (INFO, "adding libs to archive, ret=" +:+ pretty (returncode p2));
          (INFO, "renaming libs in archive, ret=" +:+ pretty (returncode p3))])
      (printed w) (trace w ++ [delete; add; rename]) in
  quick_rebuild w = true →
  isfile_at (fs w) (abspath (cwd w) newpkg) = true →
  isdir_at (fs w) (abspath (cwd w) newzip) = false →
  exec E ([tool; "-y"; "d"; newzip] ++ libs_renamed E) StdoutOnly (cwd w) f0 = Some (p1, f1) →
  exec E ([tool; "-y"; "a"; newzip] ++ libs E) StdoutOnly (cwd w) f1 = Some (p2, f2) →
  exec E ([tool; "-y"; "rn"; newzip] ++ chain_zip (libs E) (libs_renamed E)) StdoutOnly
       (cwd w) f2 = Some (p3, f3) →
  rebuild E w = move newzip newpkg w3 ∧
  (rebuild E ≫= λ _, sign_apk E) w = (move newzip newpkg ≫= λ _, sign_apk E) w3 ∧
  (isfile_at f3 (abspath (cwd w) newzip) = true →
   isdir_at f3 (abspath (cwd w) newpkg) = false →
   let w4 := set_fs (rename_at f3 (abspath (cwd w) newzip) (abspath (cwd w) newpkg)) w3 in
   rebuild E w = (Ret tt, w4) ∧
   (rebuild E ≫= λ _, sign_apk E) w = sign_apk E w4).
Proof.
  intros newpkg newzip tool delete add rename f0 w3 Hq Hfile Hdir H1 H2 H3.
  assert (Hrun : rebuild E w = move newzip newpkg w3)
    by by apply (rebuild_fast_path E w p1 p2 p3 f1 f2 f3).
  split; [exact Hrun|]. split.
  - unfold mbind, M_bind, bind. by rewrite Hrun.
  - intros Hzip Hpkg w4.
    destruct (isfile_at_lookup _ _ Hzip) as [c Hc].
    assert (Hrun' : rebuild E w = (Ret tt, w4)).
    { rewrite Hrun. apply (move_file w3 newzip newpkg c Hc Hpkg). }
    split; [exact Hrun'|]. unfold mbind, M_bind, bind. by rewrite Hrun'.
Qed.

Lemma fast_path_status_is_only_logged_witness :
  ∃ w4, rebuild (with_exec (bare AZUR_LANE "/work") failing_tool)
          (world_at previous_build APK_BUILD true true "1.0") = (Ret tt, w4) ∧
    snd <$> logged w4 =
      ["rebuiling com.bilibili.AzurLane.apk quickly";
       "deleting libs in archive, ret=2";
       "adding libs to archive, ret=2";
       "renaming libs in archive, ret=2"].
Proof.
  pose (E := with_exec (bare AZUR_LANE "/work") failing_tool).
  pose (w := world_at previous_build APK_BUILD true true "1.0").
  pose (f0 := rename_at (fs w) (abspath (cwd w) (patched_apk E (pkg_version w)))
                (abspath (cwd w) (patched_apk E (pkg_version w) +:+ ".zip"))).
  pose proof (fast_path_status_is_only_logged E w
                (Completed 2 "" "") (Completed 2 "" "") (Completed 2 "" "") f0 f0 f0
                eq_refl ltac:(vm_compute; reflexivity) ltac:(vm_compute; reflexivity)
                eq_refl eq_refl eq_refl)
    as (_ & _ & H).
  specialize (H ltac:(vm_compute; reflexivity) ltac:(vm_compute; reflexivity)).
  destruct H as [Hrun _].
  (eexists; split; [exact Hrun | vm_compute; reflexivity]).
Defined.

(** ** Choosing the archive *)

Lemma plain_no_sep s : Glob.plain s = true → Str.contains_char "/" s = false.
Proof.
  induction s as [|c s IH]; [done|]. intros [Hc Hs]%andb_true_iff. simpl.
  rewrite IH by done. apply negb_true_iff, bool_decide_eq_false in Hc.
  rewrite bool_decide_eq_false_2; [done|]. intros <-. apply Hc. set_solver.
Qed.

Lemma package_name_plain p : package_name p = true → Glob.plain p = true.
Proof. by intros [_ ?]%andb_true_iff. Qed.

(** The names [glob] finds for [packages/pkg*]. *)
Lemma glob_at_package_prefix E w :
  package_name (pkg E) = true → Path.isabs (rootdir E) = true →
  glob_at w (Path.join3 (rootdir E) "packages" (pkg E +:+ "*"))
    = Path.join (packages_dir E) <$>
        filter (λ n, Str.startswith n (pkg E) = true) (listdir_at (fs w) (packages_dir E)).
Proof.
  intros Hpkg Hroot. unfold Path.join3. fold (packages_dir E).
  rewrite glob_at_dir.
  - f_equal. apply list_filter_iff. intros n.
    rewrite selects_prefix by done. apply Is_true_true.
  - by apply packages_dir_abs.
  - apply packages_dir_no_trailing_sep.
  - rewrite contains_char_app, plain_no_sep by by apply package_name_plain. done.
Qed.



(** The candidates for the three archives of the example. *)
Example package_candidates_three_archives :
  (package_candidates (bare "com.x.Y" "/work")
     (world_at three_archives APK_BUILD false false "0")).1
  = Ret ["/work/packages/com.x.Y.zip"].
Proof. vm_compute. reflexivity. Qed.

(** ** Extraction without an archive *)

Lemma filter_none {A} (P : A → Prop) `{∀ x, Decision (P x)} (l : list A) :
  (∀ x, x ∈ l → ¬ P x) → filter P l = [].
Proof.
  intros Hl. induction l as [|x l IH]; [done|].
  rewrite filter_cons_False by (apply Hl; left).
  apply IH. intros y Hy. apply Hl. by right.
Qed.

(** Without an archive in [packages/], each of the four scans is empty. *)
Lemma glob_at_no_archive E w :
  package_name (pkg E) = true → Path.isabs (rootdir E) = true → no_archive E w →
  glob_at w (Path.join3 (rootdir E) "packages" (pkg E +:+ "*")) = [] ∧
  glob_at w (Path.join3 (rootdir E) "packages" "*.zip") = [] ∧
  glob_at w (Path.join3 (rootdir E) "packages" "*.7z") = [] ∧
  glob_at w (Path.join3 (rootdir E) "packages" "*part*") = [].
Proof.
  intros Hpkg Hroot Hnone. split; [|split; [|split]].
  - rewrite glob_at_package_prefix by done. rewrite filter_none; [done|].
    intros n Hn. destruct (Hnone n Hn) as (-> & _). done.
  - unfold Path.join3. fold (packages_dir E).
    rewrite glob_at_dir;
      [|by apply packages_dir_abs|apply packages_dir_no_trailing_sep|done].
    rewrite filter_none; [done|].
    intros n Hn Hsel%Is_true_true. destruct (Hnone n Hn) as (_ & Hzip & _).
    apply (selects_suffix ".zip") in Hsel; [congruence | done].
  - unfold Path.join3. fold (packages_dir E).
    rewrite glob_at_dir;
      [|by apply packages_dir_abs|apply packages_dir_no_trailing_sep|done].
    rewrite filter_none; [done|].
    intros n Hn Hsel%Is_true_true. destruct (Hnone n Hn) as (_ & _ & H7z & _).
    apply (selects_suffix ".7z") in Hsel; [congruence | done].
  - unfold Path.join3. fold (packages_dir E).
    rewrite glob_at_dir;
      [|by apply packages_dir_abs|apply packages_dir_no_trailing_sep|done].
    rewrite filter_none; [done|].
    intros n Hn Hsel%Is_true_true. destruct (Hnone n Hn) as (_ & _ & _ & Hpart).
    apply (selects_infix "part") in Hsel; [congruence | done].
Qed.

(** C3, as amended: when extraction is not skipped and [packages/] holds
    no archive, [extract_from_packages] ends the process with status 1
    after its four scans.  It starts no program and changes no file, and
    no stage after it runs: no patched apk is made.  The path of the
    root directory is one that [glob] takes as it is written: it holds
    none of the characters [glob] expands. *)
Theorem extract_without_archive_is_fatal E w :
  package_name (pkg E) = true →
  Path.isabs (rootdir E) = true →
  Glob.has_magic (rootdir E) = false →
  skip w && isfile_at (fs w) (abspath (cwd w) (pkg E +:+ ".apk")) = false →
  no_archive E w →
  ∃ w', extract_from_packages E w = (Exit 1, w') ∧
    (∀ later : unit → M unit, (extract_from_packages E ≫= later) w = (Exit 1, w')) ∧
    exit_status (extract_from_packages E w).1 = 1 ∧
    fs w' = fs w ∧
    trace w' = (trace w ++
      [Scan (Path.join3 (rootdir E) "packages" (pkg E +:+ "*"));
       Scan (Path.join3 (rootdir E) "packages" "*.zip");
       Scan (Path.join3 (rootdir E) "packages" "*.7z");
       Scan (Path.join3 (rootdir E) "packages" "*part*")])%list.
Proof.
  intros Hpkg Hroot _ Hskip Hnone.
  destruct (glob_at_no_archive E w Hpkg Hroot Hnone) as (H1 & H2 & H3 & H4).
  assert (Hrun : ∃ w', extract_from_packages E w = (Exit 1, w') ∧
    fs w' = fs w ∧
    trace w' = (trace w ++
      [Scan (Path.join3 (rootdir E) "packages" (pkg E +:+ "*"));
       Scan (Path.join3 (rootdir E) "packages" "*.zip");
       Scan (Path.join3 (rootdir E) "packages" "*.7z");
       Scan (Path.join3 (rootdir E) "packages" "*part*")])%list).
  { eexists. split.
    - unfold extract_from_packages, package_candidates, glob. mstep.
      rewrite Hskip. cbv beta iota zeta.
      change (glob_at (add_logged ?l ?m w)) with (glob_at w). rewrite H1.
      change (sorted []) with (@nil string). cbv beta iota zeta.
      rewrite bool_decide_eq_true_2 by done.
      repeat match goal with
             | |- context [glob_at (add_trace ?e ?v) ?p] =>
                 change (glob_at (add_trace e v) p) with (glob_at v p)
             end.
      change (glob_at (add_logged ?l ?m w)) with (glob_at w).
      rewrite H2, H3, H4. reflexivity.
    - split; [done|]. cbv [trace add_logged add_trace]. apply app_snoc4. }
  destruct Hrun as (w' & Hrun & Hfs & Htrace). exists w'.
  split; [done|]. split; [|by rewrite Hrun].
  intros later. unfold mbind, M_bind, bind. by rewrite Hrun.
Qed.

Lemma extract_without_archive_is_fatal_witness :
  ∃ w', extract_from_packages (bare AZUR_LANE "/work")
          (world_at only_a_note APK_BUILD true true "0") = (Exit 1, w') ∧
        fs w' = only_a_note.
Proof.
  destruct (extract_without_archive_is_fatal (bare AZUR_LANE "/work")
              (world_at only_a_note APK_BUILD true true "0"))
    as (w' & Hrun & _ & _ & Hfs & _).
  - vm_compute; reflexivity.
  - vm_compute; reflexivity.
  - vm_compute; reflexivity.
  - vm_compute; reflexivity.
  - intros n Hn. vm_compute in Hn.
    apply list_elem_of_singleton in Hn as ->. vm_compute. done.
  - exists w'. split; [exact Hrun | exact Hfs].
Defined.

(** C3, as stated, fails: with [skip] set and the apk already extracted,
    an empty [packages/] is never looked at and extraction returns. *)
Lemma no_archive_is_fatal_counterexample :
  ¬ no_archive_is_fatal (bare AZUR_LANE "/work")
      (world_at extracted_apk APK_BUILD true true "0").
Proof.
  intros Hfatal. destruct Hfatal as [w' Hw'].
  - intros n Hn. vm_compute in Hn. by apply elem_of_nil in Hn.
  - rewrite extract_returns_when_skipping in Hw'; [discriminate | reflexivity |].
    vm_compute; reflexivity.
Qed.

(** ** Timestamps *)

Lemma month_day_all : forallb Datetime.month_day_ok (seqZ 0 365) = true.
Proof. vm_compute. reflexivity. Qed.

Lemma zfill2_all : forallb Datetime.zfill2_ok (seqZ 0 100) = true.
Proof. vm_compute. reflexivity. Qed.

Lemma zfill4_all : forallb Datetime.zfill4_ok (seqZ 0 10000) = true.
Proof. vm_compute. reflexivity. Qed.

Lemma forallb_seqZ (P : Z → bool) (m len n : Z) :
  forallb P (seqZ m len) = true → m ≤ n < m + len → P n = true.
Proof.
  intros Hall Hn. apply (proj1 (forallb_forall P _) Hall).
  apply list_elem_of_In, elem_of_seqZ. lia.
Qed.

Lemma month_day_range n leap m d :
  0 ≤ n < 365 → Datetime.month_day n leap = (m, d) → 1 ≤ m ≤ 12 ∧ 1 ≤ d ≤ 31.
Proof.
  intros Hn Hmd.
  pose proof (forallb_seqZ _ 0 365 n month_day_all ltac:(lia)) as Hok.
  unfold Datetime.month_day_ok in Hok. cbn [forallb] in Hok.
  destruct leap; rewrite Hmd in Hok; lia.
Qed.

Lemma zfill2_digits n :
  0 ≤ n < 100 →
  ∃ a b, Datetime.zfill 2 n = String a (String b "") ∧
    Datetime.is_digit a = true ∧ Datetime.is_digit b = true ∧
    Datetime.number_of 0 (String a (String b "")) = n.
Proof.
  intros Hn.
  pose proof (forallb_seqZ _ 0 100 n zfill2_all ltac:(lia)) as Hok.
  unfold Datetime.zfill2_ok in Hok.
  destruct (Datetime.zfill 2 n) as [|a [|b [|]]]; try done.
  exists a, b. apply andb_true_iff in Hok as [[Ha Hb]%andb_true_iff Hnum%Z.eqb_eq]. done.
Qed.

Lemma zfill4_digits n :
  0 ≤ n < 10000 →
  ∃ a b c d, Datetime.zfill 4 n = String a (String b (String c (String d ""))) ∧
    Datetime.is_digit a = true ∧ Datetime.is_digit b = true ∧
    Datetime.is_digit c = true ∧ Datetime.is_digit d = true.
Proof.
  intros Hn.
  pose proof (forallb_seqZ _ 0 10000 n zfill4_all ltac:(lia)) as Hok.
  unfold Datetime.zfill4_ok in Hok.
  destruct (Datetime.zfill 4 n) as [|a [|b [|c [|d [|]]]]]; try done.
  exists a, b, c, d. repeat (apply andb_true_iff in Hok as [Hok ?]). done.
Qed.

(** The fields of a date that [utcfromtimestamp] returns. *)
Lemma ord2ymd_range ordinal y m d :
  1 ≤ ordinal ≤ Datetime.MAX_ORDINAL → Datetime.ord2ymd ordinal = (y, m, d) →
  1 ≤ y ≤ 9999 ∧ 1 ≤ m ≤ 12 ∧ 1 ≤ d ≤ 31.
Proof.
  unfold Datetime.MAX_ORDINAL, Datetime.ord2ymd, Datetime.DI400Y, Datetime.DI100Y,
    Datetime.DI4Y.
  intros Hord. cbv zeta.
  set (n0 := ordinal - 1).
  set (n400 := n0 / 146097). set (r400 := n0 mod 146097).
  set (n100 := r400 / 36524). set (r100 := r400 mod 36524).
  set (n4 := r100 / 1461). set (r4 := r100 mod 1461).
  set (n1 := r4 / 365). set (r1 := r4 mod 365).
  assert (Hy : 0 ≤ n400 ∧ 0 ≤ n100 ≤ 4 ∧ 0 ≤ n4 ≤ 24 ∧ 0 ≤ n1 ≤ 4 ∧ 0 ≤ r1 < 365 ∧
               n400 * 400 + n100 * 100 + n4 * 4 + n1 ≤ 9998 ∧
               ((n1 = 4 ∨ n100 = 4) → 1 ≤ n400 * 400 + n100 * 100 + n4 * 4 + n1)).
  { pose proof (Z.div_mod n0 146097 ltac:(lia)) as E400.
    pose proof (Z.mod_pos_bound n0 146097 ltac:(lia)) as B400.
    pose proof (Z.div_mod r400 36524 ltac:(lia)) as E100.
    pose proof (Z.mod_pos_bound r400 36524 ltac:(lia)) as B100.
    pose proof (Z.div_mod r100 1461 ltac:(lia)) as E4.
    pose proof (Z.mod_pos_bound r100 1461 ltac:(lia)) as B4.
    pose proof (Z.div_mod r4 365 ltac:(lia)) as E1.
    pose proof (Z.mod_pos_bound r4 365 ltac:(lia)) as B1.
    fold n400 r400 in E400, B400. fold n100 r100 in E100, B100.
    fold n4 r4 in E4, B4. fold n1 r1 in E1, B1.
    clearbody n400 r400 n100 r100 n4 r4 n1 r1. subst n0.
    repeat split; intros; lia. }
  destruct ((n1 =? 4) || (n100 =? 4)) eqn:Hlast.
  - intros [= <- <- <-]. apply orb_true_iff in Hlast. lia.
  - destruct (Datetime.month_day r1 _) as [m' d'] eqn:Hmd.
    intros [= <- <- <-]. apply month_day_range in Hmd; lia.
Qed.

Lemma utcfromtimestamp_range ts dt :
  Datetime.utcfromtimestamp ts = Some dt →
  1 ≤ Datetime.year dt ≤ 9999 ∧ 1 ≤ Datetime.month dt ≤ 12 ∧ 1 ≤ Datetime.day dt ≤ 31 ∧
  0 ≤ Datetime.hour dt ≤ 23 ∧ 0 ≤ Datetime.minute dt ≤ 59 ∧ 0 ≤ Datetime.second dt ≤ 59.
Proof.
  unfold Datetime.utcfromtimestamp.
  destruct (_ && _) eqn:Hord; [|done].
  apply andb_true_iff in Hord as [?%Z.leb_le ?%Z.leb_le].
  destruct (Datetime.ord2ymd _) as [[y m] d] eqn:Hymd.
  apply ord2ymd_range in Hymd; [|done].
  intros [= <-]. cbn [Datetime.year Datetime.month Datetime.day Datetime.hour
                       Datetime.minute Datetime.second].
  pose proof (Z.mod_pos_bound ts 86400 ltac:(lia)) as Hs.
  set (s := ts mod 86400) in *. clearbody s.
  repeat split; try lia; Z.div_mod_to_equations; lia.
Qed.

Lemma utcfromtimestamp_is_Some ts :
  0 ≤ ts < 253402300800 → is_Some (Datetime.utcfromtimestamp ts).
Proof.
  intros Hts. unfold Datetime.utcfromtimestamp, Datetime.EPOCH_ORDINAL, Datetime.MAX_ORDINAL.
  assert (Hord : (1 <=? ts / 86400 + 719163) && (ts / 86400 + 719163 <=? 3652059) = true).
  { apply andb_true_iff. split; apply Z.leb_le; Z.div_mod_to_equations; lia. }
  rewrite Hord. destruct (Datetime.ord2ymd _) as [[y m] d]. by eexists.
Qed.

(** What [strftime] writes for such a date reads as a timestamp. *)
Lemma strftime_valid dt :
  1 ≤ Datetime.year dt ≤ 9999 → 1 ≤ Datetime.month dt ≤ 12 → 1 ≤ Datetime.day dt ≤ 31 →
  0 ≤ Datetime.hour dt ≤ 23 → 0 ≤ Datetime.minute dt ≤ 59 → 0 ≤ Datetime.second dt ≤ 59 →
  Datetime.valid_stamp (Datetime.strftime dt) = true.
Proof.
  intros Hy Hm Hd Hh Hmi Hs. unfold Datetime.strftime.
  destruct (zfill4_digits (Datetime.year dt)) as (y1 & y2 & y3 & y4 & -> & ? & ? & ? & ?); [lia|].
  destruct (zfill2_digits (Datetime.month dt)) as (m1 & m2 & -> & ? & ? & Hnm); [lia|].
  destruct (zfill2_digits (Datetime.day dt)) as (d1 & d2 & -> & ? & ? & Hnd); [lia|].
  destruct (zfill2_digits (Datetime.hour dt)) as (h1 & h2 & -> & ? & ? & Hnh); [lia|].
  destruct (zfill2_digits (Datetime.minute dt)) as (i1 & i2 & -> & ? & ? & Hni); [lia|].
  destruct (zfill2_digits (Datetime.second dt)) as (s1 & s2 & -> & ? & ? & Hns); [lia|].
  sapp. unfold Datetime.valid_stamp.
  cbn [String.length substring Str.all_chars].
  rewrite Hnm, Hnd, Hnh, Hni, Hns.
  repeat match goal with H : Datetime.is_digit _ = true |- _ => rewrite H; clear H end.
  rewrite !bool_decide_eq_true_2 by lia. reflexivity.
Qed.

(** ** Resolving the version *)

(** C5: when neither pattern of [get_version] matches a file, and the
    clock shows a time from 1970 to 9999, [get_version] returns, having
    started no program and changed no file, and the version is the time
    of the clock written as fourteen digits [YYYYMMDDHHMMSS]. *)
Theorem get_version_without_apk E w :
  glob_at w (pkg E +:+ "*.apk") = [] →
  glob_at w "*.apk" = [] →
  0 ≤ time E (ticks w) < 253402300800 →
  ∃ v w', get_version E w = (Ret tt, w') ∧
    pkg_version w' = v ∧
    Datetime.valid_stamp v = true ∧
    Datetime.strftime <$> Datetime.utcfromtimestamp (time E (ticks w)) = Some v ∧
    fs w' = fs w ∧
    trace w' = (trace w ++ [Scan (pkg E +:+ "*.apk"); Scan "*.apk"])%list.
Proof.
  intros Hby_name Hany Hclock.
  destruct (utcfromtimestamp_is_Some _ Hclock) as [dt Hdt].
  exists (Datetime.strftime dt). eexists. split; [|split; [|split; [|split; [|split]]]].
  - unfold get_version, apk_candidates, glob, utcnow_stamp, stamp_of. mstep.
    cbv beta iota zeta.
    change (glob_at (add_logged ?l ?m w)) with (glob_at w). rewrite Hby_name.
    change (glob_at (add_trace ?e (add_logged ?l ?m w))) with (glob_at w). rewrite Hany.
    change (sorted ([] ++ [])) with (@nil string). cbv beta iota.
    wsimpl. rewrite Hdt. reflexivity.
  - reflexivity.
  - destruct (utcfromtimestamp_range _ _ Hdt) as (? & ? & ? & ? & ? & ?).
    by apply strftime_valid.
  - by rewrite Hdt.
  - reflexivity.
  - wsimpl. by rewrite <- app_assoc.
Qed.

Lemma get_version_without_apk_witness :
  ∃ w', get_version (bare AZUR_LANE "/work") (world_at only_a_note APK_BUILD true true "0")
        = (Ret tt, w') ∧ pkg_version w' = "19700101000000".
Proof.
  destruct (get_version_without_apk (bare AZUR_LANE "/work")
              (world_at only_a_note APK_BUILD true true "0"))
    as (v & w' & Hrun & Hv & _ & Hstamp & _).
  - vm_compute; reflexivity.
  - vm_compute; reflexivity.
  - vm_compute. split; [discriminate | reflexivity].
  - exists w'. split; [exact Hrun|]. vm_compute in Hstamp. congruence.
Defined.

(** ** The version name in the badging output *)

Lemma span_value_no_quote v t :
  Str.contains_char "'" v = false →
  Re.span_value (v +:+ String "'" t) = (v, String "'" t).
Proof.
  induction v as [|c v IH]; sapp; [done|]. simpl.
  intros [Hc Hv]%orb_false_elim. apply bool_decide_eq_false in Hc.
  rewrite decide_False by done. by rewrite IH.
Qed.

(** Text after a value that is closed by its quote does not change it. *)
Lemma span_value_app r t :
  Str.contains_char "'" r = true →
  Re.span_value (r +:+ t) = ((Re.span_value r).1, (Re.span_value r).2 +:+ t) ∧
  Str.startswith (Re.span_value r).2 "'" = true.
Proof.
  induction r as [|c r IH]; [done|]. sapp. simpl. case_decide as Hc.
  - subst c. intros _. done.
  - rewrite bool_decide_eq_false_2 by done. simpl. intros Hr.
    destruct (IH Hr) as [-> Hstart].
    destruct (Re.span_value r) as [v rest]. done.
Qed.

Lemma strip_prefix_None_app p s t :
  Str.strip_prefix p s = None → (String.length p ≤ String.length s)%nat →
  Str.strip_prefix p (s +:+ t) = None.
Proof.
  revert s. induction p as [|c p IH]; intros [|d s]; sapp; simpl; try done; try lia.
  case_decide; [|done]. intros Hp Hlen. apply IH; [done | lia].
Qed.

Lemma endswith_char_contains s c : Str.endswith_char s c = true → Str.contains_char c s = true.
Proof.
  induction s as [|d s IH]; [done|]. simpl. destruct s as [|e s].
  - intros ->. done.
  - intros Hs. rewrite IH by done. apply orb_true_r.
Qed.

Lemma match_here_field V post :
  V ≠ "" → Str.contains_char "'" V = false →
  Re.match_here (Re.key +:+ V +:+ "'" +:+ post) = Some V.
Proof.
  intros Hne Hq. unfold Re.match_here. rewrite strip_prefix_app.
  cbn [mbind option_bind]. sapp. rewrite span_value_no_quote by done.
  rewrite bool_decide_eq_false_2 by done. done.
Qed.

(** No match that starts before the key's end is made by what follows. *)
Lemma match_here_extend x t :
  x ≠ "" → Re.match_here (x +:+ Re.key) = None → Re.match_here (x +:+ Re.key +:+ t) = None.
Proof.
  intros Hx. unfold Re.match_here.
  assert (Hkey : ∃ c k', Re.key = k' +:+ String c "" ∧ c = "'"%char).
  { by exists "'"%char, "versionName=". }
  destruct Hkey as (q & k' & Hkey & Hq).
  set (k := Re.key) in *. clearbody k.
  destruct (Str.strip_prefix k (x +:+ k)) as [r|] eqn:Hr; cbn [mbind option_bind].
  - apply strip_prefix_Some in Hr.
    assert (Hlen : String.length r = String.length x).
    { apply (f_equal String.length) in Hr. rewrite !str_app_length in Hr. lia. }
    assert (Hquote : Str.contains_char "'" r = true).
    { apply endswith_char_contains.
      assert (Hend : Str.endswith_char (x +:+ k) "'" = true).
      { rewrite Hkey, <- str_app_assoc, endswith_char_app_cons. subst q. done. }
      rewrite Hr in Hend. destruct r as [|d r]; [by destruct x|].
      by rewrite endswith_char_app_cons in Hend. }
    rewrite <- str_app_assoc, Hr, str_app_assoc, strip_prefix_app. cbn [mbind option_bind].
    destruct (span_value_app r t Hquote) as [-> Hstart].
    destruct (Re.span_value r) as [v rest]. cbn [fst snd] in *.
    case_bool_decide; [done|]. intros Hnone.
    rewrite Hstart in Hnone. done.
  - intros _. rewrite <- str_app_assoc, strip_prefix_None_app; [done..|].
    rewrite str_app_length. lia.
Qed.

Lemma search_unfold s :
  Re.search s
  = match Re.match_here s with
    | Some v => Some v
    | None => match s with EmptyString => None | String _ s' => Re.search s' end
    end.
Proof. by destruct s. Qed.

(** The first complete field is the one [re.search] returns. *)
Lemma search_first_field pre V post :
  V ≠ "" → Str.contains_char "'" V = false → Re.search (pre +:+ Re.key) = None →
  Re.search (pre +:+ Re.key +:+ V +:+ "'" +:+ post) = Some V.
Proof.
  intros Hne Hq. induction pre as [|c pre IH].
  - intros _. rewrite !str_app_nil_l. by rewrite search_unfold, match_here_field.
  - change (String c pre +:+ Re.key) with (String c (pre +:+ Re.key)).
    change (String c pre +:+ Re.key +:+ V +:+ "'" +:+ post)
      with (String c (pre +:+ Re.key +:+ V +:+ "'" +:+ post)).
    intros Hnone. rewrite search_unfold in Hnone. rewrite search_unfold.
    destruct (Re.match_here (String c (pre +:+ Re.key))) eqn:Hhere; [done|].
    change (String c (pre +:+ Re.key)) with (String c pre +:+ Re.key) in Hhere.
    apply (match_here_extend _ (V +:+ "'" +:+ post)) in Hhere; [|done].
    change (String c pre +:+ Re.key +:+ V +:+ "'" +:+ post)
      with (String c (pre +:+ Re.key +:+ V +:+ "'" +:+ post)) in Hhere.
    rewrite Hhere. by apply IH.
Qed.

(** C6, as amended: when a candidate apk exists, the badging tool exits
    with status 0 and the first complete [versionName='V'] field of its
    output has a value [V] that is not empty, the resolved version is
    [V] as it stands.  This is so for every clock and all modification
    times; the clock is not read, and the files are as the tool left
    them. *)
Theorem get_version_uses_version_name E w apk rest p f' pre V post :
  sorted (glob_at w (pkg E +:+ "*.apk") ++ glob_at w "*.apk") = apk :: rest →
  exec E ["aapt"; "dump"; "badging"; apk] Merged (cwd w) (fs w) = Some (p, f') →
  returncode p = 0 →
  stdout p = pre +:+ Re.key +:+ V +:+ "'" +:+ post →
  V ≠ "" →
  Str.contains_char "'" V = false →
  Re.search (pre +:+ Re.key) = None →
  ∀ clock mtime, ∃ w',
    get_version (with_times E clock mtime) w = (Ret tt, w') ∧
    pkg_version w' = V ∧
    ticks w' = ticks w ∧
    fs w' = f' ∧
    last (logged w') = Some (INFO, "Extracted versionName via aapt: " +:+ V).
Proof.
  intros Hsorted Hexec Hrc Hout Hne Hq Hfirst clock mtime.
  eexists. split.
  - unfold get_version, apk_candidates, glob, try_except. mstep.
    cbv beta iota zeta.
    change (pkg (with_times E clock mtime)) with (pkg E).
    change (exec (with_times E clock mtime)) with (exec E).
    change (glob_at (add_logged ?l ?m w)) with (glob_at w).
    change (glob_at (add_trace ?e (add_logged ?l ?m w))) with (glob_at w).
    rewrite Hsorted. cbv beta iota. wsimpl. rewrite Hexec. cbv beta iota.
    rewrite Hrc. change (0 =? 0) with true. cbv iota.
    rewrite Hout, search_first_field by done. reflexivity.
  - wsimpl. repeat split. by rewrite last_snoc.
Qed.

Lemma get_version_uses_version_name_witness :
  ∃ w', get_version (with_times (with_exec (bare AZUR_LANE "/work") aapt_1_2_3)
                       (λ _, 1793750400) (λ _, Some 1709251199))
          (world_at extracted_apk APK_BUILD true true "0") = (Ret tt, w') ∧
        pkg_version w' = "1.2.3".
Proof.
  destruct (get_version_uses_version_name
              (with_exec (bare AZUR_LANE "/work") aapt_1_2_3)
              (world_at extracted_apk APK_BUILD true true "0")
              "com.bilibili.AzurLane.apk" ["com.bilibili.AzurLane.apk"]
              (Completed 0 "package: name='com.bilibili.AzurLane' versionCode='7' versionName='1.2.3' platformBuildVersionName='14'" "")
              extracted_apk
              "package: name='com.bilibili.AzurLane' versionCode='7' "
              "1.2.3" " platformBuildVersionName='14'"
              ltac:(vm_compute; reflexivity) eq_refl eq_refl
              ltac:(vm_compute; reflexivity) ltac:(discriminate)
              ltac:(vm_compute; reflexivity) ltac:(vm_compute; reflexivity)
              (λ _, 1793750400) (λ _, Some 1709251199))
    as (w' & Hrun & Hversion & _).
  exists w'. split; [exact Hrun | exact Hversion].
Defined.

(** C6, as stated, fails for an apk without a version name: the output
    has the field [versionName=''], the pattern asks for a value of at
    least one character, and the version is taken from the modification
    time. *)
Lemma badging_version_is_used_counterexample :
  ¬ badging_version_is_used (with_exec (bare AZUR_LANE "/work") aapt_without_version_name)
      (world_at extracted_apk APK_BUILD true true "0").
Proof.
  intros Hused.
  specialize (Hused "com.bilibili.AzurLane.apk" ["com.bilibili.AzurLane.apk"]
                (Completed 0 "package: name='com.bilibili.AzurLane' versionCode='7' versionName=''" "")
                extracted_apk
                "package: name='com.bilibili.AzurLane' versionCode='7' " "" ""
                ltac:(vm_compute; reflexivity) eq_refl eq_refl
                ltac:(vm_compute; reflexivity)).
  vm_compute in Hused. discriminate.
Qed.

(** The version that run resolves: the apk's modification time. *)
Example get_version_without_version_name :
  pkg_version (get_version (with_exec (bare AZUR_LANE "/work") aapt_without_version_name)
                 (world_at extracted_apk APK_BUILD true true "0")).2
  = "19700101000000".
Proof. vm_compute. reflexivity. Qed.

(** C2: with [a.apk] beside the package's apk, the candidates are sorted
    together and the one taken is [a.apk]: the badging tool is started on
    it, although a file matches [pkg*.apk]. *)
Theorem get_version_takes_first_of_all_apks :
  (apk_candidates (bare AZUR_LANE "/work")
     (world_at two_apks APK_BUILD true true "0")).1
    = Ret ["a.apk"; "com.bilibili.AzurLane.apk"; "com.bilibili.AzurLane.apk"] ∧
  trace (get_version (bare AZUR_LANE "/work")
           (world_at two_apks APK_BUILD true true "0")).2
    = [Scan "com.bilibili.AzurLane*.apk"; Scan "*.apk";
       Run ["aapt"; "dump"; "badging"; "a.apk"] Merged].
Proof. split; vm_compute; reflexivity. Qed.

(** ** The differential repackage *)

(** Deleting three entries, adding three under staging names and renaming
    these to the deleted names, for six names that are all different. *)
Lemma archive_surgery (a : gmap string content) s1 s2 s3 t1 t2 t3 c1 c2 c3 :
  NoDup [s1; s2; s3; t1; t2; t3] →
  let added := <[s3 := c3]> (<[s2 := c2]> (<[s1 := c1]> (delete t3 (delete t2 (delete t1 a))))) in
  let a' := SevenZip.rename_entries [s1; t1; s2; t2; s3; t3] added in
  (a' !! t1 = Some c1 ∧ a' !! t2 = Some c2 ∧ a' !! t3 = Some c3) ∧
  (a' !! s1 = None ∧ a' !! s2 = None ∧ a' !! s3 = None) ∧
  (∀ p, p ∉ [s1; s2; s3; t1; t2; t3] → a' !! p = a !! p).
Proof.
  intros Hnd added a'.
  assert (Hne : s1 ≠ s2 ∧ s1 ≠ s3 ∧ s1 ≠ t1 ∧ s1 ≠ t2 ∧ s1 ≠ t3 ∧ s2 ≠ s3 ∧ s2 ≠ t1 ∧
                s2 ≠ t2 ∧ s2 ≠ t3 ∧ s3 ≠ t1 ∧ s3 ≠ t2 ∧ s3 ≠ t3 ∧ t1 ≠ t2 ∧ t1 ≠ t3 ∧ t2 ≠ t3).
  { rewrite !NoDup_cons, !not_elem_of_cons in Hnd. tauto. }
  destruct Hne as (? & ? & ? & ? & ? & ? & ? & ? & ? & ? & ? & ? & ? & ? & ?).
  assert (Hs1 : added !! s1 = Some c1) by (unfold added; by simplify_map_eq).
  set (r1 := <[t1 := c1]> (delete s1 added)).
  assert (Hs2 : r1 !! s2 = Some c2) by (unfold r1, added; by simplify_map_eq).
  set (r2 := <[t2 := c2]> (delete s2 r1)).
  assert (Hs3 : r2 !! s3 = Some c3) by (unfold r2, r1, added; by simplify_map_eq).
  assert (Ha' : a' = <[t3 := c3]> (delete s3 r2)).
  { unfold a'. cbn [SevenZip.rename_entries]. rewrite Hs1. fold r1. rewrite Hs2. fold r2.
    by rewrite Hs3. }
  rewrite Ha'. unfold r2, r1, added. split; [|split].
  - split; [|split]; by simplify_map_eq.
  - split; [|split]; by simplify_map_eq.
  - intros p Hp. rewrite !not_elem_of_cons in Hp.
    destruct Hp as (? & ? & ? & ? & ? & ? & _). by simplify_map_eq.
Qed.

Lemma abspath_nonempty here p : p ≠ "" → abspath here p = Path.join here p.
Proof. by destruct p. Qed.

Lemma isabs_app_nonempty p s : p ≠ "" → Path.isabs (p +:+ s) = Path.isabs p.
Proof.
  destruct p as [|c p]; [done|]. intros _.
  unfold Path.isabs, Str.startswith. rewrite str_app_cons. simpl. by case_decide.
Qed.

Lemma package_name_rel pkg : package_name pkg = true → pkg ≠ "" ∧ Path.isabs pkg = false.
Proof.
  intros [Hne%negb_true_iff%bool_decide_eq_false Hplain]%andb_true_iff.
  split; [done|]. apply isabs_no_sep. by apply plain_no_sep.
Qed.

(** A path below the working directory, for a name that starts with the
    package name. *)
Lemma abspath_package here pkg x :
  package_name pkg = true → abspath here (pkg +:+ x) = Path.join here "" +:+ pkg +:+ x.
Proof.
  intros [Hne Hrel]%package_name_rel.
  rewrite abspath_nonempty by by destruct pkg.
  apply join_rel. by rewrite isabs_app_nonempty.
Qed.

Lemma removeprefix_lib pkg abi :
  Str.removeprefix (pkg +:+ "/lib/" +:+ abi +:+ "/libPerseus.so") (pkg +:+ "/")
  = "lib/" +:+ abi +:+ "/libPerseus.so".
Proof.
  change (pkg +:+ "/lib/" +:+ abi +:+ "/libPerseus.so")
    with (pkg +:+ "/" +:+ ("lib/" +:+ abi +:+ "/libPerseus.so")).
  by rewrite <- str_app_assoc, removeprefix_app.
Qed.

(** [libs_renamed] does not depend on the package name. *)
Lemma libs_renamed_eq E :
  libs_renamed E
  = ["lib/arm64-v8a/libPerseus.so"; "lib/x86_64/libPerseus.so"; "lib/x86/libPerseus.so"].
Proof.
  unfold libs_renamed, libs, ABIS. cbn [fmap list_fmap].
  by rewrite !removeprefix_lib.
Qed.

Lemma libs_eq E :
  libs E = [pkg E +:+ "/lib/" +:+ "arm64-v8a" +:+ "/libPerseus.so";
            pkg E +:+ "/lib/" +:+ "x86_64" +:+ "/libPerseus.so";
            pkg E +:+ "/lib/" +:+ "x86" +:+ "/libPerseus.so"].
Proof. reflexivity. Qed.

(** A staged path is never a path inside the apk: it has a separator
    more. *)
Lemma staging_ne_target pkg A B :
  Str.contains_char "/" A = false → Str.contains_char "/" B = false →
  pkg +:+ "/lib/" +:+ A +:+ "/libPerseus.so" ≠ "lib/" +:+ B +:+ "/libPerseus.so".
Proof.
  intros HA HB Heq.
  assert (E1 : pkg +:+ "/lib/" +:+ A +:+ "/libPerseus.so"
               = (pkg +:+ "/lib" +:+ String "/" A) +:+ String "/" "libPerseus.so")
    by (by rewrite !str_app_assoc).
  assert (E2 : "lib/" +:+ B +:+ "/libPerseus.so"
               = ("lib" +:+ String "/" B) +:+ String "/" "libPerseus.so")
    by (by rewrite !str_app_assoc).
  rewrite E1, E2 in Heq. apply (f_equal (Str.rsplit "/")) in Heq.
  rewrite !rsplit_app in Heq by done. injection Heq as Heq.
  rewrite <- str_app_assoc in Heq. apply (f_equal (Str.rsplit "/")) in Heq.
  rewrite !rsplit_app in Heq by done. injection Heq as Heq _.
  apply (f_equal String.length) in Heq. rewrite str_app_length in Heq. simpl in Heq. lia.
Qed.

Lemma tool_delete exe zip names io dir (f : filesystem) a :
  f !! Path.join dir zip = Some (File (Zip a)) →
  SevenZip.tool exe (exe :: "-y" :: "d" :: zip :: names) io dir f
  = Some (SevenZip.ok, <[Path.join dir zip := File (Zip (SevenZip.delete_entries names a))]> f).
Proof.
  intros Hzip. unfold SevenZip.tool.
  rewrite (bool_decide_eq_true_2 (exe = exe ∧ "-y" = "-y")) by done.
  rewrite (bool_decide_eq_true_2 ("d" = "d")) by done. by rewrite Hzip.
Qed.

Lemma tool_add exe zip names io dir (f : filesystem) a :
  f !! Path.join dir zip = Some (File (Zip a)) →
  ∃ status,
    SevenZip.tool exe (exe :: "-y" :: "a" :: zip :: names) io dir f
    = Some (status, <[Path.join dir zip := File (Zip (SevenZip.add_files f dir names a))]> f).
Proof.
  intros Hzip. unfold SevenZip.tool.
  rewrite (bool_decide_eq_true_2 (exe = exe ∧ "-y" = "-y")) by done.
  rewrite (bool_decide_eq_false_2 ("a" = "d")) by done.
  rewrite (bool_decide_eq_true_2 ("a" = "a")) by done. rewrite Hzip. by eexists.
Qed.

Lemma tool_rename exe zip names io dir (f : filesystem) a :
  f !! Path.join dir zip = Some (File (Zip a)) →
  SevenZip.tool exe (exe :: "-y" :: "rn" :: zip :: names) io dir f
  = Some (SevenZip.ok, <[Path.join dir zip := File (Zip (SevenZip.rename_entries names a))]> f).
Proof.
  intros Hzip. unfold SevenZip.tool.
  rewrite (bool_decide_eq_true_2 (exe = exe ∧ "-y" = "-y")) by done.
  rewrite (bool_decide_eq_false_2 ("rn" = "d")) by done.
  rewrite (bool_decide_eq_false_2 ("rn" = "a")) by done.
  rewrite (bool_decide_eq_true_2 ("rn" = "rn")) by done. by rewrite Hzip.
Qed.

Lemma add_files_three (f : filesystem) dir s1 s2 s3 c1 c2 c3 (a : gmap string content) :
  f !! Path.join dir s1 = Some (File c1) →
  f !! Path.join dir s2 = Some (File c2) →
  f !! Path.join dir s3 = Some (File c3) →
  SevenZip.add_files f dir [s1; s2; s3] a = <[s3 := c3]> (<[s2 := c2]> (<[s1 := c1]> a)).
Proof. intros H1 H2 H3. unfold SevenZip.add_files. cbn [foldl]. by rewrite H1, H2, H3. Qed.

Lemma app_nonempty p x : p ≠ "" → p +:+ x ≠ "".
Proof. by destruct p. Qed.

Lemma in_ABIS (P : string → Prop) :
  P "arm64-v8a" → P "x86_64" → P "x86" → ∀ abi, abi ∈ ABIS → P abi.
Proof.
  intros H1 H2 H3 abi Habi. unfold ABIS in Habi. rewrite !elem_of_cons in Habi.
  destruct Habi as [->|[->|[->|[]%elem_of_nil]]]; done.
Qed.

(** The six names the archive tool is given are all different. *)
Lemma staged_and_targets_NoDup pkg :
  NoDup [pkg +:+ "/lib/" +:+ "arm64-v8a" +:+ "/libPerseus.so";
         pkg +:+ "/lib/" +:+ "x86_64" +:+ "/libPerseus.so";
         pkg +:+ "/lib/" +:+ "x86" +:+ "/libPerseus.so";
         "lib/arm64-v8a/libPerseus.so"; "lib/x86_64/libPerseus.so"; "lib/x86/libPerseus.so"].
Proof.
  assert (Hst : ∀ A B, Str.contains_char "/" A = false → Str.contains_char "/" B = false →
                 pkg +:+ "/lib/" +:+ A +:+ "/libPerseus.so" ≠ "lib/" +:+ B +:+ "/libPerseus.so")
    by apply staging_ne_target.
  assert (Hss : ∀ x y, x ≠ y → pkg +:+ x ≠ pkg +:+ y).
  { intros x y Hxy Heq. by apply (inj (String.app pkg)) in Heq. }
  repeat (apply NoDup_cons_2; [rewrite ?not_elem_of_cons; repeat split|]);
    try apply NoDup_nil_2; try apply not_elem_of_nil;
    try (apply Hss; discriminate); try (by apply (Hst _ "arm64-v8a"));
    try (by apply (Hst _ "x86_64")); try (by apply (Hst _ "x86")); try discriminate.
Qed.

(** The quick rebuild with the archive tool of [SevenZip]. *)
Lemma quick_rebuild_swaps E w a (c : string → content) :
  let newpkg := patched_apk E (pkg_version w) in
  let newzip := newpkg +:+ ".zip" in
  let tool := executable_path E "7zz" in
  package_name (pkg E) = true →
  exec E = SevenZip.tool tool →
  quick_rebuild w = true →
  fs w !! abspath (cwd w) newpkg = Some (File (Zip a)) →
  isdir_at (fs w) (abspath (cwd w) newzip) = false →
  (∀ abi, abi ∈ ABIS →
     fs w !! abspath (cwd w) (pkg E +:+ "/lib/" +:+ abi +:+ "/libPerseus.so")
       = Some (File (c abi))) →
  ∃ w' a',
    rebuild E w = (Ret tt, w') ∧
    fs w' !! abspath (cwd w) newpkg = Some (File (Zip a')) ∧
    fs w' !! abspath (cwd w) newzip = None ∧
    (∀ abi, abi ∈ ABIS → a' !! ("lib/" +:+ abi +:+ "/libPerseus.so") = Some (c abi)) ∧
    (∀ p, p ∈ libs E → a' !! p = None) ∧
    (∀ p, p ∉ libs_renamed E → p ∉ libs E → a' !! p = a !! p) ∧
    trace w' = (trace w ++
      [Run ([tool; "-y"; "d"; newzip] ++ libs_renamed E) StdoutOnly;
       Run ([tool; "-y"; "a"; newzip] ++ libs E) StdoutOnly;
       Run ([tool; "-y"; "rn"; newzip] ++ chain_zip (libs E) (libs_renamed E)) StdoutOnly])%list.
Proof.
  intros newpkg newzip tool Hpkg Hexec Hq Hapk Hdir Hlibs.
  destruct (package_name_rel _ Hpkg) as [Hne Hrel].
  set (D := Path.join (cwd w) "").
  (* the paths involved, and that they differ *)
  assert (HP : abspath (cwd w) newpkg = D +:+ newpkg)
    by (unfold newpkg, patched_apk; by rewrite abspath_package).
  assert (HZ : abspath (cwd w) newzip = D +:+ newzip).
  { unfold newzip, newpkg, patched_apk. rewrite str_app_assoc. by rewrite abspath_package. }
  assert (HL : ∀ abi, abspath (cwd w) (pkg E +:+ "/lib/" +:+ abi +:+ "/libPerseus.so")
                      = D +:+ pkg E +:+ "/lib/" +:+ abi +:+ "/libPerseus.so")
    by (intros; by apply abspath_package).
  assert (HJZ : Path.join (cwd w) newzip = abspath (cwd w) newzip).
  { symmetry. apply abspath_nonempty. unfold newzip, newpkg, patched_apk.
    by do 2 apply app_nonempty. }
  assert (HJL : ∀ abi, Path.join (cwd w) (pkg E +:+ "/lib/" +:+ abi +:+ "/libPerseus.so")
                       = abspath (cwd w) (pkg E +:+ "/lib/" +:+ abi +:+ "/libPerseus.so")).
  { intros. symmetry. apply abspath_nonempty. by apply app_nonempty. }
  assert (HPZ : abspath (cwd w) newpkg ≠ abspath (cwd w) newzip).
  { rewrite HP, HZ. intros Heq%(inj (String.app D)). unfold newzip in Heq.
    apply (f_equal String.length) in Heq. rewrite str_app_length in Heq. simpl in Heq. lia. }
  assert (HLP : ∀ abi, abspath (cwd w) (pkg E +:+ "/lib/" +:+ abi +:+ "/libPerseus.so")
                       ≠ abspath (cwd w) newpkg).
  { intros abi. rewrite HL, HP. unfold newpkg, patched_apk.
    intros Heq%(inj (String.app D))%(inj (String.app (pkg E))). discriminate. }
  assert (HLZ : ∀ abi, abspath (cwd w) (pkg E +:+ "/lib/" +:+ abi +:+ "/libPerseus.so")
                       ≠ abspath (cwd w) newzip).
  { intros abi. rewrite HL, HZ. unfold newzip, newpkg, patched_apk. rewrite str_app_assoc.
    intros Heq%(inj (String.app D))%(inj (String.app (pkg E))). discriminate. }
  set (P := abspath (cwd w) newpkg) in *. set (Z := abspath (cwd w) newzip) in *.
  (* the three runs of the tool *)
  set (f0 := rename_at (fs w) P Z).
  assert (Hf0 : f0 = <[Z := File (Zip a)]> (delete P (fs w)))
    by (unfold f0, rename_at; by rewrite Hapk).
  set (a1 := SevenZip.delete_entries (libs_renamed E) a).
  set (f1 := <[Z := File (Zip a1)]> f0).
  set (a2 := SevenZip.add_files f1 (cwd w) (libs E) a1).
  set (f2 := <[Z := File (Zip a2)]> f1).
  set (a3 := SevenZip.rename_entries (chain_zip (libs E) (libs_renamed E)) a2).
  set (f3 := <[Z := File (Zip a3)]> f2).
  assert (H1 : exec E ([tool; "-y"; "d"; newzip] ++ libs_renamed E) StdoutOnly (cwd w) f0
               = Some (SevenZip.ok, f1)).
  { rewrite Hexec. cbn [app]. unfold f1, a1. rewrite <- HJZ.
    apply tool_delete. rewrite HJZ, Hf0. apply lookup_insert_eq. }
  assert (H2 : ∃ status, exec E ([tool; "-y"; "a"; newzip] ++ libs E) StdoutOnly (cwd w) f1
               = Some (status, f2)).
  { rewrite Hexec. cbn [app]. unfold f2, a2. rewrite <- HJZ.
    apply tool_add. rewrite HJZ. apply lookup_insert_eq. }
  destruct H2 as [status H2].
  assert (H3 : exec E ([tool; "-y"; "rn"; newzip] ++ chain_zip (libs E) (libs_renamed E))
                 StdoutOnly (cwd w) f2 = Some (SevenZip.ok, f3)).
  { rewrite Hexec. cbn [app]. unfold f3, a3. rewrite <- HJZ.
    apply tool_rename. rewrite HJZ. apply lookup_insert_eq. }
  (* the rename back *)
  assert (Hfile : isfile_at (fs w) P = true) by (unfold isfile_at; by rewrite Hapk).
  pose proof (rebuild_fast_path E w _ _ _ _ _ _ Hq Hfile Hdir H1 H2 H3) as Hrun.
  cbv zeta in Hrun. fold newpkg newzip tool in Hrun.
  assert (Hback : f3 !! Z = Some (File (Zip a3))) by apply lookup_insert_eq.
  assert (HnoP : f3 !! P = None).
  { unfold f3, f2, f1. rewrite !lookup_insert_ne, Hf0, lookup_insert_ne by done.
    apply lookup_delete_eq. }
  match type of Hrun with
  | _ = move _ _ ?w3 =>
      rewrite (move_file w3 newzip newpkg (Zip a3) Hback) in Hrun
        by (unfold isdir_at; cbn [fs cwd]; fold P; by rewrite HnoP)
  end.
  cbn [fs cwd] in Hrun. fold P Z in Hrun.
  assert (Hfinal : rename_at f3 Z P = <[P := File (Zip a3)]> (delete Z f3))
    by (unfold rename_at; by rewrite Hback).
  rewrite Hfinal in Hrun.
  (* the entries of the archive *)
  assert (Hadd : ∀ abi, abi ∈ ABIS →
            f1 !! Path.join (cwd w) (pkg E +:+ "/lib/" +:+ abi +:+ "/libPerseus.so")
            = Some (File (c abi))).
  { intros abi Habi. rewrite HJL. unfold f1.
    rewrite lookup_insert_ne, Hf0, lookup_insert_ne, lookup_delete_ne by done.
    by apply Hlibs. }
  assert (Ha3 : a3 = SevenZip.rename_entries
            [pkg E +:+ "/lib/" +:+ "arm64-v8a" +:+ "/libPerseus.so"; "lib/arm64-v8a/libPerseus.so";
             pkg E +:+ "/lib/" +:+ "x86_64" +:+ "/libPerseus.so"; "lib/x86_64/libPerseus.so";
             pkg E +:+ "/lib/" +:+ "x86" +:+ "/libPerseus.so"; "lib/x86/libPerseus.so"]
            (<[pkg E +:+ "/lib/" +:+ "x86" +:+ "/libPerseus.so" := c "x86"]>
               (<[pkg E +:+ "/lib/" +:+ "x86_64" +:+ "/libPerseus.so" := c "x86_64"]>
                  (<[pkg E +:+ "/lib/" +:+ "arm64-v8a" +:+ "/libPerseus.so" := c "arm64-v8a"]>
                     (delete "lib/x86/libPerseus.so"
                        (delete "lib/x86_64/libPerseus.so"
                           (delete "lib/arm64-v8a/libPerseus.so" a))))))).
  { unfold a3, a2, a1. rewrite libs_renamed_eq, libs_eq.
    rewrite (add_files_three f1 (cwd w) _ _ _ (c "arm64-v8a") (c "x86_64") (c "x86"));
      [reflexivity | apply Hadd; unfold ABIS; in_list..]. }
  destruct (archive_surgery a _ _ _ _ _ _ (c "arm64-v8a") (c "x86_64") (c "x86")
              (staged_and_targets_NoDup (pkg E)))
    as ((Ht1 & Ht2 & Ht3) & (Hs1 & Hs2 & Hs3) & Hframe).
  rewrite <- Ha3 in Ht1, Ht2, Ht3, Hs1, Hs2, Hs3, Hframe.
  eexists _, a3. split; [exact Hrun|]. cbn [fs set_fs trace].
  split; [apply lookup_insert_eq|].
  split; [by rewrite lookup_insert_ne, lookup_delete_eq|].
  split; [by apply in_ABIS|].
  split.
  { intros p. rewrite libs_eq, !elem_of_cons.
    intros [->|[->|[->|[]%elem_of_nil]]]; done. }
  split; [|reflexivity].
  intros p Hp1 Hp2. apply Hframe.
  rewrite libs_renamed_eq in Hp1. rewrite libs_eq in Hp2.
  rewrite !not_elem_of_cons in Hp1, Hp2. rewrite !not_elem_of_cons. tauto.
Qed.

(** C1, as amended: with quick rebuild on, the apk of the resolved
    version in place, no directory at the scratch name and the three
    libraries on disk, [rebuild] returns and has run the archive tool
    three times: to delete the three library entries, to add the three
    files, and to rename, pair by pair, each added entry to its path in
    the apk.  The apk then holds at [lib/<abi>/libPerseus.so] the files
    on disk; the scratch name is gone; and every entry at another path is
    as before, except at the three paths the files were staged under,
    where no entry is left. *)
Theorem quick_rebuild_replaces_libraries E w a (c : string → content) :
  let newpkg := patched_apk E (pkg_version w) in
  let newzip := newpkg +:+ ".zip" in
  let tool := executable_path E "7zz" in
  package_name (pkg E) = true →
  exec E = SevenZip.tool tool →
  quick_rebuild w = true →
  fs w !! abspath (cwd w) newpkg = Some (File (Zip a)) →
  isdir_at (fs w) (abspath (cwd w) newzip) = false →
  (∀ abi, abi ∈ ABIS →
     fs w !! abspath (cwd w) (pkg E +:+ "/lib/" +:+ abi +:+ "/libPerseus.so")
       = Some (File (c abi))) →
  ∃ w' a',
    rebuild E w = (Ret tt, w') ∧
    fs w' !! abspath (cwd w) newpkg = Some (File (Zip a')) ∧
    fs w' !! abspath (cwd w) newzip = None ∧
    (∀ abi, abi ∈ ABIS → a' !! ("lib/" +:+ abi +:+ "/libPerseus.so") = Some (c abi)) ∧
    (∀ p, p ∈ libs E → a' !! p = None) ∧
    (∀ p, p ∉ libs_renamed E → p ∉ libs E → a' !! p = a !! p) ∧
    trace w' = (trace w ++
      [Run ([tool; "-y"; "d"; newzip] ++ libs_renamed E) StdoutOnly;
       Run ([tool; "-y"; "a"; newzip] ++ libs E) StdoutOnly;
       Run ([tool; "-y"; "rn"; newzip] ++ chain_zip (libs E) (libs_renamed E)) StdoutOnly])%list.
Proof. exact (quick_rebuild_swaps E w a c). Qed.

Lemma built_tree_libs apk abi :
  abi ∈ ABIS →
  built_tree apk !! abspath APK_BUILD (AZUR_LANE +:+ "/lib/" +:+ abi +:+ "/libPerseus.so")
  = Some (File new_lib).
Proof.
  revert abi. apply in_ABIS; unfold built_tree.
  - change (abspath _ _) with "/work/apk_build/com.bilibili.AzurLane/lib/arm64-v8a/libPerseus.so".
    by simplify_map_eq.
  - change (abspath _ _) with "/work/apk_build/com.bilibili.AzurLane/lib/x86_64/libPerseus.so".
    by simplify_map_eq.
  - change (abspath _ _) with "/work/apk_build/com.bilibili.AzurLane/lib/x86/libPerseus.so".
    by simplify_map_eq.
Qed.

Lemma built_tree_apk apk :
  built_tree apk !! abspath APK_BUILD (patched_apk bundled_7zz "1.0") = Some (File (Zip apk)).
Proof.
  change (abspath _ _) with "/work/apk_build/com.bilibili.AzurLane-1.0.patched.apk".
  unfold built_tree. by simplify_map_eq.
Qed.

Lemma built_tree_no_scratch apk :
  isdir_at (built_tree apk) (abspath APK_BUILD (patched_apk bundled_7zz "1.0" +:+ ".zip")) = false.
Proof.
  change (abspath _ _) with "/work/apk_build/com.bilibili.AzurLane-1.0.patched.apk.zip".
  unfold isdir_at, built_tree. by simplify_map_eq.
Qed.

Lemma bundled_7zz_exec :
  exec bundled_7zz = SevenZip.tool (executable_path bundled_7zz "7zz").
Proof.
  assert (H : executable_path bundled_7zz "7zz" = "/work/bin/7zz") by (vm_compute; reflexivity).
  rewrite H. reflexivity.
Qed.

Lemma quick_rebuild_replaces_libraries_witness :
  ∃ w' a',
    rebuild bundled_7zz (world_at (built_tree signed_apk) APK_BUILD true true "1.0")
      = (Ret tt, w') ∧
    fs w' !! "/work/apk_build/com.bilibili.AzurLane-1.0.patched.apk" = Some (File (Zip a')) ∧
    a' !! "lib/x86/libPerseus.so" = Some new_lib ∧
    a' !! "classes.dex" = Some (Blob [Byte.x03]).
Proof.
  destruct (quick_rebuild_replaces_libraries bundled_7zz
              (world_at (built_tree signed_apk) APK_BUILD true true "1.0")
              signed_apk (λ _, new_lib)
              ltac:(vm_compute; reflexivity) bundled_7zz_exec eq_refl
              (built_tree_apk signed_apk) (built_tree_no_scratch signed_apk)
              (built_tree_libs signed_apk))
    as (w' & a' & Hrun & Hapk & _ & Hlibs & _ & Hframe & _).
  exists w', a'. split; [exact Hrun|]. split; [exact Hapk|]. split.
  - apply (Hlibs "x86"). unfold ABIS. in_list.
  - rewrite Hframe.
    + reflexivity.
    + rewrite libs_renamed_eq, !not_elem_of_cons. repeat (split; [discriminate|]).
      apply not_elem_of_nil.
    + rewrite libs_eq, !not_elem_of_cons. repeat (split; [discriminate|]).
      apply not_elem_of_nil.
Defined.

(** C1, as stated, fails for an apk with an entry at a staged path: the
    added library replaces it and the rename takes it away. *)
Lemma libraries_swapped_rest_unchanged_counterexample :
  ¬ libraries_swapped_rest_unchanged bundled_7zz
      (world_at (built_tree signed_apk_with_stray) APK_BUILD true true "1.0").
Proof.
  intros Hclaim.
  destruct (Hclaim signed_apk_with_stray (λ _, new_lib))
    as (w' & a' & Hrun & Hapk & _ & Hframe).
  - apply built_tree_apk.
  - apply in_ABIS; (eexists; reflexivity).
  - apply built_tree_libs.
  - destruct (quick_rebuild_swaps bundled_7zz
                (world_at (built_tree signed_apk_with_stray) APK_BUILD true true "1.0")
                signed_apk_with_stray (λ _, new_lib)
                ltac:(vm_compute; reflexivity) bundled_7zz_exec eq_refl
                (built_tree_apk _) (built_tree_no_scratch _) (built_tree_libs _))
      as (w'' & a'' & Hrun' & Hapk' & _ & _ & Hstaged & _).
    rewrite Hrun in Hrun'. injection Hrun' as <-.
    rewrite Hapk in Hapk'. injection Hapk' as <-.
    assert (Hp : "com.bilibili.AzurLane/lib/x86/libPerseus.so" ∉ libs_renamed bundled_7zz).
    { rewrite libs_renamed_eq, !not_elem_of_cons.
      repeat (split; [discriminate|]). apply not_elem_of_nil. }
    specialize (Hframe _ Hp). clear Hp.
    rewrite Hstaged in Hframe.
    + unfold signed_apk_with_stray in Hframe. rewrite lookup_insert_eq in Hframe.
      clear -Hframe. discriminate.
    + rewrite libs_eq. do 2 right. left.
Qed.

(** ** The version when the badging tool gives none *)

Lemma stamp_valid ts dt :
  Datetime.utcfromtimestamp ts = Some dt → Datetime.valid_stamp (Datetime.strftime dt) = true.
Proof.
  intros Hdt. destruct (utcfromtimestamp_range _ _ Hdt) as (? & ? & ? & ? & ? & ?).
  by apply strftime_valid.
Qed.

(** Without the badging tool on the search path, the version is the
    modification time of the candidate: [FileNotFoundError] is caught,
    the clock is not read and no file changes. *)
Theorem get_version_without_aapt E w apk rest t :
  sorted (glob_at w (pkg E +:+ "*.apk") ++ glob_at w "*.apk") = apk :: rest →
  exec E ["aapt"; "dump"; "badging"; apk] Merged (cwd w) (fs w) = None →
  getmtime E (abspath (cwd w) apk) = Some t →
  0 ≤ t < 253402300800 →
  ∃ v w', get_version E w = (Ret tt, w') ∧
    pkg_version w' = v ∧
    Datetime.strftime <$> Datetime.utcfromtimestamp t = Some v ∧
    Datetime.valid_stamp v = true ∧
    fs w' = fs w ∧
    ticks w' = ticks w ∧
    logged w' = (logged w ++
      [(INFO, "getting version from apk file in current directory");
       (INFO, "Found apk for version extraction: " +:+ apk);
       (DEBUG, "aapt not found");
       (WARNING, "Using timestamp fallback version: " +:+ v)])%list.
Proof.
  intros Hsorted Hexec Hmtime Ht.
  destruct (utcfromtimestamp_is_Some _ Ht) as [dt Hdt].
  exists (Datetime.strftime dt). eexists. split; [|split; [|split; [|split; [|split; [|split]]]]].
  - get_version_found Hsorted. rewrite Hexec. cbv beta iota. wsimpl.
    rewrite bool_decide_eq_true_2 by done. cbv beta iota. wsimpl.
    rewrite Hmtime. cbv beta iota. rewrite Hdt. reflexivity.
  - reflexivity.
  - by rewrite Hdt.
  - by apply (stamp_valid t).
  - reflexivity.
  - reflexivity.
  - wsimpl. apply app_snoc4.
Qed.

Lemma get_version_without_aapt_witness :
  ∃ w', get_version (with_times (bare AZUR_LANE "/work") (λ _, 0) (λ _, Some 1709251199))
          (world_at extracted_apk APK_BUILD true true "0") = (Ret tt, w') ∧
        pkg_version w' = "20240229235959".
Proof.
  destruct (get_version_without_aapt
              (with_times (bare AZUR_LANE "/work") (λ _, 0) (λ _, Some 1709251199))
              (world_at extracted_apk APK_BUILD true true "0")
              "com.bilibili.AzurLane.apk" ["com.bilibili.AzurLane.apk"] 1709251199)
    as (v & w' & Hrun & Hv & Hstamp & _).
  - vm_compute; reflexivity.
  - reflexivity.
  - reflexivity.
  - lia.
  - exists w'. split; [exact Hrun|]. vm_compute in Hstamp. congruence.
Defined.

(** When the badging tool ends with a status other than 0, or prints no
    version name, what it printed is not used: the version is the
    modification time of the candidate, and the files are as the tool
    left them. *)
Theorem get_version_ignores_failed_aapt E w apk rest p f' t :
  sorted (glob_at w (pkg E +:+ "*.apk") ++ glob_at w "*.apk") = apk :: rest →
  exec E ["aapt"; "dump"; "badging"; apk] Merged (cwd w) (fs w) = Some (p, f') →
  returncode p ≠ 0 ∨ Re.search (stdout p) = None →
  getmtime E (abspath (cwd w) apk) = Some t →
  0 ≤ t < 253402300800 →
  ∃ v w', get_version E w = (Ret tt, w') ∧
    pkg_version w' = v ∧
    Datetime.strftime <$> Datetime.utcfromtimestamp t = Some v ∧
    Datetime.valid_stamp v = true ∧
    fs w' = f' ∧
    ticks w' = ticks w ∧
    logged w' = (logged w ++
      [(INFO, "getting version from apk file in current directory");
       (INFO, "Found apk for version extraction: " +:+ apk);
       (WARNING, "Using timestamp fallback version: " +:+ v)])%list.
Proof.
  intros Hsorted Hexec Hnone Hmtime Ht.
  destruct (utcfromtimestamp_is_Some _ Ht) as [dt Hdt].
  assert (Hrun : get_version E w
    = (Ret tt, add_logged WARNING ("Using timestamp fallback version: " +:+ Datetime.strftime dt)
                 (set_pkg_version (Datetime.strftime dt)
                    (set_fs f'
                       (add_trace (Run ["aapt"; "dump"; "badging"; apk] Merged)
                          (add_logged INFO ("Found apk for version extraction: " +:+ apk)
                             (add_trace (Scan "*.apk")
                                (add_trace (Scan (pkg E +:+ "*.apk"))
                                   (add_logged INFO
                                      "getting version from apk file in current directory"
                                      w))))))))).
  { get_version_found Hsorted. rewrite Hexec. cbv beta iota. wsimpl.
    destruct Hnone as [Hrc%Z.eqb_neq|Hsearch].
    - rewrite Hrc. cbv beta iota. wsimpl. rewrite Hmtime. cbv beta iota. by rewrite Hdt.
    - rewrite Hsearch.
      destruct (returncode p =? 0); cbv beta iota; wsimpl; rewrite Hmtime; cbv beta iota;
        by rewrite Hdt. }
  exists (Datetime.strftime dt). eexists. split; [exact Hrun|].
  split; [|split; [|split; [|split; [|split]]]].
  - reflexivity.
  - by rewrite Hdt.
  - by apply (stamp_valid t).
  - reflexivity.
  - reflexivity.
  - wsimpl. apply app_snoc3.
Qed.

Lemma get_version_ignores_failed_aapt_witness :
  ∃ w', get_version (with_times (with_exec (bare AZUR_LANE "/work") aapt_failing)
                       (λ _, 0) (λ _, Some 1709251199))
          (world_at extracted_apk APK_BUILD true true "0") = (Ret tt, w') ∧
        pkg_version w' = "20240229235959".
Proof.
  destruct (get_version_ignores_failed_aapt
              (with_times (with_exec (bare AZUR_LANE "/work") aapt_failing)
                 (λ _, 0) (λ _, Some 1709251199))
              (world_at extracted_apk APK_BUILD true true "0")
              "com.bilibili.AzurLane.apk" ["com.bilibili.AzurLane.apk"]
              (Completed 1 "package: name='com.bilibili.AzurLane' versionName='9.9'" "")
              extracted_apk 1709251199)
    as (v & w' & Hrun & Hv & Hstamp & _).
  - vm_compute; reflexivity.
  - reflexivity.
  - left. discriminate.
  - reflexivity.
  - lia.
  - exists w'. split; [exact Hrun|]. vm_compute in Hstamp. congruence.
Defined.

(** When the badging tool gives no version and the modification time
    cannot be had, or is a time no date stands for, the version is the
    time of the clock: every exception of the second attempt is caught. *)
Theorem get_version_falls_back_to_clock E w apk rest :
  sorted (glob_at w (pkg E +:+ "*.apk") ++ glob_at w "*.apk") = apk :: rest →
  match exec E ["aapt"; "dump"; "badging"; apk] Merged (cwd w) (fs w) with
  | Some (p, _) => returncode p ≠ 0 ∨ Re.search (stdout p) = None
  | None => True
  end →
  getmtime E (abspath (cwd w) apk) ≫= Datetime.utcfromtimestamp = None →
  0 ≤ time E (ticks w) < 253402300800 →
  ∃ v w', get_version E w = (Ret tt, w') ∧
    pkg_version w' = v ∧
    Datetime.strftime <$> Datetime.utcfromtimestamp (time E (ticks w)) = Some v ∧
    Datetime.valid_stamp v = true ∧
    ticks w' = S (ticks w) ∧
    last (logged w') = Some (WARNING, "Using UTC-now fallback version: " +:+ v).
Proof.
  intros Hsorted Hnone Hmtime Hclock.
  destruct (utcfromtimestamp_is_Some _ Hclock) as [dt Hdt].
  exists (Datetime.strftime dt).
  assert (Hrun : ∃ w', get_version E w = (Ret tt, w') ∧
    pkg_version w' = Datetime.strftime dt ∧ ticks w' = S (ticks w) ∧
    last (logged w')
      = Some (WARNING, "Using UTC-now fallback version: " +:+ Datetime.strftime dt)).
  { get_version_found Hsorted.
    destruct (exec E _ Merged (cwd w) (fs w)) as [[p f']|]; cbv beta iota; wsimpl.
    - assert (Hfalse : (if returncode p =? 0
                        then match Re.search (stdout p) with Some _ => true | None => false end
                        else false) = false).
      { destruct Hnone as [Hrc%Z.eqb_neq| ->]; [by rewrite Hrc | by destruct (_ =? _)]. }
      destruct (returncode p =? 0); [destruct (Re.search (stdout p)); [done|]|];
        cbv beta iota; wsimpl;
        (destruct (getmtime E _) as [t|]; cbn [mbind option_bind] in Hmtime;
         [rewrite Hmtime|]; cbv beta iota; wsimpl; rewrite Hdt;
         eexists; (split; [reflexivity|]); wsimpl; by rewrite last_snoc).
    - rewrite bool_decide_eq_true_2 by done. cbv beta iota. wsimpl.
      destruct (getmtime E _) as [t|]; cbn [mbind option_bind] in Hmtime;
        [rewrite Hmtime|]; cbv beta iota; wsimpl; rewrite Hdt;
        eexists; (split; [reflexivity|]); wsimpl; by rewrite last_snoc. }
  destruct Hrun as (w' & Hrun & Hv & Hticks & Hlast). exists w'.
  split; [exact Hrun|]. split; [exact Hv|]. split; [by rewrite Hdt|].
  split; [by apply (stamp_valid (time E (ticks w)))|]. done.
Qed.

Lemma get_version_falls_back_to_clock_witness :
  ∃ w', get_version (with_times (bare AZUR_LANE "/work") (λ _, 1709251199) (λ _, None))
          (world_at extracted_apk APK_BUILD true true "0") = (Ret tt, w') ∧
        pkg_version w' = "20240229235959".
Proof.
  destruct (get_version_falls_back_to_clock
              (with_times (bare AZUR_LANE "/work") (λ _, 1709251199) (λ _, None))
              (world_at extracted_apk APK_BUILD true true "0")
              "com.bilibili.AzurLane.apk" ["com.bilibili.AzurLane.apk"])
    as (v & w' & Hrun & Hv & Hstamp & _).
  - vm_compute; reflexivity.
  - exact I.
  - reflexivity.
  - simpl. lia.
  - exists w'. split; [exact Hrun|]. vm_compute in Hstamp. congruence.
Defined.

(** [get_version] returns in each of the cases its code provides for:
    whatever is in the directory, whether the badging tool is not found
    or completes (with any status and output), and whether or not a
    modification time can be had, as long as the clock shows a time a
    date stands for and no file is dated before 1970.  The version it
    leaves is the version name the tool printed, or a stamp of fourteen
    digits.  (A badging tool that cannot be executed, or whose output
    cannot be decoded, is a case the code does not provide for and the
    model of [run] does not have.) *)
Theorem get_version_leaves_a_version E w :
  (∀ n, 0 ≤ time E n < 253402300800) →
  (∀ p t, getmtime E p = Some t → 0 ≤ t) →
  ∃ w', get_version E w = (Ret tt, w') ∧
    (Datetime.valid_stamp (pkg_version w') = true ∨
     ∃ apk p f',
       exec E ["aapt"; "dump"; "badging"; apk] Merged (cwd w) (fs w) = Some (p, f') ∧
       returncode p = 0 ∧ Re.search (stdout p) = Some (pkg_version w')).
Proof.
  intros Hclock _.
  destruct (utcfromtimestamp_is_Some _ (Hclock (ticks w))) as [now Hnow].
  pose proof (stamp_valid _ _ Hnow) as Hvalid.
  destruct (sorted (glob_at w (pkg E +:+ "*.apk") ++ glob_at w "*.apk"))
    as [|apk rest] eqn:Hsorted.
  { get_version_found Hsorted. rewrite Hnow. eexists. split; [reflexivity|]. by left. }
  get_version_found Hsorted.
  destruct (exec E _ Merged (cwd w) (fs w)) as [[p f']|] eqn:Hexec; cbv beta iota; wsimpl.
  - destruct (returncode p =? 0) eqn:Hrc;
      [destruct (Re.search (stdout p)) as [v|] eqn:Hsearch|]; cbv beta iota; wsimpl.
    + eexists. split; [reflexivity|]. right. exists apk, p, f'.
      apply Z.eqb_eq in Hrc. done.
    + destruct (getmtime E _) as [t|]; cbv beta iota; wsimpl;
        [destruct (Datetime.utcfromtimestamp t) as [dt|] eqn:Hdt; cbv beta iota; wsimpl|];
        try rewrite Hnow; (eexists; split; [reflexivity|]); left; wsimpl;
        [by apply (stamp_valid t)|done..].
    + destruct (getmtime E _) as [t|]; cbv beta iota; wsimpl;
        [destruct (Datetime.utcfromtimestamp t) as [dt|] eqn:Hdt; cbv beta iota; wsimpl|];
        try rewrite Hnow; (eexists; split; [reflexivity|]); left; wsimpl;
        [by apply (stamp_valid t)|done..].
  - rewrite bool_decide_eq_true_2 by done. cbv beta iota. wsimpl.
    destruct (getmtime E _) as [t|]; cbv beta iota; wsimpl;
      [destruct (Datetime.utcfromtimestamp t) as [dt|] eqn:Hdt; cbv beta iota; wsimpl|];
      try rewrite Hnow; (eexists; split; [reflexivity|]); left; wsimpl;
      [by apply (stamp_valid t)|done..].
Qed.

Lemma get_version_leaves_a_version_witness :
  ∃ w', get_version (with_exec (bare AZUR_LANE "/work") aapt_1_2_3)
          (world_at two_apks APK_BUILD true true "0") = (Ret tt, w').
Proof.
  destruct (get_version_leaves_a_version (with_exec (bare AZUR_LANE "/work") aapt_1_2_3)
              (world_at two_apks APK_BUILD true true "0")) as (w' & Hrun & _).
  - intros n. simpl. lia.
  - intros p t [= <-]. lia.
  - by exists w'.
Defined.

(** ** What the pattern for the version name matches *)

Lemma span_value_spec r :
  r = (Re.span_value r).1 +:+ (Re.span_value r).2 ∧
  Str.contains_char "'" (Re.span_value r).1 = false.
Proof.
  induction r as [|c r [IH1 IH2]]; [done|]. simpl. case_decide as Hc; [done|].
  destruct (Re.span_value r) as [v rest]. cbn [fst snd] in *. sapp.
  split; [congruence|]. simpl. by rewrite IH2, bool_decide_eq_false_2.
Qed.

Lemma match_here_Some s v :
  Re.match_here s = Some v →
  v ≠ "" ∧ Str.contains_char "'" v = false ∧ ∃ post, s = Re.key +:+ v +:+ "'" +:+ post.
Proof.
  unfold Re.match_here. destruct (Str.strip_prefix Re.key s) as [r|] eqn:Hr; [|done].
  cbn [mbind option_bind]. apply strip_prefix_Some in Hr as ->.
  destruct (span_value_spec r) as [Hr Hq].
  destruct (Re.span_value r) as [v' rest]. cbn [fst snd] in *.
  case_bool_decide as Hv; [done|].
  destruct (Str.startswith rest "'") eqn:Hrest; [|done].
  intros [= ->]. apply startswith_true in Hrest as [post ->].
  split; [done|]. split; [done|]. exists post. by rewrite Hr.
Qed.

(** The version name [get_version] takes from the output of the badging
    tool is never empty, holds no quote, and stands in the output between
    [versionName='] and a closing quote. *)
Theorem version_name_is_a_field s v :
  Re.search s = Some v →
  v ≠ "" ∧ Str.contains_char "'" v = false ∧
  ∃ pre post, s = pre +:+ Re.key +:+ v +:+ "'" +:+ post.
Proof.
  induction s as [|c s IH]; rewrite search_unfold.
  - destruct (Re.match_here "") eqn:Hhere; [|done]. intros [= ->].
    destruct (match_here_Some _ _ Hhere) as (? & ? & post & ?).
    split; [done|]. split; [done|]. by exists "", post.
  - destruct (Re.match_here (String c s)) eqn:Hhere.
    + intros [= ->]. destruct (match_here_Some _ _ Hhere) as (? & ? & post & ?).
      split; [done|]. split; [done|]. by exists "", post.
    + intros (? & ? & pre & post & ->)%IH.
      split; [done|]. split; [done|]. by exists (String c pre), post.
Qed.

Lemma version_name_is_a_field_witness :
  ∃ pre post,
    "package: name='a' versionName='1.2.3' platformBuildVersionName='14'"
    = pre +:+ Re.key +:+ "1.2.3" +:+ "'" +:+ post.
Proof.
  apply (version_name_is_a_field
           "package: name='a' versionName='1.2.3' platformBuildVersionName='14'" "1.2.3").
  vm_compute. reflexivity.
Defined.

(** Conversely, an output with a field [versionName='V'] whose value is
    not empty always yields a version name: the search fails only when
    there is no such field. *)
Theorem version_name_found_when_present pre V post :
  V ≠ "" → Str.contains_char "'" V = false →
  is_Some (Re.search (pre +:+ Re.key +:+ V +:+ "'" +:+ post)).
Proof.
  intros Hne Hq. induction pre as [|c pre IH].
  - rewrite str_app_nil_l, search_unfold, match_here_field by done. by eexists.
  - rewrite search_unfold.
    destruct (Re.match_here _); [by eexists|]. exact IH.
Qed.

Lemma version_name_found_when_present_witness :
  is_Some (Re.search ("versionName='' " +:+ Re.key +:+ "2.0" +:+ "'" +:+ "")).
Proof. apply version_name_found_when_present; [discriminate | reflexivity]. Defined.

(** ** Extraction with a tool *)

(** The search for candidates returns, reads the directory only, and
    leaves everything but the record of its scans as it is. *)
Lemma package_candidates_frame E w :
  ∃ l w', package_candidates E w = (Ret l, w') ∧
    fs w' = fs w ∧ cwd w' = cwd w ∧ ticks w' = ticks w ∧ skip w' = skip w ∧
    quick_rebuild w' = quick_rebuild w ∧ pkg_version w' = pkg_version w ∧
    logged w' = logged w ∧ printed w' = printed w ∧
    ∀ lv m, package_candidates E (add_logged lv m w) = (Ret l, add_logged lv m w').
Proof.
  unfold package_candidates, glob. mstep. cbv beta iota zeta.
  destruct (bool_decide (sorted (glob_at w _) = [])) eqn:Hnone.
  - eexists _, _. split; [reflexivity|]. repeat (split; [reflexivity|]).
    intros lv m. change (glob_at (add_logged lv m w)) with (glob_at w).
    rewrite Hnone. reflexivity.
  - eexists _, _. split; [reflexivity|]. repeat (split; [reflexivity|]).
    intros lv m. change (glob_at (add_logged lv m w)) with (glob_at w).
    rewrite Hnone. reflexivity.
Qed.

(** When the tool that unpacks the archive ends with a status other than
    0, extraction ends the process with status 1 and prints what the tool
    wrote.  The tool is the bundled [7zz] when it is a file and [unzip]
    otherwise; after a failure of the first the second is not tried. *)
Theorem extraction_failure_is_fatal E w archive rest p f' :
  let sevenz := executable_path E "7zz" in
  let bundled := isfile_at (fs w) (abspath (cwd w) sevenz) in
  let argv :=
    if bundled then [sevenz; "x"; "-y"; archive] else ["unzip"; "-o"; archive; "-d"; "."] in
  skip w && isfile_at (fs w) (abspath (cwd w) (pkg E +:+ ".apk")) = false →
  (package_candidates E w).1 = Ret (archive :: rest) →
  exec E argv Merged (cwd w) (fs w) = Some (p, f') →
  returncode p ≠ 0 →
  ∃ w', extract_from_packages E w = (Exit 1, w') ∧
    fs w' = f' ∧
    printed w' = (printed w ++ [stdout p])%list ∧
    trace w' = (trace (package_candidates E w).2 ++ [Run argv Merged])%list ∧
    last (logged w')
      = Some (ERROR, if bundled then "7zz extraction failed" else "unzip extraction failed").
Proof.
  intros sevenz bundled argv Hskip Hcand Hexec Hrc.
  destruct (package_candidates_frame E w)
    as (l & w1 & Hpc & Hfs & Hcwd & _ & _ & _ & _ & _ & Hprinted & Hlog).
  rewrite Hpc in Hcand |- *. cbn [fst snd] in *. injection Hcand as ->.
  assert (Hz : negb (returncode p =? 0) = true) by by apply negb_true_iff, Z.eqb_neq.
  unfold argv in *. clear argv. fold sevenz. destruct bundled eqn:Hb; unfold bundled in Hb.
  - eexists. split.
    + extract_found Hskip Hpc Hlog Hfs Hcwd. fold sevenz. rewrite Hb. cbv beta iota. wsimpl.
      rewrite Hfs, Hcwd, Hexec. cbv beta iota. rewrite Hz. reflexivity.
    + wsimpl. rewrite Hprinted. repeat split. by rewrite last_snoc.
  - eexists. split.
    + extract_found Hskip Hpc Hlog Hfs Hcwd. fold sevenz. rewrite Hb. cbv beta iota. wsimpl.
      rewrite Hfs, Hcwd, Hexec. cbv beta iota. rewrite Hz. reflexivity.
    + wsimpl. rewrite Hprinted. repeat split. by rewrite last_snoc.
Qed.

Lemma extraction_failure_is_fatal_witness :
  ∃ w', extract_from_packages (with_exec (bare AZUR_LANE "/work") unreadable_archive)
          (world_at one_archive APK_BUILD true true "0") = (Exit 1, w') ∧
        printed w' = ["cannot find zipfile directory"].
Proof.
  destruct (extraction_failure_is_fatal
              (with_exec (bare AZUR_LANE "/work") unreadable_archive)
              (world_at one_archive APK_BUILD true true "0")
              "/work/packages/com.bilibili.AzurLane.zip" []
              (Completed 9 "cannot find zipfile directory" "") one_archive)
    as (w' & Hrun & _ & Hprinted & _).
  - vm_compute; reflexivity.
  - vm_compute; reflexivity.
  - reflexivity.
  - discriminate.
  - exists w'. split; [exact Hrun | exact Hprinted].
Defined.

(** When the tool ends with status 0 and the apk of the package is a
    file in the working directory afterwards, extraction returns: one
    program was started, nothing was printed, and the files are as the
    tool left them. *)
Theorem extraction_succeeds E w archive rest p f' :
  let sevenz := executable_path E "7zz" in
  let bundled := isfile_at (fs w) (abspath (cwd w) sevenz) in
  let argv :=
    if bundled then [sevenz; "x"; "-y"; archive] else ["unzip"; "-o"; archive; "-d"; "."] in
  skip w && isfile_at (fs w) (abspath (cwd w) (pkg E +:+ ".apk")) = false →
  (package_candidates E w).1 = Ret (archive :: rest) →
  exec E argv Merged (cwd w) (fs w) = Some (p, f') →
  returncode p = 0 →
  isfile_at f' (abspath (cwd w) (pkg E +:+ ".apk")) = true →
  ∃ w', extract_from_packages E w = (Ret tt, w') ∧
    fs w' = f' ∧
    cwd w' = cwd w ∧
    printed w' = printed w ∧
    trace w' = (trace (package_candidates E w).2 ++ [Run argv Merged])%list.
Proof.
  intros sevenz bundled argv Hskip Hcand Hexec Hrc Hapk.
  destruct (package_candidates_frame E w)
    as (l & w1 & Hpc & Hfs & Hcwd & _ & _ & _ & _ & _ & Hprinted & Hlog).
  rewrite Hpc in Hcand |- *. cbn [fst snd] in *. injection Hcand as ->.
  unfold argv in *. clear argv. fold sevenz. destruct bundled eqn:Hb; unfold bundled in Hb.
  - eexists. split.
    + extract_found Hskip Hpc Hlog Hfs Hcwd. fold sevenz. rewrite Hb. cbv beta iota. wsimpl.
      rewrite Hfs, Hcwd, Hexec. cbv beta iota. rewrite Hrc. change (negb (0 =? 0)) with false.
      cbv beta iota. wsimpl. rewrite Hcwd, Hapk. reflexivity.
    + wsimpl. by rewrite Hprinted, Hcwd.
  - eexists. split.
    + extract_found Hskip Hpc Hlog Hfs Hcwd. fold sevenz. rewrite Hb. cbv beta iota. wsimpl.
      rewrite Hfs, Hcwd, Hexec. cbv beta iota. rewrite Hrc. change (negb (0 =? 0)) with false.
      cbv beta iota. wsimpl. rewrite Hcwd, Hapk. reflexivity.
    + wsimpl. by rewrite Hprinted, Hcwd.
Qed.

Lemma extraction_succeeds_witness :
  ∃ w', extract_from_packages (with_exec (bare AZUR_LANE "/work") unzip_installed)
          (world_at one_archive APK_BUILD true true "0") = (Ret tt, w') ∧
        trace w' = [Scan "/work/packages/com.bilibili.AzurLane*";
                    Run ["unzip"; "-o"; "/work/packages/com.bilibili.AzurLane.zip"; "-d"; "."]
                      Merged].
Proof.
  destruct (extraction_succeeds
              (with_exec (bare AZUR_LANE "/work") unzip_installed)
              (world_at one_archive APK_BUILD true true "0")
              "/work/packages/com.bilibili.AzurLane.zip" []
              (Completed 0 "" "")
              (<["/work/apk_build/com.bilibili.AzurLane.apk" := File (Zip ∅)]> one_archive))
    as (w' & Hrun & _ & _ & _ & Htrace).
  - vm_compute; reflexivity.
  - vm_compute; reflexivity.
  - reflexivity.
  - reflexivity.
  - reflexivity.
  - exists w'. split; [exact Hrun|]. vm_compute in Htrace. exact Htrace.
Defined.

(** When the tool ends with status 0 but the apk of the package is no
    file in the working directory afterwards, extraction ends the
    process with status 1, after one line at level ERROR; nothing is
    printed. *)
Theorem extraction_without_apk_is_fatal E w archive rest p f' :
  let sevenz := executable_path E "7zz" in
  let bundled := isfile_at (fs w) (abspath (cwd w) sevenz) in
  let argv :=
    if bundled then [sevenz; "x"; "-y"; archive] else ["unzip"; "-o"; archive; "-d"; "."] in
  skip w && isfile_at (fs w) (abspath (cwd w) (pkg E +:+ ".apk")) = false →
  (package_candidates E w).1 = Ret (archive :: rest) →
  exec E argv Merged (cwd w) (fs w) = Some (p, f') →
  returncode p = 0 →
  isfile_at f' (abspath (cwd w) (pkg E +:+ ".apk")) = false →
  ∃ w' names, extract_from_packages E w = (Exit 1, w') ∧
    fs w' = f' ∧
    printed w' = printed w ∧
    trace w' = (trace (package_candidates E w).2 ++ [Run argv Merged])%list ∧
    last (logged w')
      = Some (ERROR, "After extraction could not find " +:+ pkg E +:+
                     ".apk in apk_build/ (extracted files: " +:+ repr_names names +:+ ")").
Proof.
  intros sevenz bundled argv Hskip Hcand Hexec Hrc Hapk.
  destruct (package_candidates_frame E w)
    as (l & w1 & Hpc & Hfs & Hcwd & _ & _ & _ & _ & _ & Hprinted & Hlog).
  rewrite Hpc in Hcand |- *. cbn [fst snd] in *. injection Hcand as ->.
  unfold argv in *. clear argv. fold sevenz. destruct bundled eqn:Hb; unfold bundled in Hb.
  - eexists _, _. split.
    + extract_found Hskip Hpc Hlog Hfs Hcwd. fold sevenz. rewrite Hb. cbv beta iota. wsimpl.
      rewrite Hfs, Hcwd, Hexec. cbv beta iota. rewrite Hrc. change (negb (0 =? 0)) with false.
      cbv beta iota. wsimpl. rewrite Hcwd, Hapk. reflexivity.
    + wsimpl. rewrite Hprinted. repeat split. by rewrite last_snoc.
  - eexists _, _. split.
    + extract_found Hskip Hpc Hlog Hfs Hcwd. fold sevenz. rewrite Hb. cbv beta iota. wsimpl.
      rewrite Hfs, Hcwd, Hexec. cbv beta iota. rewrite Hrc. change (negb (0 =? 0)) with false.
      cbv beta iota. wsimpl. rewrite Hcwd, Hapk. reflexivity.
    + wsimpl. rewrite Hprinted. repeat split. by rewrite last_snoc.
Qed.

Lemma extraction_without_apk_is_fatal_witness :
  ∃ w', extract_from_packages (with_exec (bare AZUR_LANE "/work") empty_archive)
          (world_at one_archive APK_BUILD true true "0") = (Exit 1, w').
Proof.
  destruct (extraction_without_apk_is_fatal
              (with_exec (bare AZUR_LANE "/work") empty_archive)
              (world_at one_archive APK_BUILD true true "0")
              "/work/packages/com.bilibili.AzurLane.zip" []
              (Completed 0 "" "") one_archive)
    as (w' & names & Hrun & _).
  - vm_compute; reflexivity.
  - vm_compute; reflexivity.
  - reflexivity.
  - reflexivity.
  - reflexivity.
  - by exists w'.
Defined.

(** With no [7zz] in [bin/] and no [unzip] installed, extraction ends
    with a [FileNotFoundError] that nothing catches: the process ends
    with status 1 and no file is changed. *)
Theorem extraction_without_a_tool E w archive rest :
  skip w && isfile_at (fs w) (abspath (cwd w) (pkg E +:+ ".apk")) = false →
  (package_candidates E w).1 = Ret (archive :: rest) →
  isfile_at (fs w) (abspath (cwd w) (executable_path E "7zz")) = false →
  exec E ["unzip"; "-o"; archive; "-d"; "."] Merged (cwd w) (fs w) = None →
  ∃ w', extract_from_packages E w = (Raise FileNotFoundError, w') ∧
    exit_status (extract_from_packages E w).1 = 1 ∧
    fs w' = fs w ∧
    printed w' = printed w.
Proof.
  intros Hskip Hcand Hb Hexec.
  destruct (package_candidates_frame E w)
    as (l & w1 & Hpc & Hfs & Hcwd & _ & _ & _ & _ & _ & Hprinted & Hlog).
  rewrite Hpc in Hcand. cbn [fst snd] in *. injection Hcand as ->.
  assert (Hrun : extract_from_packages E w
    = (Raise FileNotFoundError,
       add_trace (Run ["unzip"; "-o"; archive; "-d"; "."] Merged)
         (add_logged INFO "7zz not found in bin/, falling back to system unzip"
            (add_logged INFO ("Using archive: " +:+ archive)
               (add_logged INFO "searching for package archives in packages/" w1))))).
  { extract_found Hskip Hpc Hlog Hfs Hcwd. rewrite Hb. cbv beta iota. wsimpl.
    rewrite Hfs, Hcwd, Hexec. reflexivity. }
  eexists. split; [exact Hrun|]. rewrite Hrun. wsimpl. done.
Qed.

Lemma extraction_without_a_tool_witness :
  ∃ w', extract_from_packages (bare AZUR_LANE "/work")
          (world_at one_archive APK_BUILD true true "0") = (Raise FileNotFoundError, w').
Proof.
  destruct (extraction_without_a_tool (bare AZUR_LANE "/work")
              (world_at one_archive APK_BUILD true true "0")
              "/work/packages/com.bilibili.AzurLane.zip" [])
    as (w' & Hrun & _).
  - vm_compute; reflexivity.
  - vm_compute; reflexivity.
  - vm_compute; reflexivity.
  - reflexivity.
  - by exists w'.
Defined.

(** ** Entering and leaving directories *)

(** The directory a name of the working directory lies in is the working
    directory. *)
Lemma parent_of_child here d :
  here ≠ "" → Str.endswith_char here "/" = false →
  d ≠ "" → Str.contains_char "/" d = false →
  Path.parent (abspath here d) = here.
Proof.
  intros Hhere Hend Hd Hsep.
  rewrite abspath_rel by (done || by apply isabs_no_sep).
  unfold Path.join. change (Path.isabs "") with false. cbv iota.
  rewrite Hend, bool_decide_eq_false_2 by done. simpl orb. cbv iota.
  rewrite !str_app_assoc. sapp. unfold Path.parent.
  rewrite rsplit_app by done. by rewrite bool_decide_eq_false_2.
Qed.

(** A native build that ends with status 0 returns in the directory it
    was started from: the program ran in [PerseusLib], once, and nothing
    was printed. *)
Theorem build_returns_where_it_started E w p f' (do_clean : bool) :
  cwd w ≠ "" → Str.endswith_char (cwd w) "/" = false →
  isdir_at (fs w) (abspath (cwd w) "PerseusLib") = true →
  exec E (ndk_build_cmd E do_clean) Capture (abspath (cwd w) "PerseusLib") (fs w)
    = Some (p, f') →
  returncode p = 0 →
  ∃ w', build_perseus_lib E do_clean w = (Ret tt, w') ∧
    cwd w' = cwd w ∧
    fs w' = f' ∧
    printed w' = printed w ∧
    trace w' = (trace w ++ [Run (ndk_build_cmd E do_clean) Capture])%list.
Proof.
  intros Hhere Hend Hd%isdir_at_lookup Hx Hrc.
  eexists. split.
  - unfold build_perseus_lib, chdir. mstep. cbn. rewrite Hd. cbn. rewrite Hx. cbn.
    rewrite Hrc. reflexivity.
  - cbn. split; [|done]. by apply parent_of_child.
Qed.

Lemma build_returns_where_it_started_witness :
  ∃ w', build_perseus_lib (with_exec (bare AZUR_LANE "/work") working_build) false
          (world_at perseus_sources "/work" true true "0") = (Ret tt, w') ∧
        cwd w' = "/work" ∧
        fs w' !! "/work/PerseusLib/src/libs/x86/libPerseus.so" = Some (File new_lib).
Proof.
  destruct (build_returns_where_it_started
              (with_exec (bare AZUR_LANE "/work") working_build)
              (world_at perseus_sources "/work" true true "0")
              (Completed 0 "[x86] Install: libPerseus.so" "")
              (<["/work/PerseusLib/src/libs/x86/libPerseus.so" := File new_lib]>
                 perseus_sources) false)
    as (w' & Hrun & Hcwd & Hfs & _).
  - discriminate.
  - reflexivity.
  - vm_compute; reflexivity.
  - reflexivity.
  - reflexivity.
  - exists w'. split; [exact Hrun|]. split; [exact Hcwd|].
    rewrite Hfs. apply lookup_insert_eq.
Defined.

(** Without a directory [PerseusLib] in the working directory, [main]
    ends with a [FileNotFoundError] that nothing catches, before it has
    started a program or changed a file. *)
Theorem main_needs_perseus_lib E w (skip_arg quick_arg : bool) :
  fs w !! abspath (cwd w) "PerseusLib" = None →
  ∃ w', main E skip_arg quick_arg w = (Raise FileNotFoundError, w') ∧
    exit_status (main E skip_arg quick_arg w).1 = 1 ∧
    fs w' = fs w ∧
    trace w' = trace w ∧
    printed w' = printed w.
Proof.
  intros Hd.
  assert (Hrun : main E skip_arg quick_arg w
    = (Raise FileNotFoundError,
       add_logged INFO "building perseus libs"
         (set_ticks (S (ticks w)) (set_flags skip_arg quick_arg w)))).
  { unfold main, build_perseus_lib, chdir. mstep. cbn. rewrite Hd. reflexivity. }
  eexists. split; [exact Hrun|]. by rewrite Hrun.
Qed.

Lemma main_needs_perseus_lib_witness :
  exit_status (main (bare AZUR_LANE "/work") true true
                 (world_at one_archive "/work" false false "0")).1 = 1.
Proof.
  destruct (main_needs_perseus_lib (bare AZUR_LANE "/work")
              (world_at one_archive "/work" false false "0") true true)
    as (w' & _ & Hstatus & _).
  - reflexivity.
  - exact Hstatus.
Defined.

Lemma is_name_not_parent d : Path.is_name d = true → (d =? "..")%string = false.
Proof.
  intros [_ Hd%negb_true_iff%bool_decide_eq_false]%andb_true_iff.
  by apply String.eqb_neq.
Qed.

(** [mkcd d] for the name [d] of an entry of the working directory that
    is a directory or does not exist: the process is in [d] afterwards,
    [d] is a directory, and every other path is as before. *)
Theorem mkcd_enters_directory w d :
  Path.is_name d = true →
  fs w !! abspath (cwd w) d = None ∨ fs w !! abspath (cwd w) d = Some Dir →
  ∃ w', mkcd d w = (Ret tt, w') ∧
    cwd w' = abspath (cwd w) d ∧
    fs w' !! abspath (cwd w) d = Some Dir ∧
    (∀ k, k ≠ abspath (cwd w) d → fs w' !! k = fs w !! k) ∧
    trace w' = trace w.
Proof.
  intros Hd%is_name_not_parent [Hnone|Hdir].
  - eexists. split.
    + unfold mkcd, mkdir, chdir. mstep. unfold isdir_at. cbv beta. rewrite Hnone. cbn.
      rewrite Hnone, Hd. cbn. rewrite lookup_insert_eq. reflexivity.
    + cbn. split; [done|]. split; [apply lookup_insert_eq|]. split; [|done].
      intros k Hk. by rewrite lookup_insert_ne.
  - eexists. split.
    + unfold mkcd, mkdir, chdir. mstep. unfold isdir_at. cbv beta. rewrite Hdir. cbn.
      rewrite Hd, Hdir. reflexivity.
    + cbn. done.
Qed.

Lemma mkcd_enters_directory_witness :
  ∃ w', mkcd "apk_build" (world_at perseus_sources "/work" true true "0") = (Ret tt, w') ∧
        cwd w' = "/work/apk_build".
Proof.
  destruct (mkcd_enters_directory (world_at perseus_sources "/work" true true "0") "apk_build")
    as (w' & Hrun & Hcwd & _).
  - reflexivity.
  - left. reflexivity.
  - exists w'. split; [exact Hrun | exact Hcwd].
Defined.

(** [mkcd d] where [d] is a regular file: [os.mkdir] raises
    [FileExistsError] and the process stays where it is. *)
Theorem mkcd_on_a_file w d c :
  fs w !! abspath (cwd w) d = Some (File c) →
  mkcd d w = (Raise FileExistsError, w).
Proof.
  intros Hfile. unfold mkcd, mkdir. mstep. unfold isdir_at. cbv beta. rewrite Hfile. cbn.
  by rewrite Hfile.
Qed.

Lemma mkcd_on_a_file_witness :
  mkcd "com.bilibili.AzurLane.apk" (world_at extracted_apk APK_BUILD true true "0")
  = (Raise FileExistsError, world_at extracted_apk APK_BUILD true true "0").
Proof. apply (mkcd_on_a_file _ _ (Zip ∅)). reflexivity. Defined.

(** ** Decompiling *)

(** What [shutil.rmtree] leaves: nothing at the directory or below it,
    and every other path as it was. *)
Lemma rmtree_at_lookup (f : filesystem) d k :
  rmtree_at f d !! k
  = if bool_decide (k = d) || Str.startswith k (Path.join d "") then None else f !! k.
Proof.
  unfold rmtree_at. destruct (bool_decide (k = d) || _) eqn:Hk.
  - apply map_lookup_filter_None. right. intros x _ [Hne Hpre]. cbn in *.
    apply orb_true_iff in Hk as [Hk|Hk].
    + by apply bool_decide_eq_true in Hk.
    + apply Hpre. by rewrite Hk.
  - apply orb_false_elim in Hk as [Hk%bool_decide_eq_false Hpre].
    destruct (f !! k) as [x|] eqn:Hx.
    + apply map_lookup_filter_Some. split; [done|]. cbn. split; [done|]. rewrite Hpre. intros [].
    + apply map_lookup_filter_None. by left.
Qed.

(** With [skip] set and the decompiled tree in place, [decompile_apk]
    returns at once: it logs one line, starts no program and leaves
    every file as it is. *)
Theorem decompile_skips_when_decompiled E w :
  skip w = true →
  isdir_at (fs w) (abspath (cwd w) (pkg E)) = true →
  decompile_apk E w
    = (Ret tt, add_logged INFO (pkg E +:+ ".apk is already decompiled, skipping") w) ∧
  fs (decompile_apk E w).2 = fs w ∧
  trace (decompile_apk E w).2 = trace w.
Proof.
  intros Hs Hd.
  assert (Hrun : decompile_apk E w
    = (Ret tt, add_logged INFO (pkg E +:+ ".apk is already decompiled, skipping") w)).
  { unfold decompile_apk. mstep. by rewrite Hs, Hd. }
  by rewrite Hrun.
Qed.

(** Without [skip], a decompiled tree that is in the way is removed
    before the decompiler is started: the decompiler finds nothing at
    the directory of the package or below it, and every other file as it
    was. *)
Theorem decompile_removes_old_tree E w :
  let tree := abspath (cwd w) (pkg E) in
  let decompile := "java -jar " +:+ apktool E +:+ " -q -f d " +:+ pkg E +:+ ".apk" in
  skip w = false →
  isdir_at (fs w) tree = true →
  ∃ w' f0, decompile_apk E w = (Ret tt, w') ∧
    fs w' = shell E decompile (cwd w) f0 ∧
    trace w' = (trace w ++ [System decompile])%list ∧
    f0 !! tree = None ∧
    (∀ k, Str.startswith k (Path.join tree "") = true → f0 !! k = None) ∧
    (∀ k, k ≠ tree → Str.startswith k (Path.join tree "") = false → f0 !! k = fs w !! k).
Proof.
  intros tree decompile Hs Hd. pose proof (isdir_at_lookup _ _ Hd) as Hdir.
  exists (add_trace (System decompile)
            (set_fs (shell E decompile (cwd w) (rmtree_at (fs w) tree))
               (add_logged INFO ("decompiling " +:+ pkg E +:+ ".apk") w))),
         (rmtree_at (fs w) tree).
  split; [|split; [done|split; [done|split; [|split]]]].
  - unfold tree in Hd, Hdir. unfold decompile_apk, rmtree. mstep. rewrite Hs. cbv beta iota.
    rewrite Hd. cbn. rewrite Hd. cbn. rewrite Hdir. reflexivity.
  - rewrite rmtree_at_lookup. by rewrite bool_decide_eq_true_2.
  - intros k Hk. rewrite rmtree_at_lookup, Hk. by rewrite orb_true_r.
  - intros k Hne Hk. rewrite rmtree_at_lookup, Hk. by rewrite bool_decide_eq_false_2.
Qed.

Lemma decompile_skips_when_decompiled_witness :
  trace (decompile_apk (bare AZUR_LANE "/work")
           (world_at decompiled_tree APK_BUILD true true "0")).2 = [].
Proof.
  apply (decompile_skips_when_decompiled (bare AZUR_LANE "/work")
           (world_at decompiled_tree APK_BUILD true true "0")); vm_compute; reflexivity.
Defined.

Lemma decompile_removes_old_tree_witness :
  ∃ w', decompile_apk (bare AZUR_LANE "/work")
          (world_at decompiled_tree APK_BUILD false true "0") = (Ret tt, w') ∧
    fs w' !! "/work/apk_build/com.bilibili.AzurLane/AndroidManifest.xml" = None ∧
    fs w' !! "/work/apk_build/com.bilibili.AzurLane.apk" = Some (File (Zip ∅)).
Proof.
  destruct (decompile_removes_old_tree (bare AZUR_LANE "/work")
              (world_at decompiled_tree APK_BUILD false true "0"))
    as (w' & f0 & Hrun & Hfs & _ & _ & Hbelow & Hother).
  - reflexivity.
  - vm_compute; reflexivity.
  - exists w'. split; [exact Hrun|]. rewrite Hfs.
    change (shell (bare AZUR_LANE "/work") ?c ?d f0) with f0. split.
    + apply Hbelow. vm_compute; reflexivity.
    + rewrite Hother; [reflexivity | discriminate | vm_compute; reflexivity].
Defined.

(** ** Signing *)

(** Without the patched apk, [sign_apk] ends with a [FileNotFoundError]
    at its first step: no program is started and nothing changes. *)
Theorem sign_apk_needs_the_apk E w :
  fs w !! abspath (cwd w) (patched_apk E (pkg_version w)) = None →
  sign_apk E w = (Raise FileNotFoundError, w).
Proof.
  intros Hnone. unfold sign_apk, move. mstep. cbv beta iota zeta. by rewrite Hnone.
Qed.

Lemma sign_apk_needs_the_apk_witness :
  sign_apk (bare AZUR_LANE "/work") (world_at previous_build APK_BUILD true true "1.1")
  = (Raise FileNotFoundError, world_at previous_build APK_BUILD true true "1.1").
Proof. apply sign_apk_needs_the_apk. reflexivity. Defined.

(** The steps of [sign_apk] up to the removal of the [.idsig] file. *)
Lemma sign_apk_steps E w c :
  let f := patched_apk E (pkg_version w) in
  let apk := abspath (cwd w) f in
  let unsigned := abspath (cwd w) (f +:+ ".unsigned") in
  let align :=
    ("zipalign" +:+ (if is_windows E then ".exe" else "")) +:+ " -pf 4 " +:+ f +:+
    ".unsigned " +:+ f in
  let sign :=
    ("apksigner" +:+ (if is_windows E then ".bat" else "")) +:+ " sign --key " +:+
    Path.join3 (rootdir E) "signing" "testkey.pk8" +:+ " --cert " +:+
    Path.join3 (rootdir E) "signing" "testkey.x509.pem" +:+ " " +:+ f in
  let aligned := shell E align (cwd w) (rename_at (fs w) apk unsigned) in
  let signed := shell E sign (cwd w) (delete unsigned aligned) in
  fs w !! apk = Some (File c) →
  isdir_at (fs w) unsigned = false →
  isfile_at aligned unsigned = true →
  sign_apk E w
  = remove (f +:+ ".idsig")
      (World signed (cwd w) (ticks w) (skip w) (quick_rebuild w) (pkg_version w)
         (logged w ++ [(INFO, "zipaligning apk"); (INFO, "signing apk")])
         (printed w) (trace w ++ [System align; System sign])).
Proof.
  intros f apk unsigned align sign aligned signed Hapk Hdir Haligned.
  destruct (isfile_at_lookup _ _ Haligned) as [c' Hc'].
  unfold sign_apk. mstep. cbv beta iota zeta. fold f.
  rewrite (move_file w f (f +:+ ".unsigned") c Hapk Hdir). cbv beta iota.
  fold apk unsigned. unfold remove at 1. wsimpl. fold align unsigned aligned.
  rewrite Hc'. cbv beta iota. wsimpl. fold sign signed.
  f_equal.
  cbv [add_logged set_fs add_trace fs cwd ticks skip quick_rebuild pkg_version
       logged printed trace].
  f_equal; by rewrite <- app_assoc.
Qed.

(** [sign_apk] where both tools do their work: [zipalign] is given the
    apk under the name [.unsigned] and leaves that file in place,
    [apksigner] leaves an [.idsig] file.  Then [sign_apk] returns after
    these two commands, in this order: the signer was started on the
    files [zipalign] left, without the [.unsigned] file, and the files
    at the end are those the signer left, without the [.idsig] file. *)
Theorem sign_apk_cleans_up E w c :
  let f := patched_apk E (pkg_version w) in
  let apk := abspath (cwd w) f in
  let unsigned := abspath (cwd w) (f +:+ ".unsigned") in
  let idsig := abspath (cwd w) (f +:+ ".idsig") in
  let align :=
    ("zipalign" +:+ (if is_windows E then ".exe" else "")) +:+ " -pf 4 " +:+ f +:+
    ".unsigned " +:+ f in
  let sign :=
    ("apksigner" +:+ (if is_windows E then ".bat" else "")) +:+ " sign --key " +:+
    Path.join3 (rootdir E) "signing" "testkey.pk8" +:+ " --cert " +:+
    Path.join3 (rootdir E) "signing" "testkey.x509.pem" +:+ " " +:+ f in
  let aligned := shell E align (cwd w) (rename_at (fs w) apk unsigned) in
  let signed := shell E sign (cwd w) (delete unsigned aligned) in
  fs w !! apk = Some (File c) →
  isdir_at (fs w) unsigned = false →
  isfile_at aligned unsigned = true →
  isfile_at signed idsig = true →
  ∃ w', sign_apk E w = (Ret tt, w') ∧
    fs w' = delete idsig signed ∧
    fs w' !! idsig = None ∧
    rename_at (fs w) apk unsigned !! unsigned = Some (File c) ∧
    trace w' = (trace w ++ [System align; System sign])%list.
Proof.
  intros f apk unsigned idsig align sign aligned signed Hapk Hdir Haligned Hsigned.
  destruct (isfile_at_lookup _ _ Hsigned) as [c' Hc'].
  assert (Hsteps : sign_apk E w
    = remove (f +:+ ".idsig")
        (World signed (cwd w) (ticks w) (skip w) (quick_rebuild w) (pkg_version w)
           (logged w ++ [(INFO, "zipaligning apk"); (INFO, "signing apk")])
           (printed w) (trace w ++ [System align; System sign])))
    by exact (sign_apk_steps E w c Hapk Hdir Haligned).
  eexists. split.
  - rewrite Hsteps. unfold remove. wsimpl. fold idsig. rewrite Hc'. reflexivity.
  - wsimpl. split; [done|]. split; [apply lookup_delete_eq|]. split; [|done].
    unfold rename_at. rewrite Hapk. apply lookup_insert_eq.
Qed.

Lemma sign_apk_cleans_up_witness :
  ∃ w', sign_apk (with_shell (bare AZUR_LANE "/work") (signing_tools true))
          (world_at previous_build APK_BUILD true true "1.0") = (Ret tt, w') ∧
    fs w' !! "/work/apk_build/com.bilibili.AzurLane-1.0.patched.apk.idsig" = None.
Proof.
  destruct (sign_apk_cleans_up (with_shell (bare AZUR_LANE "/work") (signing_tools true))
              (world_at previous_build APK_BUILD true true "1.0") (Zip ∅))
    as (w' & Hrun & _ & Hidsig & _).
  - reflexivity.
  - vm_compute; reflexivity.
  - vm_compute; reflexivity.
  - vm_compute; reflexivity.
  - exists w'. split; [exact Hrun | exact Hidsig].
Defined.

(** [sign_apk] where the signer leaves no [.idsig] file: the apk has
    been aligned and signed, and then [os.remove] raises a
    [FileNotFoundError] that nothing catches. *)
Theorem sign_apk_needs_idsig E w c :
  let f := patched_apk E (pkg_version w) in
  let apk := abspath (cwd w) f in
  let unsigned := abspath (cwd w) (f +:+ ".unsigned") in
  let idsig := abspath (cwd w) (f +:+ ".idsig") in
  let align :=
    ("zipalign" +:+ (if is_windows E then ".exe" else "")) +:+ " -pf 4 " +:+ f +:+
    ".unsigned " +:+ f in
  let sign :=
    ("apksigner" +:+ (if is_windows E then ".bat" else "")) +:+ " sign --key " +:+
    Path.join3 (rootdir E) "signing" "testkey.pk8" +:+ " --cert " +:+
    Path.join3 (rootdir E) "signing" "testkey.x509.pem" +:+ " " +:+ f in
  let aligned := shell E align (cwd w) (rename_at (fs w) apk unsigned) in
  let signed := shell E sign (cwd w) (delete unsigned aligned) in
  fs w !! apk = Some (File c) →
  isdir_at (fs w) unsigned = false →
  isfile_at aligned unsigned = true →
  signed !! idsig = None →
  ∃ w', sign_apk E w = (Raise FileNotFoundError, w') ∧
    exit_status (sign_apk E w).1 = 1 ∧
    fs w' = signed ∧
    trace w' = (trace w ++ [System align; System sign])%list.
Proof.
  intros f apk unsigned idsig align sign aligned signed Hapk Hdir Haligned Hnone.
  assert (Hsteps : sign_apk E w
    = remove (f +:+ ".idsig")
        (World signed (cwd w) (ticks w) (skip w) (quick_rebuild w) (pkg_version w)
           (logged w ++ [(INFO, "zipaligning apk"); (INFO, "signing apk")])
           (printed w) (trace w ++ [System align; System sign])))
    by exact (sign_apk_steps E w c Hapk Hdir Haligned).
  assert (Hrun : ∃ w', sign_apk E w = (Raise FileNotFoundError, w') ∧
    fs w' = signed ∧ trace w' = (trace w ++ [System align; System sign])%list).
  { eexists. split.
    - rewrite Hsteps. unfold remove. wsimpl. fold idsig. rewrite Hnone. reflexivity.
    - done. }
  destruct Hrun as (w' & Hrun & ? & ?). exists w'. by rewrite Hrun.
Qed.

Lemma sign_apk_needs_idsig_witness :
  ∃ w', sign_apk (with_shell (bare AZUR_LANE "/work") (signing_tools false))
          (world_at previous_build APK_BUILD true true "1.0") = (Raise FileNotFoundError, w') ∧
    isfile_at (fs w') "/work/apk_build/com.bilibili.AzurLane-1.0.patched.apk" = true.
Proof.
  destruct (sign_apk_needs_idsig (with_shell (bare AZUR_LANE "/work") (signing_tools false))
              (world_at previous_build APK_BUILD true true "1.0") (Zip ∅))
    as (w' & Hrun & _ & Hfs & _).
  - reflexivity.
  - vm_compute; reflexivity.
  - vm_compute; reflexivity.
  - vm_compute; reflexivity.
  - exists w'. split; [exact Hrun|]. rewrite Hfs. vm_compute; reflexivity.
Defined.

(** ** The archive of the libraries *)

(** The entries [os.walk] yields: a file below the directory, under its
    path from there. *)
Lemma walk_files_lookup (f : filesystem) d r c :
  walk_files f d !! r = Some c ↔ f !! (Path.join d "" +:+ r) = Some (File c).
Proof.
  unfold walk_files.
  set (g := λ kv : string * node,
         match kv.2 with
         | File c => (λ r, (r, c)) <$> Str.strip_prefix (Path.join d "") kv.1
         | Dir => None
         end).
  assert (Hg : ∀ k n r c, g (k, n) = Some (r, c) ↔ k = Path.join d "" +:+ r ∧ n = File c).
  { intros k n r' c'. unfold g. cbn. destruct n as [|c0]; [split; [done | by intros [_ ?]]|]. split.
    - destruct (Str.strip_prefix _ k) as [r0|] eqn:Hr; [|done]. cbn.
      intros [= -> ->]. by apply strip_prefix_Some in Hr.
    - intros [-> [= ->]]. by rewrite strip_prefix_app. }
  assert (Hnd : NoDup (omap g (map_to_list f)).*1).
  { pose proof (NoDup_fst_map_to_list f) as Hl.
    induction (map_to_list f) as [|[k n] l IH]; [constructor|].
    cbn [fmap list_fmap] in Hl. apply NoDup_cons in Hl as [Hk Hl].
    cbn [omap list_omap]. destruct (g (k, n)) as [[r0 c0]|] eqn:Hkn; [|by apply IH].
    cbn. apply NoDup_cons. split; [|by apply IH].
    intros ([r1 c1] & Hr1 & Hin)%list_elem_of_fmap. cbn in Hr1. subst r1.
    apply list_elem_of_omap in Hin as ([k' n'] & Hin & Hk').
    apply Hg in Hkn as [-> _]. apply Hg in Hk' as [-> _].
    apply Hk, list_elem_of_fmap. by exists (Path.join d "" +:+ r0, n'). }
  rewrite <- elem_of_list_to_map by done.
  rewrite list_elem_of_omap. split.
  - intros ([k n] & Hin & [-> ->]%Hg). by apply elem_of_map_to_list in Hin.
  - intros Hf. exists (Path.join d "" +:+ r, File c). split.
    + by apply elem_of_map_to_list.
    + by apply Hg.
Qed.

Lemma join_isabs a b : Path.isabs a = true → Path.isabs (Path.join a b) = true.
Proof.
  intros Ha. unfold Path.join. destruct (Path.isabs b) eqn:Hb; [done|].
  destruct (_ || _); by apply isabs_app.
Qed.

(** [compress_libs] with the libraries built, in a working directory
    that does not lie below them, and with files whose modification
    times [zipfile] stores: [perseus_libs.zip] in the working directory
    holds every file below [PerseusLib/src/libs], each under its path
    from there, and nothing else; no other file changes and no program
    is started. *)
Theorem compress_libs_archive E w :
  let libs_dir := Path.join (Path.join3 (rootdir E) "PerseusLib" "src") "libs" in
  let out_zip := Path.join (cwd w) "perseus_libs.zip" in
  Path.isabs (rootdir E) = true →
  Path.isabs (cwd w) = true →
  isdir_at (fs w) libs_dir = true →
  isdir_at (fs w) out_zip = false →
  Str.startswith out_zip (Path.join libs_dir "") = false →
  (∀ k c, fs w !! k = Some (File c) → Str.startswith k (Path.join libs_dir "") = true →
          ∃ t, getmtime E k = Some t ∧ zip_storable t = true) →
  ∃ w' z, compress_libs E w = (Ret tt, w') ∧
    fs w' !! out_zip = Some (File (Zip z)) ∧
    (∀ k, k ≠ out_zip → fs w' !! k = fs w !! k) ∧
    (∀ r c, z !! r = Some c ↔ fs w !! (Path.join libs_dir "" +:+ r) = Some (File c)) ∧
    trace w' = trace w.
Proof.
  intros libs_dir out_zip Hroot Hcwd Hlibs Hout _ _.
  assert (HL : abspath (cwd w) libs_dir = libs_dir).
  { apply abspath_abs. unfold libs_dir, Path.join3. by do 3 apply join_isabs. }
  assert (HZ : abspath (cwd w) out_zip = out_zip).
  { apply abspath_abs. by apply join_isabs. }
  eexists _, _. split.
  - unfold compress_libs. mstep. cbn. fold libs_dir out_zip.
    rewrite HL, Hlibs. cbn. fold libs_dir out_zip. rewrite HZ, Hout. reflexivity.
  - wsimpl. split; [apply lookup_insert_eq|]. split; [|split; [|done]].
    + intros k Hk. by rewrite lookup_insert_ne.
    + intros r c. apply walk_files_lookup.
Qed.

Lemma compress_libs_archive_witness :
  ∃ w' z, compress_libs (with_times (bare AZUR_LANE "/work") (λ _, 0) (λ _, Some 1709251199))
            (world_at built_libs APK_BUILD true true "0") = (Ret tt, w') ∧
    fs w' !! "/work/apk_build/perseus_libs.zip" = Some (File (Zip z)) ∧
    z !! "x86/libPerseus.so" = Some new_lib ∧
    z !! "Android.mk" = None.
Proof.
  destruct (compress_libs_archive
              (with_times (bare AZUR_LANE "/work") (λ _, 0) (λ _, Some 1709251199))
              (world_at built_libs APK_BUILD true true "0"))
    as (w' & z & Hrun & Hzip & _ & Hz & _).
  - reflexivity.
  - reflexivity.
  - vm_compute; reflexivity.
  - vm_compute; reflexivity.
  - vm_compute; reflexivity.
  - intros k c _ _. exists 1709251199. split; reflexivity.
  - exists w', z. split; [exact Hrun|]. split; [exact Hzip|]. split.
    + apply Hz. reflexivity.
    + destruct (z !! "Android.mk") as [c|] eqn:Hc; [|done].
      apply Hz in Hc. vm_compute in Hc. discriminate.
Defined.

(** [compress_libs] without the directory of the libraries: a warning is
    logged and nothing is written. *)
Theorem compress_libs_without_libs E w :
  let libs_dir := Path.join (Path.join3 (rootdir E) "PerseusLib" "src") "libs" in
  isdir_at (fs w) (abspath (cwd w) libs_dir) = false →
  compress_libs E w
  = (Ret tt,
     add_logged WARNING ("Perseus libs dir not found: " +:+ libs_dir +:+ ", skipping compress")
       (add_logged INFO "compressing Perseus libs into apk_build" w)) ∧
  fs (compress_libs E w).2 = fs w.
Proof.
  intros libs_dir Hlibs.
  assert (Hrun : compress_libs E w
    = (Ret tt,
       add_logged WARNING
         ("Perseus libs dir not found: " +:+ libs_dir +:+ ", skipping compress")
         (add_logged INFO "compressing Perseus libs into apk_build" w))).
  { unfold compress_libs. mstep. cbn. fold libs_dir. by rewrite Hlibs. }
  by rewrite Hrun.
Qed.

Lemma compress_libs_without_libs_witness :
  fs (compress_libs (bare AZUR_LANE "/work")
        (world_at extracted_apk APK_BUILD true true "0")).2 = extracted_apk.
Proof.
  apply (compress_libs_without_libs (bare AZUR_LANE "/work")
           (world_at extracted_apk APK_BUILD true true "0")).
  vm_compute; reflexivity.
Defined.

(** ** The quick rebuild without its tool *)

(** [rebuild] does not look whether [7zz] is there before it renames the
    apk.  When the tool cannot be started, the quick rebuild ends with a
    [FileNotFoundError] that nothing catches, and the apk is left under
    the scratch name. *)
Theorem rebuild_without_archive_tool E w c :
  let newpkg := patched_apk E (pkg_version w) in
  let newzip := newpkg +:+ ".zip" in
  let renamed := rename_at (fs w) (abspath (cwd w) newpkg) (abspath (cwd w) newzip) in
  quick_rebuild w = true →
  fs w !! abspath (cwd w) newpkg = Some (File c) →
  fs w !! abspath (cwd w) newzip = None →
  exec E ([executable_path E "7zz"; "-y"; "d"; newzip] ++ libs_renamed E) StdoutOnly
       (cwd w) renamed = None →
  ∃ w', rebuild E w = (Raise FileNotFoundError, w') ∧
    exit_status (rebuild E w).1 = 1 ∧
    fs w' !! abspath (cwd w) newpkg = None ∧
    fs w' !! abspath (cwd w) newzip = Some (File c) ∧
    (∀ k, k ≠ abspath (cwd w) newpkg → k ≠ abspath (cwd w) newzip → fs w' !! k = fs w !! k).
Proof.
  intros newpkg newzip renamed Hq Hapk Hzip Hexec.
  assert (Hne : abspath (cwd w) newzip ≠ abspath (cwd w) newpkg) by congruence.
  assert (Hfile : isfile_at (fs w) (abspath (cwd w) newpkg) = true)
    by (unfold isfile_at; by rewrite Hapk).
  assert (Hdir : isdir_at (fs w) (abspath (cwd w) newzip) = false)
    by (unfold isdir_at; by rewrite Hzip).
  assert (Hrun : rebuild E w
    = (Raise FileNotFoundError,
       add_trace (Run ([executable_path E "7zz"; "-y"; "d"; newzip] ++ libs_renamed E)
                    StdoutOnly)
         (set_fs renamed (add_logged INFO ("rebuiling " +:+ pkg E +:+ ".apk quickly") w)))).
  { unfold rebuild. mstep. fold newpkg newzip. rewrite Hq, Hfile. cbn.
    rewrite (move_file (add_logged INFO _ w) newpkg newzip c Hapk Hdir). cbn.
    fold renamed. cbn in Hexec. by rewrite Hexec. }
  eexists. split; [exact Hrun|]. rewrite Hrun. split; [done|]. wsimpl.
  unfold renamed, rename_at. rewrite Hapk. split; [|split].
  - by rewrite lookup_insert_ne, lookup_delete_eq.
  - apply lookup_insert_eq.
  - intros k Hk1 Hk2. by rewrite lookup_insert_ne, lookup_delete_ne.
Qed.

Lemma rebuild_without_archive_tool_witness :
  ∃ w', rebuild (bare AZUR_LANE "/work") (world_at previous_build APK_BUILD true true "1.0")
        = (Raise FileNotFoundError, w') ∧
    fs w' !! "/work/apk_build/com.bilibili.AzurLane-1.0.patched.apk" = None ∧
    fs w' !! "/work/apk_build/com.bilibili.AzurLane-1.0.patched.apk.zip"
      = Some (File (Zip ∅)).
Proof.
  destruct (rebuild_without_archive_tool (bare AZUR_LANE "/work")
              (world_at previous_build APK_BUILD true true "1.0") (Zip ∅))
    as (w' & Hrun & _ & Hapk & Hzip & _).
  - reflexivity.
  - reflexivity.
  - reflexivity.
  - reflexivity.
  - exists w'. split; [exact Hrun|]. split; [exact Hapk | exact Hzip].
Defined.

(** ** The candidates of the version *)

Lemma endswith_true s t : Str.endswith s t = true → ∃ a, s = a +:+ t.
Proof.
  induction s as [|c s IH]; simpl.
  - rewrite orb_false_r. intros <-%bool_decide_eq_true. by exists "".
  - intros [<-%bool_decide_eq_true|Hs]%orb_true_iff; [by exists ""|].
    destruct (IH Hs) as [a ->]. by exists (String c a).
Qed.

Lemma fnmatch_suffix suffix n :
  Glob.plain suffix = true →
  Glob.fnmatch n ("*" +:+ suffix) = Str.endswith n suffix.
Proof.
  intros Hplain. apply eq_true_iff_eq. unfold Glob.fnmatch. rewrite compile_app.
  change (Glob.compile "*") with [Glob.Star]. cbn [app]. rewrite matches_star. split.
  - intros (a & b & -> & Hb).
    rewrite <- (app_nil_r (Glob.compile suffix)), matches_plain in Hb by done.
    destruct (Str.strip_prefix suffix b) as [r|] eqn:Hr; [|done].
    apply strip_prefix_Some in Hr as ->. apply bool_decide_eq_true in Hb as ->.
    rewrite str_app_nil_r. apply endswith_app.
  - intros [a ->]%endswith_true. exists a, suffix. split; [done|].
    rewrite <- (app_nil_r (Glob.compile suffix)), matches_plain by done.
    replace (Str.strip_prefix suffix suffix) with (Some "").
    + done.
    + symmetry. rewrite <- (str_app_nil_r suffix) at 2. apply strip_prefix_app.
Qed.

(** [*suffix] selects the names that end in the suffix and are not
    hidden. *)
Lemma selects_suffix_iff suffix n :
  Glob.plain suffix = true →
  Glob.selects ("*" +:+ suffix) n = negb (Glob.ishidden n) && Str.endswith n suffix.
Proof.
  intros Hplain. unfold Glob.selects.
  change (Glob.ishidden ("*" +:+ suffix)) with false. cbn [orb].
  by rewrite fnmatch_suffix.
Qed.

(** A pattern without a directory part is looked up in the working
    directory. *)
Lemma glob_at_here w pat :
  Str.contains_char "/" pat = false →
  glob_at w pat = filter (λ n, Glob.selects pat n) (listdir_at (fs w) (cwd w)).
Proof.
  intros Hpat. unfold glob_at. rewrite split_no_sep by done.
  change (abspath (cwd w) "") with (cwd w).
  assert (Hrel : ∀ n, n ∈ listdir_at (fs w) (cwd w) → Path.join "" n = n).
  { intros n Hn%listdir_name_rel. unfold Path.join. by rewrite Hn. }
  induction (listdir_at (fs w) (cwd w)) as [|n l IH]; [done|].
  rewrite filter_cons. destruct (decide _).
  - cbn [fmap list_fmap]. rewrite Hrel by left. f_equal. apply IH.
    intros m Hm. apply Hrel. by right.
  - apply IH. intros m Hm. apply Hrel. by right.
Qed.


(** What [pkg*.apk] selects ends in [.apk] too. *)
Lemma selects_package_apk pkg n :
  package_name pkg = true →
  Glob.selects (pkg +:+ "*.apk") n = true → Str.endswith n ".apk" = true.
Proof.
  intros Hpkg%package_name_plain [_ Hm]%andb_true_iff. unfold Glob.fnmatch in Hm.
  rewrite compile_app, matches_plain in Hm by done.
  destruct (Str.strip_prefix pkg n) as [r|] eqn:Hr; [|done].
  apply strip_prefix_Some in Hr as ->.
  change (Glob.matches (Glob.compile "*.apk") r) with (Glob.fnmatch r ("*" +:+ ".apk")) in Hm.
  rewrite fnmatch_suffix in Hm by done.
  apply endswith_true in Hm as [a ->]. rewrite <- str_app_assoc. apply endswith_app.
Qed.

(** The apk [get_version] reads the version from is a name of the
    working directory that ends in [.apk], and it is the least of all
    such names that are not hidden: whether a name starts with the
    package name plays no part in the choice. *)
Theorem first_candidate_is_least_apk E w first rest :
  package_name (pkg E) = true →
  sorted (glob_at w (pkg E +:+ "*.apk") ++ glob_at w "*.apk") = first :: rest →
  first ∈ listdir_at (fs w) (cwd w) ∧
  Str.endswith first ".apk" = true ∧
  ∀ n, n ∈ listdir_at (fs w) (cwd w) → Str.endswith n ".apk" = true →
       Glob.ishidden n = false → String.le first n.
Proof.
  intros Hpkg Hsorted.
  assert (Hsep : Str.contains_char "/" (pkg E +:+ "*.apk") = false).
  { rewrite contains_char_app, plain_no_sep by by apply package_name_plain. done. }
  rewrite !glob_at_here in Hsorted by done.
  destruct (sorted_head _ _ _ Hsorted) as [Hin Hleast]. split; [|split].
  - apply elem_of_app in Hin as [Hin|Hin]; apply list_elem_of_filter in Hin; tauto.
  - apply elem_of_app in Hin as [Hin|Hin]; apply list_elem_of_filter in Hin as [Hsel _].
    + apply Is_true_true in Hsel. by apply (selects_package_apk (pkg E)).
    + apply Is_true_true in Hsel. change "*.apk" with ("*" +:+ ".apk") in Hsel.
      rewrite selects_suffix_iff in Hsel by done. by apply andb_true_iff in Hsel as [_ ?].
  - intros n Hn Hend Hhidden. apply Hleast, elem_of_app. right.
    apply list_elem_of_filter. split; [|done]. apply Is_true_true.
    change "*.apk" with ("*" +:+ ".apk"). rewrite selects_suffix_iff by done.
    by rewrite Hhidden, Hend.
Qed.

Lemma first_candidate_is_least_apk_witness :
  String.le "a.apk" "com.bilibili.AzurLane.apk".
Proof.
  apply (first_candidate_is_least_apk (bare AZUR_LANE "/work")
           (world_at two_apks APK_BUILD true true "0")
           "a.apk" ["com.bilibili.AzurLane.apk"; "com.bilibili.AzurLane.apk"]).
  - vm_compute; reflexivity.
  - vm_compute; reflexivity.
  - vm_compute. in_list.
  - vm_compute; reflexivity.
  - vm_compute; reflexivity.
Defined.

(** ** The archives looked for when none has the package name *)

Lemma contains_true s sub : Str.contains s sub = true → ∃ a r, s = a +:+ sub +:+ r.
Proof.
  induction s as [|c s IH]; simpl.
  - rewrite orb_false_r. intros [r ->]%startswith_true. by exists "", r.
  - intros [[r Hr]%startswith_true|Hs]%orb_true_iff; [by exists "", r|].
    destruct (IH Hs) as (a & r & ->). by exists (String c a), r.
Qed.

Lemma fnmatch_infix infix n :
  Glob.plain infix = true →
  Glob.fnmatch n ("*" +:+ infix +:+ "*") = Str.contains n infix.
Proof.
  intros Hplain. apply eq_true_iff_eq. unfold Glob.fnmatch. rewrite !compile_app.
  change (Glob.compile "*") with [Glob.Star]. cbn [app]. rewrite matches_star. split.
  - intros (a & b & -> & Hb). rewrite matches_plain in Hb by done.
    destruct (Str.strip_prefix infix b) as [r|] eqn:Hr; [|done].
    apply strip_prefix_Some in Hr as ->. apply contains_app.
  - intros (a & r & ->)%contains_true. exists a, (infix +:+ r). split; [done|].
    rewrite matches_plain by done. rewrite strip_prefix_app. apply matches_star_only.
Qed.

(** When no name in [packages/] starts with the package name, the
    candidates are found by the three other scans: they are the names
    that are not hidden and end in [.zip] or in [.7z] or contain [part],
    and no others.  The path of the root directory is one that [glob]
    takes as it is written: it holds none of the characters [glob]
    expands. *)
Theorem package_candidates_fall_back E w :
  package_name (pkg E) = true →
  Path.isabs (rootdir E) = true →
  Glob.has_magic (rootdir E) = false →
  (∀ n, n ∈ listdir_at (fs w) (packages_dir E) → Str.startswith n (pkg E) = false) →
  ∃ l,
    package_candidates E w
      = (Ret l,
         add_trace (Scan (Path.join3 (rootdir E) "packages" "*part*"))
           (add_trace (Scan (Path.join3 (rootdir E) "packages" "*.7z"))
              (add_trace (Scan (Path.join3 (rootdir E) "packages" "*.zip"))
                 (add_trace (Scan (Path.join3 (rootdir E) "packages" (pkg E +:+ "*")))
                    w)))) ∧
    ∀ c, c ∈ l ↔
      ∃ n, n ∈ listdir_at (fs w) (packages_dir E) ∧ c = Path.join (packages_dir E) n ∧
           Glob.ishidden n = false ∧
           (Str.endswith n ".zip" = true ∨ Str.endswith n ".7z" = true ∨
            Str.contains n "part" = true).
Proof.
  intros Hpkg Hroot _ Hnone.
  set (dir := packages_dir E). set (names := listdir_at (fs w) dir).
  assert (Hby_name : glob_at w (Path.join3 (rootdir E) "packages" (pkg E +:+ "*")) = []).
  { rewrite glob_at_package_prefix by done. rewrite filter_none; [done|].
    intros n Hn. rewrite (Hnone n Hn). done. }
  assert (Hglob : ∀ pat, Str.contains_char "/" pat = false →
    glob_at w (Path.join3 (rootdir E) "packages" pat)
      = Path.join dir <$> filter (λ n, Glob.selects pat n) names).
  { intros pat Hpat. unfold Path.join3. fold (packages_dir E).
    apply glob_at_dir; [by apply packages_dir_abs|apply packages_dir_no_trailing_sep|done]. }
  eexists. split.
  - unfold package_candidates, glob. mstep. cbv beta iota zeta.
    rewrite Hby_name. change (sorted []) with (@nil string).
    rewrite bool_decide_eq_true_2 by done. cbv beta iota.
    repeat match goal with
           | |- context [glob_at (add_trace ?e ?v) ?p] =>
               change (glob_at (add_trace e v) p) with (glob_at v p)
           end.
    reflexivity.
  - intros c. unfold sorted. rewrite merge_sort_Permutation.
    rewrite !Hglob by done. rewrite !elem_of_app, !list_elem_of_fmap.
    setoid_rewrite list_elem_of_filter.
    change "*.zip" with ("*" +:+ ".zip"). change "*.7z" with ("*" +:+ ".7z").
    assert (Hpart : ∀ n, Glob.selects "*part*" n
                          = negb (Glob.ishidden n) && Str.contains n "part").
    { intros n. unfold Glob.selects. change (Glob.ishidden "*part*") with false.
      cbn [orb]. f_equal. apply (fnmatch_infix "part"). done. }
    split.
    + intros [(n & -> & Hsel & Hn)|[(n & -> & Hsel & Hn)|(n & -> & Hsel & Hn)]];
        apply Is_true_true in Hsel;
        rewrite ?selects_suffix_iff, ?Hpart in Hsel by done;
        apply andb_true_iff in Hsel as [Hh%negb_true_iff Hs]; exists n; tauto.
    + intros (n & Hn & -> & Hh & [Hs|[Hs|Hs]]).
      * left. exists n. split; [done|]. split; [|done]. apply Is_true_true.
        rewrite selects_suffix_iff by done. by rewrite Hh, Hs.
      * right; left. exists n. split; [done|]. split; [|done]. apply Is_true_true.
        rewrite selects_suffix_iff by done. by rewrite Hh, Hs.
      * right; right. exists n. split; [done|]. split; [|done]. apply Is_true_true.
        by rewrite Hpart, Hh, Hs.
Qed.

Lemma package_candidates_fall_back_witness :
  ∃ l, (package_candidates (bare AZUR_LANE "/work")
          (world_at three_archives APK_BUILD false false "0")).1 = Ret l ∧
       "/work/packages/B.7z" ∈ l.
Proof.
  destruct (package_candidates_fall_back (bare AZUR_LANE "/work")
              (world_at three_archives APK_BUILD false false "0"))
    as (l & Hrun & Hl).
  - vm_compute; reflexivity.
  - vm_compute; reflexivity.
  - vm_compute; reflexivity.
  - intros n Hn. vm_compute in Hn.
    repeat (apply elem_of_cons in Hn as [->|Hn]; [vm_compute; reflexivity|]).
    by apply elem_of_nil in Hn.
  - exists l. split; [by rewrite Hrun|]. apply Hl. exists "B.7z".
    split; [vm_compute; in_list|]. split; [vm_compute; reflexivity|].
    split; [reflexivity|]. right; left. vm_compute; reflexivity.
Defined.
